(** * Validation and normalization core of the e-learning authoring front end

    A shallow embedding of
    - [ValidationService] and the three entity validators
      (services/ValidationService.ts, services/validators/*.ts),
    - [transformCourseForBackend] and [transformCourseForExport]
      (utils/transform.ts),
    - the client/server merge of [CourseContext.validateCourse],
    followed by the properties the specification states about them.

    Conventions.  A JavaScript string is a sequence of code units; the model
    keeps the code units below 256 ([string] of [ascii]).  Numbers that occur
    (order fields, indices, lengths) are integers ([Z], [nat] for indices);
    an integer that is not a double stands for the double nearest to it
    where it is printed.
    A thrown exception is the [Throw] outcome of the [result] monad.  Records
    stand for objects whose shape a TypeScript interface declares: a property
    that is absent and a property whose value is [undefined] are the same
    record ([None], or [VUndefined] for a property typed [any]).  Payloads
    typed [any] are [value]s. *)

From Stdlib Require Import String Ascii List ZArith Lia Bool Arith.
From Stdlib Require Import Permutation Sorted.
From Stdlib Require Import Decimal DecimalString.
Import ListNotations.
Open Scope string_scope.
Open Scope list_scope.

(** String concatenation, as in template literals. *)
Infix "+++" := String.append (right associativity, at level 60).

Set Implicit Arguments.
Set Warnings "-register-all".

(* ================================================================== *)
(** ** JavaScript values and the operators the sources use *)

Module JS.

Inductive value : Type :=
| VUndefined
| VNull
| VBool (b : bool)
| VNum (n : Z)
| VStr (s : string)
| VArr (l : list value)
| VObj (o : list (string * value)).

(** Outcome of code that may throw. *)
Inductive result (A : Type) : Type :=
| Ok (a : A)
| Throw (err : string).
Arguments Ok {A} a.
Arguments Throw {A} err.

Definition bind {A B} (r : result A) (k : A -> result B) : result B :=
  match r with
  | Ok a => k a
  | Throw e => Throw e
  end.

Definition TypeError : string := "TypeError".

(** [ToBoolean]. *)
Definition truthy (v : value) : bool :=
  match v with
  | VUndefined | VNull => false
  | VBool b => b
  | VNum n => negb (n =? 0)%Z
  | VStr s => negb (s =? "")
  | VArr _ | VObj _ => true
  end.

(** [a || b] and [a ?? b]. *)
Definition or_else (a b : value) : value := if truthy a then a else b.

Definition nullish (v : value) : bool :=
  match v with
  | VUndefined | VNull => true
  | _ => false
  end.

Definition coalesce (a b : value) : value := if nullish a then b else a.

(** On an optional string property: [s || d] and truthiness. *)
Definition str_truthy (s : option string) : bool :=
  match s with
  | Some x => negb (x =? "")
  | None => false
  end.

Definition str_or (s : option string) (d : string) : string :=
  match s with
  | Some x => if x =? "" then d else x
  | None => d
  end.

(** Own property of an object, first binding of the key. *)
Fixpoint lookup (k : string) (o : list (string * value)) : value :=
  match o with
  | [] => VUndefined
  | (k', v) :: o' => if k' =? k then v else lookup k o'
  end.

(** [{...o, k: v}]: an existing key keeps its place, a new one goes last. *)
Fixpoint set_prop (k : string) (v : value) (o : list (string * value))
  : list (string * value) :=
  match o with
  | [] => [(k, v)]
  | (k', v') :: o' =>
      if k' =? k then (k, v) :: o' else (k', v') :: set_prop k v o'
  end.

(** [v?.k] for data properties: nullish and primitive receivers give
    [undefined]; arrays carry no such named property. *)
Definition opt_prop (k : string) (v : value) : value :=
  match v with
  | VObj o => lookup k o
  | _ => VUndefined
  end.

(** [v.k]: reading a property of [undefined] or [null] throws. *)
Definition prop (k : string) (v : value) : result value :=
  match v with
  | VUndefined | VNull => Throw TypeError
  | _ => Ok (opt_prop k v)
  end.

(** Decimal rendering of an array index or a length, as template literals
    do. *)
Definition nat_to_string (n : nat) : string :=
  NilEmpty.string_of_uint (Nat.to_uint n).

(** All decimal digits of an integer. *)
Definition decimal (z : Z) : string :=
  NilZero.string_of_int (Z.to_int z).

(** The double nearest to a non-negative integer, ties to the even
    mantissa. *)
Definition nearest_double (z : Z) : Z :=
  let b := Z.log2 z in
  if (b <? 53)%Z then z
  else
    let e := (b - 52)%Z in
    let q := Z.shiftr z e in
    let r := (z - Z.shiftl q e)%Z in
    let half := Z.shiftl 1 (e - 1) in
    let q' := if (half <? r)%Z || ((r =? half)%Z && Z.odd q)
              then (q + 1)%Z else q in
    Z.shiftl q' e.

(** [Number::toString] picks the fewest significant digits that still read
    back as the same double, and among those the closest to it (the even
    one on a tie).  [x] is an integer double of at least 2^53;
    [lo2 .. hi2] is twice the range of reals that round to [x], [closed]
    when its ends do (even mantissa); [p] is the power of ten the
    candidates are multiples of, tried from the largest down. *)
Fixpoint shortest_from (fuel : nat) (x lo2 hi2 : Z) (closed : bool) (p : Z)
  : Z :=
  let inside v :=
    if closed then ((lo2 <=? 2 * v) && (2 * v <=? hi2))%Z
    else ((lo2 <? 2 * v) && (2 * v <? hi2))%Z in
  let v1 := (x / p * p)%Z in
  let v2 := (v1 + p)%Z in
  match inside v1, inside v2 with
  | true, true =>
      if (x - v1 <? v2 - x)%Z then v1
      else if (v2 - x <? x - v1)%Z then v2
      else if Z.even (x / p) then v1 else v2
  | true, false => v1
  | false, true => v2
  | false, false =>
      match fuel with
      | O => x
      | S fuel' => shortest_from fuel' x lo2 hi2 closed (p / 10)
      end
  end.

Definition shortest (x : Z) : Z :=
  let e := (Z.log2 x - 52)%Z in
  let m := Z.shiftr x e in
  let gap_high := Z.shiftl 1 e in
  let gap_low := if (m =? 2 ^ 52)%Z then Z.shiftl 1 (e - 1) else gap_high in
  let n0 := String.length (decimal x) in
  shortest_from (n0 - 1) x (2 * x - gap_low)%Z (2 * x + gap_high)%Z
    (Z.even m) (10 ^ Z.of_nat (n0 - 1))%Z.

Fixpoint strip_zeros (s : string) : string :=
  match s with
  | EmptyString => EmptyString
  | String c s' =>
      match strip_zeros s' with
      | EmptyString =>
          if Ascii.eqb c "0" then EmptyString else String c EmptyString
      | r => String c r
      end
  end.

(** [d.ddd...e+n] for a positive integer. *)
Definition exponent_form (v : Z) : string :=
  let s := decimal v in
  match strip_zeros s with
  | String c rest =>
      String c (match rest with
                | EmptyString => ""
                | _ => "." +++ rest
                end)
      +++ "e+" +++ decimal (Z.of_nat (String.length s - 1))
  | EmptyString => s
  end.

(** [String(n)] and [`${n}`] for an integer [n], as [Number::toString]
    gives it: up to 2^53 every digit; above, the shortest digits of the
    double, filled up with zeros below 10^21 and in exponent form from
    there on; [Infinity] from 2^1024 on. *)
Definition number_to_string (z : Z) : string :=
  if (Z.log2 z <? 53)%Z then decimal z
  else
    let x := nearest_double z in
    if (2 ^ 1024 <=? x)%Z then "Infinity"
    else
      let v := shortest x in
      if (v <? 10 ^ 21)%Z then decimal v else exponent_form v.

Definition Z_to_string (z : Z) : string :=
  if (z <? 0)%Z then "-" +++ number_to_string (- z)
  else number_to_string z.

(** [String.prototype.trim]: the white space and line terminator code units
    below 256. *)
Definition is_space (c : ascii) : bool :=
  let n := nat_of_ascii c in
  ((9 <=? n) && (n <=? 13) || (n =? 32) || (n =? 160))%nat.

Fixpoint trim_start (s : string) : string :=
  match s with
  | String c s' => if is_space c then trim_start s' else s
  | EmptyString => EmptyString
  end.

Fixpoint trim_end (s : string) : string :=
  match s with
  | String c s' =>
      match trim_end s' with
      | EmptyString => if is_space c then EmptyString else String c EmptyString
      | r => String c r
      end
  | EmptyString => EmptyString
  end.

Definition trim (s : string) : string := trim_end (trim_start s).

(** [s.startsWith(p)] and [s.includes(p)]. *)
Definition startsWith (s p : string) : bool := String.prefix p s.

Fixpoint includes (s p : string) : bool :=
  String.prefix p s ||
  match s with
  | String _ s' => includes s' p
  | EmptyString => false
  end.

(** [/^\d+\.\d+\.\d+$/.test(s)]. *)
Definition is_digit (c : ascii) : bool :=
  let n := nat_of_ascii c in ((48 <=? n) && (n <=? 57))%nat.

Fixpoint skip_digits (s : string) : string :=
  match s with
  | String c s' => if is_digit c then skip_digits s' else s
  | EmptyString => EmptyString
  end.

(** One or more digits, then the rest of the input. *)
Definition digits1 (s : string) : option string :=
  match s with
  | String c s' => if is_digit c then Some (skip_digits s') else None
  | EmptyString => None
  end.

Definition dot (s : string) : option string :=
  match s with
  | String "."%char s' => Some s'
  | _ => None
  end.

Definition is_semver (s : string) : bool :=
  match digits1 s with
  | Some r1 =>
      match dot r1 with
      | Some r2 =>
          match digits1 r2 with
          | Some r3 =>
              match dot r3 with
              | Some r4 =>
                  match digits1 r4 with
                  | Some EmptyString => true
                  | _ => false
                  end
              | None => false
              end
          | None => false
          end
      | None => false
      end
  | None => false
  end.

(** [JSON.parse(JSON.stringify(v))] below the top level: properties whose
    value is [undefined] are dropped, [undefined] array elements become
    [null]. *)
Fixpoint clone (v : value) : value :=
  match v with
  | VArr l =>
      VArr (map (fun x => match x with
                          | VUndefined => VNull
                          | _ => clone x
                          end) l)
  | VObj o =>
      VObj ((fix fields (o : list (string * value)) :=
               match o with
               | [] => []
               | (k, x) :: o' =>
                   match x with
                   | VUndefined => fields o'
                   | _ => (k, clone x) :: fields o'
                   end
               end) o)
  | _ => v
  end.

(** [arr.findIndex(f)] for a callback that may throw; [-1] when no element
    satisfies it. *)
Fixpoint findIndex_from {A} (f : A -> result bool) (l : list A) (i : Z)
  : result Z :=
  match l with
  | [] => Ok (-1)%Z
  | x :: l' =>
      bind (f x) (fun b => if b then Ok i else findIndex_from f l' (i + 1)%Z)
  end.

Definition findIndex {A} (f : A -> result bool) (l : list A) : result Z :=
  findIndex_from f l 0%Z.

(** [arr.map((x, i) => f x i)]. *)
Fixpoint mapi_from {A B} (f : A -> nat -> B) (l : list A) (i : nat) : list B :=
  match l with
  | [] => []
  | x :: l' => f x i :: mapi_from f l' (S i)
  end.

Definition mapi {A B} (f : A -> nat -> B) (l : list A) : list B :=
  mapi_from f l 0.

(** The same for a callback that may throw. *)
Fixpoint mapM {A B} (f : A -> result B) (l : list A) : result (list B) :=
  match l with
  | [] => Ok []
  | x :: l' =>
      bind (f x) (fun y => bind (mapM f l') (fun ys => Ok (y :: ys)))
  end.

(** [arr.map((x, i) => f x i)] for a callback that may throw. *)
Fixpoint mapMi_from {A B} (f : A -> nat -> result B) (l : list A) (i : nat)
  : result (list B) :=
  match l with
  | [] => Ok []
  | x :: l' =>
      bind (f x i)
        (fun y => bind (mapMi_from f l' (S i)) (fun ys => Ok (y :: ys)))
  end.

Definition mapMi {A B} (f : A -> nat -> result B) (l : list A)
  : result (list B) :=
  mapMi_from f l 0.

(** [v.trim()]: only a string has the method. *)
Definition js_trim (v : value) : result string :=
  match v with
  | VStr s => Ok (trim s)
  | _ => Throw TypeError
  end.

(** [Array.isArray(v) ? v : []]. *)
Definition array_or_empty (v : value) : list value :=
  match v with
  | VArr l => l
  | _ => []
  end.

(** Own enumerable properties copied by [{...v}]. *)
Definition spread (v : value) : list (string * value) :=
  match v with
  | VObj o => o
  | VArr l => mapi (fun x i => (nat_to_string i, x)) l
  | VStr s =>
      mapi (fun c i => (nat_to_string i, VStr (String c EmptyString)))
        (list_ascii_of_string s)
  | _ => []
  end.

(** [arr.join(",")] on the elements' strings. *)
Fixpoint join (l : list string) : string :=
  match l with
  | [] => ""
  | [x] => x
  | x :: l' => x +++ "," +++ join l'
  end.

(** [String(v)]: an array joins its elements with commas, [undefined] and
    [null] elements as the empty string; a plain object gives
    "[object Object]". *)
Fixpoint js_String (v : value) : string :=
  match v with
  | VUndefined => "undefined"
  | VNull => "null"
  | VBool true => "true"
  | VBool false => "false"
  | VNum n => Z_to_string n
  | VStr s => s
  | VArr l =>
      join (map (fun x => match x with
                          | VUndefined | VNull => ""
                          | _ => js_String x
                          end) l)
  | VObj _ => "[object Object]"
  end.

(* ---------------------------------------------------------------- *)
(** *** A string read as a number

    [Number(s)], as the relational operators apply it to a string operand:
    white space is trimmed; the empty string is 0; "Infinity" with an
    optional sign; a hexadecimal, octal or binary integer ("0x", "0o",
    "0b", no sign); a decimal literal with optional sign, fraction and
    exponent; anything else is [NaN]. *)

Inductive numeric :=
| NaN
| Infinite (negative : bool)
| Scaled (negative : bool) (mantissa exponent : Z).

Definition decimal_digit (c : ascii) : option Z :=
  let n := nat_of_ascii c in
  if ((48 <=? n) && (n <=? 57))%nat then Some (Z.of_nat (n - 48)) else None.

Definition based_digit (base : Z) (c : ascii) : option Z :=
  let n := nat_of_ascii c in
  let d :=
    if ((48 <=? n) && (n <=? 57))%nat then Some (Z.of_nat (n - 48))
    else if ((97 <=? n) && (n <=? 102))%nat then Some (Z.of_nat (n - 87))
    else if ((65 <=? n) && (n <=? 70))%nat then Some (Z.of_nat (n - 55))
    else None in
  match d with
  | Some x => if (x <? base)%Z then Some x else None
  | None => None
  end.

(** A run of digits: the value read on top of [acc], how many digits, and
    the rest of the input. *)
Fixpoint read_digits (digit : ascii -> option Z) (base : Z) (s : string)
  (acc : Z) (count : nat) : Z * nat * string :=
  match s with
  | String c s' =>
      match digit c with
      | Some d => read_digits digit base s' (acc * base + d)%Z (S count)
      | None => (acc, count, s)
      end
  | EmptyString => (acc, count, s)
  end.

(** What follows the digits of a decimal literal: nothing, or an exponent
    part up to the end of the input. *)
Definition exponent_part (s : string) : option Z :=
  match s with
  | EmptyString => Some 0%Z
  | String c s' =>
      if Ascii.eqb c "e" || Ascii.eqb c "E" then
        let signed :=
          match s' with
          | String "+" r => (false, r)
          | String "-" r => (true, r)
          | _ => (false, s')
          end in
        match read_digits decimal_digit 10 (snd signed) 0 0 with
        | (v, S _, EmptyString) => Some (if fst signed then (- v)%Z else v)
        | _ => None
        end
      else None
  end.

Definition unsigned_decimal (negative : bool) (s : string) : numeric :=
  if s =? "Infinity" then Infinite negative
  else
    match read_digits decimal_digit 10 s 0 0 with
    | (whole, ni, String "." r) =>
        match read_digits decimal_digit 10 r whole 0 with
        | (m, nf, r') =>
            if (ni + nf =? 0)%nat then NaN
            else
              match exponent_part r' with
              | Some e => Scaled negative m (e - Z.of_nat nf)
              | None => NaN
              end
        end
    | (whole, ni, r) =>
        if (ni =? 0)%nat then NaN
        else
          match exponent_part r with
          | Some e => Scaled negative whole e
          | None => NaN
          end
    end.

Definition non_decimal (base : Z) (s : string) : numeric :=
  match read_digits (based_digit base) base s 0 0 with
  | (v, S _, EmptyString) => Scaled false v 0
  | _ => NaN
  end.

Definition to_numeric (s : string) : numeric :=
  match trim s with
  | EmptyString => Scaled false 0 0
  | String "0" (String c r) as t =>
      if Ascii.eqb c "x" || Ascii.eqb c "X" then non_decimal 16 r
      else if Ascii.eqb c "o" || Ascii.eqb c "O" then non_decimal 8 r
      else if Ascii.eqb c "b" || Ascii.eqb c "B" then non_decimal 2 r
      else unsigned_decimal false t
  | String "+" r => unsigned_decimal false r
  | String "-" r => unsigned_decimal true r
  | t => unsigned_decimal false t
  end.

(** Whether the double nearest to [m * 10^e] (with [m >= 0]) is above the
    double of [n]: the real number has to pass the midpoint between that
    double and the next one, or to reach it when the tie goes upward (odd
    mantissa).  Above 0 the next double is 2^-1074. *)
Definition double_above (m e : Z) (n : nat) : bool :=
  let d := nearest_double (Z.of_nat n) in
  let b := Z.log2 d in
  let midpoint :=    (* numerator, and binary exponent of the denominator *)
    if (d =? 0)%Z then (1, 1075)%Z
    else if (b <=? 53)%Z then (d * 2 ^ (53 - b) + 1, 53 - b)%Z
    else (d + 2 ^ (b - 53), 0)%Z in
  let odd := if (b <? 52)%Z then false else Z.odd (Z.shiftr d (b - 52)) in
  let sides :=
    if (0 <=? e)%Z
    then (m * 10 ^ e * 2 ^ snd midpoint, fst midpoint)%Z
    else (m * 2 ^ snd midpoint, fst midpoint * 10 ^ (- e))%Z in
  (snd sides <? fst sides)%Z || ((fst sides =? snd sides)%Z && odd).

(** [Number(s) > n]. *)
Definition string_above (s : string) (n : nat) : bool :=
  match to_numeric s with
  | NaN => false
  | Infinite negative => negb negative
  | Scaled negative m e => negb negative && double_above m e n
  end.

(** [v > n] for any value: a boolean counts as 0 or 1, [null] as 0,
    [undefined] and a plain object as [NaN]; a string is read as a number,
    and so is an array through its string. *)
Definition above (v : value) (n : nat) : bool :=
  match v with
  | VUndefined => false
  | VNull => false
  | VBool b => (n <? (if b then 1 else 0))%nat
  | VNum m => (Z.of_nat n <? m)%Z
  | VStr s => string_above s n
  | VArr _ => string_above (js_String v) n
  | VObj _ => false
  end.

End JS.

Import JS.

Notation "x <- c1 ;; c2" := (bind c1 (fun x => c2))
  (at level 61, c1 at next level, right associativity).

(* ================================================================== *)
(** ** Error model and entity validators (types/comprehensive.ts,
       services/validators/*.ts, services/ValidationService.ts) *)

Module Validation.

Inductive Category := Schema | Business | Template | Navigation.
Inductive Level := Error | Warning | Info.

Definition category_name (c : Category) : string :=
  match c with
  | Schema => "schema"
  | Business => "business"
  | Template => "template"
  | Navigation => "navigation"
  end.

Record ValidationError := {
  id : string;
  field : string;
  category : Category;
  message : string;
  level : Level;
  context : value }.

Record ValidationResult := {
  valid : bool;
  errors : list ValidationError;
  timestamp : string }.

(** [Page.content] is a [Record<string, any>]; these are the properties the
    validators read. *)
Record PageContent := {
  c_question : value;
  c_options : value;
  c_correctAnswer : value;
  c_body : value;
  c_title : value }.

(** [Page].  [conditions] is not declared by the interface;
    [validatePageFlow] reads it from pages typed [any].  [None] is a
    property that is absent or [undefined]. *)
Record Page := {
  page_id : option string;
  page_templateType : option string;
  page_type : option string;
  page_title : option string;
  page_content : option PageContent;
  page_order : option Z;
  page_conditions : value }.

(** [allowBack] and [requireCompletion] are checked with [typeof]. *)
Record NavigationSettings := {
  nav_mode : option string;
  nav_allowBack : value;
  nav_requireCompletion : value }.

Record CourseSettings := {
  settings_navigation : option NavigationSettings }.

Record Course := {
  course_title : option string;
  course_author : option string;
  course_description : option string;
  course_pages : option (list Page);
  course_settings : option CourseSettings }.

(** i18n/strings.ts: the entries of the [en] table under "validate.", and
    [t(key, fallback) = locales[currentLocale][key] || fallback || key]. *)
Definition en : list (string * string) :=
  [ ("validate.no.course", "Please load a course before validating.");
    ("validate.error.title.required", "Course title is required");
    ("validate.error.page.required", "At least one page is required");
    ("validate.success", "Course is valid!");
    ("validate.errors.prefix", "Validation errors: ") ].

Fixpoint table_get (k : string) (tbl : list (string * string)) : option string :=
  match tbl with
  | [] => None
  | (k', v) :: tbl' => if k' =? k then Some v else table_get k tbl'
  end.

Definition t (key fallback : string) : string :=
  str_or (table_get key en) (str_or (Some fallback) key).

(** [arr.forEach((x, i) => ...)] where each call appends to [errors] and may
    throw. *)
Fixpoint forEach_from {A} (f : A -> nat -> result (list ValidationError))
  (l : list A) (i : nat) : result (list ValidationError) :=
  match l with
  | [] => Ok []
  | x :: l' =>
      es <- f x i ;;
      rest <- forEach_from f l' (S i) ;;
      Ok (es ++ rest)
  end.

Definition forEach {A} (f : A -> nat -> result (list ValidationError))
  (l : list A) : result (list ValidationError) :=
  forEach_from f l 0.

(** [x > n] on a length. *)
Definition length_gt (s : string) (n : nat) : bool :=
  (n <? String.length s)%nat.

Section Validators.

(** [new Date().toISOString()] at the end of a pass. *)
Variable now : string.

(* ---------------------------------------------------------------- *)
(** *** CourseValidator *)

Definition createError (f : string) (c : Category) (m : string) (ctx : value)
  : ValidationError :=
  {| id := ""; field := f; category := c; message := m; level := Error;
     context := ctx |}.

Definition blank (s : option string) : bool :=
  match s with
  | Some x => (x =? "") || (String.length (trim x) =? 0)%nat
  | None => true
  end.

Definition suggestion (s : string) : value := VObj [("suggestion", VStr s)].

Definition when (b : bool) (e : ValidationError) : list ValidationError :=
  if b then [e] else [].

(** [if (s && s.length > n) errors.push(createError(f, "business", m,
    { currentLength: s.length, maxLength: n }))]. *)
Definition length_check (s : option string) (n : nat) (f m : string)
  : list ValidationError :=
  match s with
  | Some x =>
      when (negb (x =? "") && length_gt x n)
        (createError f Business m
           (VObj [ ("currentLength", VNum (Z.of_nat (String.length x)));
                   ("maxLength", VNum (Z.of_nat n)) ]))
  | None => []
  end.

Definition no_pages (ps : option (list Page)) : bool :=
  match ps with
  | Some l => (List.length l =? 0)%nat
  | None => true
  end.

Definition CourseValidator_errors (course : Course) : list ValidationError :=
  when (blank (course_title course))
    (createError "course.title" Schema
       (t "validate.error.title.required" "Course title is required")
       (suggestion "Add a descriptive title for your course"))
  ++ length_check (course_title course) 200 "course.title"
       (t "validate.error.title.length" "Title must be 200 characters or less")
  ++ when (blank (course_author course))
    (createError "course.author" Schema "Course author is required"
       (suggestion "Add the course author name"))
  ++ length_check (course_author course) 100 "course.author"
       "Author name must be 100 characters or less"
  ++ length_check (course_description course) 500 "course.description"
       "Description must be 500 characters or less"
  ++ when (no_pages (course_pages course))
    (createError "course.pages" Business
       (t "validate.error.page.required" "At least one page is required")
       (suggestion "Add a page from templates")).

Definition result_of (es : list ValidationError) : ValidationResult :=
  {| valid := (List.length es =? 0)%nat; errors := es; timestamp := now |}.

Definition CourseValidator_validate (course : Course)
  : result ValidationResult :=
  Ok (result_of (CourseValidator_errors course)).

(** [value.length > n] for a truthy field value: strings and arrays have a
    length; on booleans and numbers it is [undefined]; on a plain object
    it is the object's own [length] property, whatever its value, compared
    as [>] compares it. *)
Definition value_length_gt (v : value) (n : nat) : bool :=
  match v with
  | VStr s => length_gt s n
  | VArr l => (n <? List.length l)%nat
  | VObj o => above (lookup "length" o) n
  | _ => false
  end.

(** The [title] and [author] cases of [validateField]:
    [!value || value.trim().length === 0], else [value.length > n]; only a
    string has [trim]. *)
Definition required_field (fieldPath : string) (v : value) (n : nat)
  (missing long : string) : result (list ValidationError) :=
  if negb (truthy v) then Ok [createError fieldPath Schema missing VUndefined]
  else
    match v with
    | VStr s =>
        if (String.length (trim s) =? 0)%nat
        then Ok [createError fieldPath Schema missing VUndefined]
        else Ok (when (length_gt s n)
                   (createError fieldPath Business long VUndefined))
    | _ => Throw TypeError
    end.

Definition CourseValidator_validateField (course : Course)
  (fieldPath : string) (v : value) : result ValidationResult :=
  es <- (if fieldPath =? "title"
         then required_field fieldPath v 200 "Title is required"
                "Title too long"
         else if fieldPath =? "author"
         then required_field fieldPath v 100 "Author is required"
                "Author name too long"
         else if fieldPath =? "description"
         then Ok (when (truthy v && value_length_gt v 500)
                    (createError fieldPath Business "Description too long"
                       VUndefined))
         else Ok []) ;;
  Ok (result_of es).

Fixpoint mem_string (x : string) (l : list string) : bool :=
  match l with
  | [] => false
  | y :: l' => (y =? x) || mem_string x l'
  end.

Definition CourseValidator_supportsField (fieldPath : string) : bool :=
  mem_string fieldPath ["title"; "description"; "author"; "version"].

(* ---------------------------------------------------------------- *)
(** *** TemplateValidator *)

Definition mkError (f : string) (c : Category) (m : string) (l : Level)
  : ValidationError :=
  {| id := ""; field := f; category := c; message := m; level := l;
     context := VUndefined |}.

Definition normalizeTemplateType (page : Page) : option string :=
  if str_truthy (page_templateType page) then page_templateType page
  else if str_truthy (page_type page) then page_type page
  else None.

Definition pages_at (index : nat) (suffix : string) : string :=
  "pages[" +++ nat_to_string index +++ "]" +++ suffix.

(** [page.content.x] throws when the page has no content. *)
Definition content_of (page : Page) : result PageContent :=
  match page_content page with
  | Some c => Ok c
  | None => Throw TypeError
  end.

Definition is_string (v : value) : bool :=
  match v with
  | VStr _ => true
  | _ => false
  end.

Definition fewer_than_two_options (v : value) : bool :=
  match v with
  | VArr l => (List.length l <? 2)%nat
  | _ => true
  end.

Definition is_undefined (v : value) : bool :=
  match v with
  | VUndefined => true
  | _ => false
  end.

Definition validateMCQ (page : Page) (index : nat)
  : result (list ValidationError) :=
  mcqData <- content_of page ;;
  Ok (when (negb (truthy (c_question mcqData))
            || negb (is_string (c_question mcqData)))
        (mkError (pages_at index ".content.question") Business
           ("MCQ page " +++ nat_to_string (index + 1)
              +++ " must have a question") Error)
      ++ when (fewer_than_two_options (c_options mcqData))
        (mkError (pages_at index ".content.options") Business
           ("MCQ page " +++ nat_to_string (index + 1)
              +++ " must have at least 2 options") Error)
      ++ when (is_undefined (c_correctAnswer mcqData))
        (mkError (pages_at index ".content.correctAnswer") Business
           ("MCQ page " +++ nat_to_string (index + 1)
              +++ " must have a correct answer") Error)).

(** [!content.body || content.body.trim().length === 0]. *)
Definition validateContentText (page : Page) (index : nat)
  : result (list ValidationError) :=
  content <- content_of page ;;
  empty <- (if negb (truthy (c_body content)) then Ok true
            else match c_body content with
                 | VStr s => Ok (String.length (trim s) =? 0)%nat
                 | _ => Throw TypeError
                 end) ;;
  Ok (when empty
        (mkError (pages_at index ".content.body") Business
           ("Content page " +++ nat_to_string (index + 1)
              +++ " must have body text") Warning)).

Definition validateWelcome (page : Page) (index : nat)
  : result (list ValidationError) :=
  content <- content_of page ;;
  Ok (when (negb (truthy (c_title content)))
        (mkError (pages_at index ".content.title") Business
           "Welcome page must have a title" Error)).

Definition validatePage (page : Page) (index : nat)
  : result (list ValidationError) :=
  match normalizeTemplateType page with
  | None =>
      Ok [mkError (pages_at index ".templateType") Schema
            ("Page " +++ nat_to_string (index + 1)
               +++ " missing template type") Error]
  | Some templateType =>
      if templateType =? "mcq" then validateMCQ page index
      else if templateType =? "content-text"
      then validateContentText page index
      else if templateType =? "welcome" then validateWelcome page index
      else Ok [mkError (pages_at index ".templateType") Business
                 ("Unknown template type: " +++ templateType) Warning]
  end.

Definition TemplateValidator_validate (course : Course)
  : result ValidationResult :=
  es <- match course_pages course with
        | Some ps => forEach validatePage ps
        | None => Ok []
        end ;;
  Ok (result_of es).

Definition TemplateValidator_validateField (course : Course)
  (fieldPath : string) (v : value) : result ValidationResult :=
  Ok {| valid := true; errors := []; timestamp := now |}.

Definition TemplateValidator_supportsField (fieldPath : string) : bool :=
  startsWith fieldPath "pages[".

(* ---------------------------------------------------------------- *)
(** *** NavigationValidator *)

Definition is_boolean (v : value) : bool :=
  match v with
  | VBool _ => true
  | _ => false
  end.

Definition validateNavigationSettings (navigation : NavigationSettings)
  : list ValidationError :=
  match nav_mode navigation with
  | Some mode =>
      when (negb (mode =? "")
            && negb (mem_string mode ["linear"; "free"; "branching"]))
        (mkError "settings.navigation.mode" Business
           ("Invalid navigation mode: " +++ mode
              +++ ". Must be 'linear', 'free', or 'branching'") Error)
  | None => []
  end
  ++ when (negb (is_undefined (nav_requireCompletion navigation))
           && negb (is_boolean (nav_requireCompletion navigation)))
    (mkError "settings.navigation.requireCompletion" Schema
       "requireCompletion must be a boolean" Error)
  ++ when (negb (is_undefined (nav_allowBack navigation))
           && negb (is_boolean (nav_allowBack navigation)))
    (mkError "settings.navigation.allowBack" Schema
       "allowBack must be a boolean" Error).

(** First loop of [validatePageFlow]: [pageIds] is the set of ids seen so
    far. *)
Fixpoint duplicate_ids (pages : list Page) (index : nat)
  (pageIds : list string) : list ValidationError :=
  match pages with
  | [] => []
  | page :: pages' =>
      match page_id page with
      | Some i =>
          if negb (i =? "") then
            when (mem_string i pageIds)
              (mkError (pages_at index ".id") Business
                 ("Duplicate page ID: " +++ i) Error)
            ++ duplicate_ids pages' (S index) (i :: pageIds)
          else duplicate_ids pages' (S index) pageIds
      | None => duplicate_ids pages' (S index) pageIds
      end
  end.

(** Second loop: [page.order !== undefined && page.order !== index]. *)
Definition order_mismatch (page : Page) (index : nat)
  : result (list ValidationError) :=
  Ok match page_order page with
     | Some o =>
         when (negb (o =? Z.of_nat index)%Z)
           (mkError (pages_at index ".order") Business
              ("Page order mismatch: expected " +++ nat_to_string index
                 +++ ", got " +++ Z_to_string o) Warning)
     | None => []
     end.

(** Third loop: every entry of an array of conditions must carry a
    [targetPageId]; reading it from [undefined] or [null] throws. *)
Definition condition_error (index : nat) (condition : value) (condIndex : nat)
  : result (list ValidationError) :=
  target <- prop "targetPageId" condition ;;
  Ok (when (negb (truthy target))
        (mkError (pages_at index
                    (".conditions[" +++ nat_to_string condIndex
                       +++ "].targetPageId")) Business
           "Branching condition missing target page ID" Error)).

Definition branching_errors (page : Page) (index : nat)
  : result (list ValidationError) :=
  match page_conditions page with
  | VArr conditions => forEach (condition_error index) conditions
  | _ => Ok []
  end.

Definition validatePageFlow (pages : list Page)
  : result (list ValidationError) :=
  orders <- forEach order_mismatch pages ;;
  branches <- forEach branching_errors pages ;;
  Ok (duplicate_ids pages 0 [] ++ orders ++ branches).

Definition NavigationValidator_validate (course : Course)
  : result ValidationResult :=
  let settings_errors :=
    match course_settings course with
    | Some settings =>
        match settings_navigation settings with
        | Some navigation => validateNavigationSettings navigation
        | None => []
        end
    | None => []
    end in
  flow <- match course_pages course with
          | Some pages =>
              if (0 <? List.length pages)%nat then validatePageFlow pages
              else Ok []
          | None => Ok []
          end ;;
  Ok (result_of (settings_errors ++ flow)).

Definition NavigationValidator_validateField (course : Course)
  (fieldPath : string) (v : value) : result ValidationResult :=
  Ok {| valid := true; errors := []; timestamp := now |}.

Definition NavigationValidator_supportsField (fieldPath : string) : bool :=
  startsWith fieldPath "settings.navigation"
  || startsWith fieldPath "pages[".

(* ---------------------------------------------------------------- *)
(** *** ValidationService *)

(** The [Validator] interface. *)
Record Validator := {
  validate : Course -> result ValidationResult;
  validateField : Course -> string -> value -> result ValidationResult;
  supportsField : string -> bool }.

Definition CourseValidator : Validator :=
  {| validate := CourseValidator_validate;
     validateField := CourseValidator_validateField;
     supportsField := CourseValidator_supportsField |}.

Definition TemplateValidator : Validator :=
  {| validate := TemplateValidator_validate;
     validateField := TemplateValidator_validateField;
     supportsField := TemplateValidator_supportsField |}.

Definition NavigationValidator : Validator :=
  {| validate := NavigationValidator_validate;
     validateField := NavigationValidator_validateField;
     supportsField := NavigationValidator_supportsField |}.

(** The validators a service is constructed with when none are injected. *)
Definition default_validators : list Validator :=
  [CourseValidator; TemplateValidator; NavigationValidator].

(** The [Date.now()] and [Math.random()] renderings drawn for the error at
    each position of one [categorizeErrors] call. *)
Variable entropy : nat -> string.

Definition determineLevel (e : ValidationError) : Level :=
  match category e with
  | Schema => Error
  | Business => if includes (field e) "required" then Error else Warning
  | _ => Info
  end.

Definition categorize (e : ValidationError) (i : nat) : ValidationError :=
  {| id := category_name (category e) +++ "-" +++ entropy i;
     field := field e;
     category := category e;
     message := message e;
     level := determineLevel e;
     context := context e |}.

Definition categorizeErrors (es : list ValidationError)
  : list ValidationError :=
  mapi categorize es.

(** [Promise.all] over the validators, all of which run to completion
    without suspending: the results in registration order, or the first
    rejection. *)
Definition validateCourse (validators : list Validator) (course : Course)
  : result ValidationResult :=
  results <- mapM (fun v => validate v course) validators ;;
  let es := flat_map errors results in
  Ok {| valid := (List.length es =? 0)%nat;
        errors := categorizeErrors es;
        timestamp := now |}.

Definition validateField_service (validators : list Validator)
  (course : Course) (fieldPath : string) (v : value)
  : result (list ValidationError) :=
  match find (fun x => supportsField x fieldPath) validators with
  | None => Ok []
  | Some relevantValidator =>
      r <- validateField relevantValidator course fieldPath v ;;
      Ok (errors r)
  end.

End Validators.

End Validation.

(* ================================================================== *)
(** ** Course normalization (types/course.ts, utils/transform.ts) *)

Module Transform.

(** The properties of [template.data] / [page.content] that the transforms
    read or write.  [questions], when present, is an array: the transforms
    write arrays only and read it through [length] and [map]. *)
Record TemplateData := {
  d_content : value;
  d_description : value;
  d_body : value;
  d_template_name : value;
  d_subtitle : value;
  d_videoUrl : value;
  d_questions : option (list value);
  d_question : value;
  d_options : value;
  d_correctAnswer : value }.

(** [{}]. *)
Definition emptyData : TemplateData :=
  {| d_content := VUndefined; d_description := VUndefined;
     d_body := VUndefined; d_template_name := VUndefined;
     d_subtitle := VUndefined; d_videoUrl := VUndefined;
     d_questions := None; d_question := VUndefined;
     d_options := VUndefined; d_correctAnswer := VUndefined |}.

(** A template of the API shape ([data]) or a page of the editor shape
    ([content], [templateType]), with the properties the interfaces
    [Template] and [Page] declare and the transforms read; whatever else an
    object carries is copied by the spread and never read.  [None] is a
    property that is absent, [undefined] or (for [order], under [??])
    [null]. *)
Record Template := {
  t_id : option string;
  t_type : option string;
  t_templateType : option string;
  t_title : option string;
  t_order : option Z;
  t_data : option TemplateData;
  t_content : option TemplateData }.

(** [navigation], as the transform reads it from its clone typed [any]:
    each property is whatever JSON value the course carries ([VUndefined]
    when it is absent).  The interface declares [allowSkip],
    [showProgress] and [lockProgression] as booleans. *)
Record NavigationSettings := {
  allowSkip : value;
  showProgress : value;
  lockProgression : value;
  linearProgression : value }.

Record CourseSettings := {
  theme : option string;
  autoplay : option bool;
  duration : option Z }.

(** [Course] of types/course.ts, with the [pages] of the editor shape. *)
Record Course := {
  courseId : option string;
  title : option string;
  description : option string;
  author : option string;
  version : option string;
  createdAt : option string;
  updatedAt : option string;
  language : option string;
  templates : option (list Template);
  pages : option (list Template);
  assets : option (list value);
  navigation : option NavigationSettings;
  settings : option CourseSettings }.

(** [JSON.parse(JSON.stringify(course))]: the clone acts on the payloads
    typed [any]. *)
Definition clone_opt (v : option (list value)) : option (list value) :=
  match v with
  | Some l => Some (array_or_empty (clone (VArr l)))
  | None => None
  end.

Definition clone_data (d : TemplateData) : TemplateData :=
  {| d_content := clone (d_content d);
     d_description := clone (d_description d);
     d_body := clone (d_body d);
     d_template_name := clone (d_template_name d);
     d_subtitle := clone (d_subtitle d);
     d_videoUrl := clone (d_videoUrl d);
     d_questions := clone_opt (d_questions d);
     d_question := clone (d_question d);
     d_options := clone (d_options d);
     d_correctAnswer := clone (d_correctAnswer d) |}.

Definition clone_template (t : Template) : Template :=
  {| t_id := t_id t; t_type := t_type t;
     t_templateType := t_templateType t; t_title := t_title t;
     t_order := t_order t;
     t_data := option_map clone_data (t_data t);
     t_content := option_map clone_data (t_content t) |}.

Definition clone_navigation (n : NavigationSettings) : NavigationSettings :=
  {| allowSkip := clone (allowSkip n);
     showProgress := clone (showProgress n);
     lockProgression := clone (lockProgression n);
     linearProgression := clone (linearProgression n) |}.

Definition clone_course (c : Course) : Course :=
  {| courseId := courseId c; title := title c;
     description := description c; author := author c;
     version := version c; createdAt := createdAt c;
     updatedAt := updatedAt c; language := language c;
     templates := option_map (map clone_template) (templates c);
     pages := option_map (map clone_template) (pages c);
     assets := clone_opt (assets c);
     navigation := option_map clone_navigation (navigation c);
     settings := settings c |}.

(** [a.order ?? 0]. *)
Definition order_key (t : Template) : Z :=
  match t_order t with
  | Some o => o
  | None => 0%Z
  end.

(** [[...xs].sort((a, b) => key a - key b)].  [Array.prototype.sort] is
    stable, and on integer keys that fixes its result whatever the engine's
    algorithm (see [stable_sorted_unique] below): the list built here by
    putting each element in front of the sorted rest, behind the elements
    of strictly smaller key. *)
Fixpoint insert_by {A} (key : A -> Z) (x : A) (l : list A) : list A :=
  match l with
  | [] => [x]
  | y :: l' =>
      if (key x <=? key y)%Z then x :: y :: l'
      else y :: insert_by key x l'
  end.

Fixpoint sort_by {A} (key : A -> Z) (l : list A) : list A :=
  match l with
  | [] => []
  | x :: l' => insert_by key x (sort_by key l')
  end.

(** [cloned.templates || cloned.pages || []]. *)
Definition sourceTemplates (c : Course) : list Template :=
  match templates c with
  | Some l => l
  | None =>
      match pages c with
      | Some l => l
      | None => []
      end
  end.

(** [t.data || t.content || {}]. *)
Definition sourceData (t : Template) : TemplateData :=
  match t_data t with
  | Some d => d
  | None =>
      match t_content t with
      | Some d => d
      | None => emptyData
      end
  end.

(** [typeof opt === "string" ? opt : opt?.text || opt?.option || ""]. *)
Definition optionText (opt : value) : value :=
  match opt with
  | VStr _ => opt
  | _ => or_else (opt_prop "text" opt)
           (or_else (opt_prop "option" opt) (VStr ""))
  end.

(** [optionText.trim() === (correctAnswer || "").trim()]. *)
Definition matches_answer (correctAnswer : value) (opt : value)
  : result bool :=
  a <- js_trim (optionText opt) ;;
  b <- js_trim (or_else correctAnswer (VStr "")) ;;
  Ok (a =? b).

Definition js_eq_true (v : value) : bool :=
  match v with
  | VBool true => true
  | _ => false
  end.

(** One formatted option; [first] is the number the generated ids start
    from (1 for the backend, 0 for export), labels count from 1. *)
Definition formatOption (first : nat) (correctAnswerIndex : Z) (opt : value)
  (i : nat) : value :=
  let generated := VStr ("opt_" +++ nat_to_string (i + first)) in
  let label := VStr ("Option " +++ nat_to_string (i + 1)) in
  let hit := (Z.of_nat i =? correctAnswerIndex)%Z in
  match opt with
  | VStr _ =>
      VObj [("id", generated); ("text", opt); ("isCorrect", VBool hit)]
  | VObj _ | VArr _ =>
      VObj [ ("id", or_else (opt_prop "id" opt) generated);
             ("text", or_else (opt_prop "text" opt)
                        (or_else (opt_prop "option" opt) label));
             ("isCorrect",
              VBool (hit || js_eq_true (opt_prop "isCorrect" opt))) ]
  | _ =>
      VObj [("id", generated); ("text", label); ("isCorrect", VBool false)]
  end.

(** [`${x}`] of an optional string. *)
Definition interpolate (s : option string) : string :=
  match s with
  | Some x => x
  | None => "undefined"
  end.

(** MCQ bridging of [transformCourseForBackend]. *)
Definition bridgeQuestions (t : Template) (sd : TemplateData)
  : result (option (list value)) :=
  match d_questions sd with
  | Some questions => Ok (Some questions)
  | None =>
      if truthy (d_question sd) && truthy (d_options sd) then
        correctAnswerIndex <-
          (if truthy (d_correctAnswer sd)
           then findIndex (matches_answer (d_correctAnswer sd))
                  (array_or_empty (d_options sd))
           else Ok (-1)%Z) ;;
        let formattedOptions :=
          mapi (formatOption 1 correctAnswerIndex)
            (array_or_empty (d_options sd)) in
        Ok (Some [VObj [ ("id", VStr (interpolate (t_id t) +++ "_q1"));
                         ("question", d_question sd);
                         ("options", VArr formattedOptions) ]])
      else Ok None
  end.

(** [x || undefined]. *)
Definition or_undefined (v : value) : value := or_else v VUndefined.

(** [t.type || t.templateType]. *)
Definition type_or (a b : option string) : option string :=
  if str_truthy a then a else b.

Definition transformTemplate (t : Template) (idx : nat) : result Template :=
  let sd := sourceData t in
  let content :=
    coalesce (d_content sd)
      (coalesce (d_description sd) (coalesce (d_body sd) (VStr ""))) in
  questions <- bridgeQuestions t sd ;;
  Ok {| t_id := t_id t;
        t_type := type_or (t_type t) (t_templateType t);
        t_templateType := t_templateType t;
        t_title := t_title t;
        t_order := Some (Z.of_nat idx);
        t_data := Some {| d_content := content;
                          d_description := VUndefined;
                          d_body := VUndefined;
                          d_template_name := VUndefined;
                          d_subtitle := or_undefined (d_subtitle sd);
                          d_videoUrl := or_undefined (d_videoUrl sd);
                          d_questions := questions;
                          d_question := VUndefined;
                          d_options := VUndefined;
                          d_correctAnswer := VUndefined |};
        t_content := t_content t |}.

Definition defaultSettings : CourseSettings :=
  {| theme := Some "default"; autoplay := Some false; duration := None |}.

(** [cloned.navigation || {}]. *)
Definition emptyNavigation : NavigationSettings :=
  {| allowSkip := VUndefined; showProgress := VUndefined;
     lockProgression := VUndefined; linearProgression := VUndefined |}.

Definition or_default {A} (x : option A) (d : A) : A :=
  match x with
  | Some a => a
  | None => d
  end.

(** [cloned.version && /^\d+\.\d+\.\d+$/.test(cloned.version)
      ? cloned.version : "1.0.0"]. *)
Definition normalizeVersion (v : option string) : string :=
  match v with
  | Some x => if negb (x =? "") && is_semver x then x else "1.0.0"
  | None => "1.0.0"
  end.

Definition transformCourseForBackend (course : Course) : result Course :=
  let cloned := clone_course course in
  let language' := str_or (language cloned) "en" in
  let settings' := or_default (settings cloned) defaultSettings in
  let sortedTemplates := sort_by order_key (sourceTemplates cloned) in
  transformedTemplates <- mapMi transformTemplate sortedTemplates ;;
  let nav := or_default (navigation cloned) emptyNavigation in
  (* typeof nav.linearProgression === "boolean"
       ? nav.linearProgression : (nav.lockProgression ?? false) *)
  let linear :=
    match linearProgression nav with
    | VBool _ => linearProgression nav
    | _ => coalesce (lockProgression nav) (VBool false)
    end in
  Ok {| courseId := courseId cloned;
        title := title cloned;
        description := None;
        author := Some (str_or (author cloned) "Unknown");
        version := Some (normalizeVersion (version cloned));
        createdAt := None;
        updatedAt := None;
        language := Some (str_or (Some language') "en");
        templates := Some transformedTemplates;
        pages := None;
        assets := Some (or_default (assets cloned) []);
        navigation :=
          Some {| allowSkip := coalesce (allowSkip nav) (VBool true);
                  showProgress := coalesce (showProgress nav) (VBool true);
                  lockProgression := VUndefined;
                  linearProgression := linear |};
        settings := Some settings' |}.

(* ---------------------------------------------------------------- *)
(** *** transformCourseForExport *)

Definition is_mcq (page : Template) : bool :=
  match t_type page with
  | Some x => x =? "mcq"
  | None => false
  end
  || match t_templateType page with
     | Some x => x =? "mcq"
     | None => false
     end.

(** The question synthesized when an MCQ page has none. *)
Definition placeholderQuestion (page : Template) : value :=
  VObj [ ("id", VStr ("q_" +++ interpolate (t_id page)));
         ("question", VStr "Sample Question");
         ("options",
          VArr [ VObj [ ("id", VStr "opt_0"); ("text", VStr "Option 1");
                        ("isCorrect", VBool false) ];
                 VObj [ ("id", VStr "opt_1"); ("text", VStr "Option 2");
                        ("isCorrect", VBool true) ] ]) ].

(** [{...q, options: q.options.map((opt, i) =>
      ({...opt, isCorrect: i === correctAnswerIndex}))}]. *)
Definition reapplyAnswer (correctAnswerIndex : Z) (q : value) : result value :=
  options <- prop "options" q ;;
  match options with
  | VArr l =>
      Ok (VObj (set_prop "options"
                  (VArr (mapi (fun opt i =>
                                 VObj (set_prop "isCorrect"
                                         (VBool (Z.of_nat i =? correctAnswerIndex)%Z)
                                         (spread opt))) l))
                  (spread q)))
  | _ => Throw TypeError
  end.

Definition exportQuestions (page : Template) (content : TemplateData)
  : result (list value) :=
  let questions := or_default (d_questions content) [] in
  mcqQuestions <-
    (if (List.length questions =? 0)%nat
        && truthy (d_question content) && truthy (d_options content)
     then
       correctAnswerIndex <-
         (if truthy (d_correctAnswer content)
          then findIndex (matches_answer (d_correctAnswer content))
                 (array_or_empty (d_options content))
          else Ok (-1)%Z) ;;
       let options :=
         mapi (formatOption 0 correctAnswerIndex)
           (array_or_empty (d_options content)) in
       Ok [VObj [ ("id", VStr ("q_" +++ interpolate (t_id page)));
                  ("question",
                   or_else (d_question content) (VStr "Question?"));
                  ("options", VArr options) ]]
     else if (0 <? List.length questions)%nat
             && truthy (d_correctAnswer content)
     then
       correctAnswerIndex <-
         findIndex (matches_answer (d_correctAnswer content))
           (array_or_empty (d_options content)) ;;
       mapM (reapplyAnswer correctAnswerIndex) questions
     else Ok questions) ;;
  Ok (if (List.length mcqQuestions =? 0)%nat
      then [placeholderQuestion page]
      else mcqQuestions).

Definition exportData (page : Template) : result TemplateData :=
  let content := sourceData page in
  if is_mcq page then
    mcqQuestions <- exportQuestions page content ;;
    Ok {| d_content := or_else (d_content content) (VStr "Quiz");
          d_description := VUndefined; d_body := VUndefined;
          d_template_name := VUndefined; d_subtitle := VUndefined;
          d_videoUrl := VUndefined;
          d_questions := Some mcqQuestions;
          d_question := VUndefined; d_options := VUndefined;
          d_correctAnswer := VUndefined |}
  else
    Ok {| d_content :=
            or_else (d_content content)
              (or_else (d_template_name content)
                 (or_else (d_body content) (VStr "Content")));
          d_description := VUndefined; d_body := VUndefined;
          d_template_name := VUndefined;
          d_subtitle := or_undefined (d_subtitle content);
          d_videoUrl := or_undefined (d_videoUrl content);
          d_questions := None;
          d_question := VUndefined; d_options := VUndefined;
          d_correctAnswer := VUndefined |}.

Definition exportTemplate (page : Template) (index : nat) : result Template :=
  data <- exportData page ;;
  Ok {| t_id := t_id page;
        t_type := type_or (t_type page) (t_templateType page);
        t_templateType := None;
        t_title := t_title page;
        t_order := Some (Z.of_nat index);
        t_data := Some data;
        t_content := None |}.

Definition transformCourseForExport (course : Course) : result Course :=
  exported <- mapMi exportTemplate (sourceTemplates course) ;;
  Ok {| courseId := courseId course;
        title := title course;
        description := None;
        author := Some (str_or (author course) "Unknown Author");
        version := Some (str_or (version course) "1.0.0");
        createdAt := None;
        updatedAt := None;
        language := Some (str_or (language course) "en");
        templates := Some exported;
        pages := None;
        assets := None;
        navigation := None;
        settings := None |}.

End Transform.

(* ================================================================== *)
(** ** Merge of client and server errors
       (CourseContext.validateCourse) *)

Module Merge.

(** An error as the merge sees it: the client's [{field, message}], the
    server's with the [type] of a 422 detail when there is one.  [level]
    is carried along and never read. *)
Record MergedError := {
  e_field : option string;
  e_message : option string;
  e_type : option string;
  e_level : option string }.

Record Buckets := {
  structural : list MergedError;
  business : list MergedError;
  other : list MergedError }.

Definition type_is (err : MergedError) (tag : string) : bool :=
  match e_type err with
  | Some x => x =? tag
  | None => false
  end.

(** The body of the [forEach]: push [err] on one of the three arrays. *)
Definition push (b : Buckets) (err : MergedError) : Buckets :=
  if type_is err "value_error" || type_is err "type_error" then
    {| structural := structural b ++ [err]; business := business b;
       other := other b |}
  else if type_is err "business_rule_error" then
    {| structural := structural b; business := business b ++ [err];
       other := other b |}
  else
    {| structural := structural b; business := business b;
       other := other b ++ [err] |}.

Definition mergeErrors (clientErrors serverErrors : list MergedError)
  : list MergedError :=
  let merged := clientErrors ++ serverErrors in
  let b := fold_left push merged
             {| structural := []; business := []; other := [] |} in
  structural b ++ business b ++ other b.

End Merge.

(* ================================================================== *)
(** ** Template type helpers (utils/templateUtils.ts) *)

Module TemplateUtils.

Import Transform.

Definition known_types : list string :=
  ["welcome"; "content-text"; "content-video"; "mcq"; "summary"].

Fixpoint is_known (x : string) (l : list string) : bool :=
  match l with
  | [] => false
  | y :: l' => (y =? x) || is_known x l'
  end.

(** [template.templateType || template.type]. *)
Definition rawType (template : Template) : option string :=
  type_or (t_templateType template) (t_type template).

Definition getNormalizedTemplateType (template : Template) : string :=
  match rawType template with
  | Some r =>
      if r =? "" then "content-text"
      else if is_known r known_types then r
      else "content-text"
  | None => "content-text"
  end.

(** [{...template, type, templateType: type}]. *)
Definition setNormalizedTemplateType (template : Template) (type : string)
  : Template :=
  {| t_id := t_id template;
     t_type := Some type;
     t_templateType := Some type;
     t_title := t_title template;
     t_order := t_order template;
     t_data := t_data template;
     t_content := t_content template |}.

Definition isTemplateTypeValid (template : Template) : bool :=
  negb (getNormalizedTemplateType template =? "content-text")
  || str_truthy (type_or (t_type template) (t_templateType template)).

End TemplateUtils.

(* ================================================================== *)
(** ** Preflight diagnostics (utils/transform.ts, diagnosticSummary) *)

Module Diagnostics.

Import Transform.

Record Summary := {
  s_templates : nat;
  s_hasLinear : bool;
  s_missingContentTemplates : list (option string);
  s_mcqTemplates : nat }.

(** [!t.data?.content]. *)
Definition missing_content (t : Template) : bool :=
  match t_data t with
  | Some d => negb (truthy (d_content d))
  | None => true
  end.

Definition type_is_mcq (t : Template) : bool :=
  match t_type t with
  | Some x => x =? "mcq"
  | None => false
  end.

(** [transformed.templates.length] throws when there are no templates. *)
Definition diagnosticSummary (transformed : Course) : result Summary :=
  match templates transformed with
  | None => Throw TypeError
  | Some ts =>
      Ok {| s_templates := List.length ts;
            s_hasLinear :=
              match navigation transformed with
              | Some nav => truthy (linearProgression nav)
              | None => false
              end;
            s_missingContentTemplates :=
              map t_id (filter missing_content ts);
            s_mcqTemplates := List.length (filter type_is_mcq ts) |}
  end.

End Diagnostics.

(* ================================================================== *)
(** ** Client-side business rules (utils/validation.ts) *)

Module ClientValidation.

Import Transform Merge.

(** A [{field, message}] error of types/course.ts. *)
Definition clientError (f m : string) : MergedError :=
  {| e_field := Some f; e_message := Some m; e_type := None;
     e_level := None |}.

(** [new Set(orders)] in insertion order. *)
Fixpoint mem_Z (x : Z) (l : list Z) : bool :=
  match l with
  | [] => false
  | y :: l' => (y =? x)%Z || mem_Z x l'
  end.

Fixpoint unique_from (seen : list Z) (l : list Z) : list Z :=
  match l with
  | [] => []
  | x :: l' =>
      if mem_Z x seen then unique_from seen l'
      else x :: unique_from (x :: seen) l'
  end.

Definition unique (l : list Z) : list Z := unique_from [] l.

(** [templates.map(t => t.order).filter(o => typeof o === "number")]. *)
Fixpoint numeric_orders (ts : list Template) : list Z :=
  match ts with
  | [] => []
  | t :: ts' =>
      match t_order t with
      | Some o => o :: numeric_orders ts'
      | None => numeric_orders ts'
      end
  end.

(** The [for] loop: the first position [i] with [sortedOrders[i] !== i]. *)
Fixpoint first_gap (sortedOrders : list Z) (i : nat) : option nat :=
  match sortedOrders with
  | [] => None
  | o :: rest =>
      if (o =? Z.of_nat i)%Z then first_gap rest (S i) else Some i
  end.

(** [templates] is [None] when the argument is not an array. *)
Definition validateTemplateOrdering (templates : option (list Template))
  : list MergedError :=
  match templates with
  | None => [clientError "templates" "Templates must be an array"]
  | Some ts =>
      let orders := numeric_orders ts in
      let uniqueOrders := unique orders in
      (if (List.length orders =? List.length uniqueOrders)%nat then []
       else [clientError "templates.order" "Template orders must be unique"])
      ++ match first_gap (sort_by (fun o => o) uniqueOrders) 0 with
         | Some i =>
             [clientError "templates.order"
                ("Template orders must be sequential starting from 0. "
                   +++ "Missing order: " +++ nat_to_string i)]
         | None => []
         end
  end.

Definition is_string (v : value) : bool :=
  match v with
  | VStr _ => true
  | _ => false
  end.

Definition is_boolean (v : value) : bool :=
  match v with
  | VBool _ => true
  | _ => false
  end.

(** [opt.isCorrect === true] inside [filter]; reading the property of
    [undefined] or [null] throws. *)
Fixpoint correct_options (options : list value) : result (list value) :=
  match options with
  | [] => Ok []
  | opt :: rest =>
      flag <- prop "isCorrect" opt ;;
      kept <- correct_options rest ;;
      Ok (if js_eq_true flag then opt :: kept else kept)
  end.

Definition option_errors (option : value) (index : nat)
  : result (list MergedError) :=
  id <- prop "id" option ;;
  text <- prop "text" option ;;
  isCorrect <- prop "isCorrect" option ;;
  Ok ((if negb (truthy id) || negb (is_string id)
       then [clientError ("mcq.options[" +++ nat_to_string index +++ "].id")
               "Option ID is required and must be a string"]
       else [])
      ++ (if negb (truthy text) || negb (is_string text)
          then [clientError
                  ("mcq.options[" +++ nat_to_string index +++ "].text")
                  "Option text is required and must be a string"]
          else [])
      ++ (if negb (is_boolean isCorrect)
          then [clientError
                  ("mcq.options[" +++ nat_to_string index +++ "].isCorrect")
                  "Option isCorrect must be a boolean"]
          else [])).

Fixpoint each_option (options : list value) (index : nat)
  : result (list MergedError) :=
  match options with
  | [] => Ok []
  | option :: rest =>
      es <- option_errors option index ;;
      more <- each_option rest (S index) ;;
      Ok (es ++ more)
  end.

Definition validateMCQData (mcqData : value) : result (list MergedError) :=
  question <- prop "question" mcqData ;;
  let errors :=
    if negb (truthy question) || negb (is_string question)
    then [clientError "mcq.question"
            "MCQ question is required and must be a string"]
    else [] in
  options <- prop "options" mcqData ;;
  match options with
  | VArr l =>
      if (List.length l <? 2)%nat
      then Ok (errors ++ [clientError "mcq.options"
                            "MCQ must have at least 2 options"])
      else
        correctAnswers <- correct_options l ;;
        let errors' :=
          errors
          ++ (if (List.length correctAnswers =? 1)%nat then []
              else [clientError "mcq.options"
                      "MCQ must have exactly one correct answer"]) in
        per_option <- each_option l 0 ;;
        Ok (errors' ++ per_option)
  | _ =>
      Ok (errors ++ [clientError "mcq.options"
                       "MCQ must have at least 2 options"])
  end.

(** [template.data] as the object [validateMCQData] receives: its
    [question] and [options]; [undefined] when the template has no data. *)
Definition data_value (d : option TemplateData) : value :=
  match d with
  | Some x => VObj [("question", d_question x); ("options", d_options x)]
  | None => VUndefined
  end.

Fixpoint mcq_errors (ts : list Template) : result (list MergedError) :=
  match ts with
  | [] => Ok []
  | t :: ts' =>
      es <- validateMCQData (data_value (t_data t)) ;;
      more <- mcq_errors ts' ;;
      Ok (es ++ more)
  end.

Section Full.

(** The JSON Schema check of [validateCourseData] (AJV compiled from
    course.json, neither of which is part of these sources), taken as
    given: the errors it reports for a transformed course. *)
Variable schemaErrors : Course -> list MergedError.

Definition validateCourseFull (course : Course)
  : result (bool * list MergedError) :=
  transformedForSchema <- transformCourseForBackend course ;;
  let allErrors := schemaErrors transformedForSchema in
  business <-
    match templates course with
    | Some ts =>
        mcq <- mcq_errors (filter is_mcq ts) ;;
        Ok (validateTemplateOrdering (Some ts) ++ mcq)
    | None => Ok []
    end ;;
  let allErrors' :=
    allErrors ++ business
    ++ match templates course with
       | Some ts =>
           if (100 <? List.length ts)%nat
           then [clientError "templates"
                   "Course cannot have more than 100 templates"]
           else []
       | None => []
       end in
  Ok ((List.length allErrors' =? 0)%nat, allErrors').

End Full.

End ClientValidation.

(* ================================================================== *)
(** ** The course reducer (context/CourseContext.tsx, courseReducer) *)

Module CourseContext.

Import Transform Merge.

Record EditorState := {
  currentTemplate : Z;
  isPreviewMode : bool;
  isDirty : bool;
  editorValidationErrors : list MergedError }.

Record State := {
  st_course : Course;
  st_editorState : EditorState;
  st_isLoading : bool;
  st_error : option string;
  st_validationErrors : list MergedError }.

(** A [Partial<Course>]: [None] is a property the object does not have,
    and a property it has overrides the course's, with whatever value. *)
Record CoursePatch := {
  p_courseId : option (option string);
  p_title : option (option string);
  p_description : option (option string);
  p_author : option (option string);
  p_version : option (option string);
  p_createdAt : option (option string);
  p_updatedAt : option (option string);
  p_language : option (option string);
  p_templates : option (option (list Template));
  p_pages : option (option (list Template));
  p_assets : option (option (list value));
  p_navigation : option (option NavigationSettings);
  p_settings : option (option CourseSettings) }.

Inductive Action :=
| SET_COURSE (payload : Course)
| UPDATE_COURSE_INFO (payload : CoursePatch)
| ADD_TEMPLATE (payload : Template)
| UPDATE_TEMPLATE (index : Z) (template : Template)
| DELETE_TEMPLATE (payload : Z)
| REORDER_TEMPLATES (fromIndex toIndex : Z)
| SET_CURRENT_TEMPLATE (payload : Z)
| SET_PREVIEW_MODE (payload : bool)
| SET_DIRTY (payload : bool)
| SET_VALIDATION_ERRORS (payload : list MergedError)
| SET_LOADING (payload : bool)
| SET_ERROR (payload : option string)
| RESET_COURSE.

(** [!!(course.courseId && course.title)]. *)
Definition validateCourseData (course : Course) : bool :=
  str_truthy (courseId course) && str_truthy (title course).

(** [!!(template.id && template.type)]. *)
Definition validateTemplateData (template : Template) : bool :=
  str_truthy (t_id template) && str_truthy (t_type template).

(** [index >= 0 && index < templates.length]: [templates.length] is read,
    and throws when the course has no template list, only for an index
    that is not negative. *)
Definition validateTemplateIndex (index : Z)
  (templates : option (list Template)) : result bool :=
  if (0 <=? index)%Z then
    match templates with
    | Some ts => Ok (index <? Z.of_nat (List.length ts))%Z
    | None => Throw TypeError
    end
  else Ok false.

(** [state.course.templates] where its length or its elements are read. *)
Definition templates_of (s : State) : result (list Template) :=
  match templates (st_course s) with
  | Some ts => Ok ts
  | None => Throw TypeError
  end.

Definition override {A} (base : A) (p : option A) : A :=
  match p with
  | Some v => v
  | None => base
  end.

(** [{...course, ...patch}]. *)
Definition apply_patch (c : Course) (p : CoursePatch) : Course :=
  {| courseId := override (courseId c) (p_courseId p);
     title := override (title c) (p_title p);
     description := override (description c) (p_description p);
     author := override (author c) (p_author p);
     version := override (version c) (p_version p);
     createdAt := override (createdAt c) (p_createdAt p);
     updatedAt := override (updatedAt c) (p_updatedAt p);
     language := override (language c) (p_language p);
     templates := override (templates c) (p_templates p);
     pages := override (pages c) (p_pages p);
     assets := override (assets c) (p_assets p);
     navigation := override (navigation c) (p_navigation p);
     settings := override (settings c) (p_settings p) |}.

Definition with_templates (c : Course) (ts : list Template) (now : string)
  : Course :=
  {| courseId := courseId c; title := title c;
     description := description c; author := author c;
     version := version c; createdAt := createdAt c;
     updatedAt := Some now; language := language c;
     templates := Some ts; pages := pages c; assets := assets c;
     navigation := navigation c; settings := settings c |}.

Definition with_updatedAt (c : Course) (now : string) : Course :=
  {| courseId := courseId c; title := title c;
     description := description c; author := author c;
     version := version c; createdAt := createdAt c;
     updatedAt := Some now; language := language c;
     templates := templates c; pages := pages c; assets := assets c;
     navigation := navigation c; settings := settings c |}.

(** [{...template, order: index}]. *)
Definition with_order (template : Template) (index : nat) : Template :=
  {| t_id := t_id template; t_type := t_type template;
     t_templateType := t_templateType template;
     t_title := t_title template;
     t_order := Some (Z.of_nat index);
     t_data := t_data template; t_content := t_content template |}.

Definition resequence (ts : list Template) : list Template :=
  mapi with_order ts.

(** [xs[index] = x] on a copy, [index] within bounds. *)
Fixpoint assign {A} (l : list A) (index : nat) (x : A) : list A :=
  match l, index with
  | [], _ => []
  | _ :: l', O => x :: l'
  | y :: l', S i => y :: assign l' i x
  end.

(** [xs.filter((_, i) => i !== index)]. *)
Fixpoint remove_at {A} (l : list A) (index : nat) : list A :=
  match l, index with
  | [], _ => []
  | _ :: l', O => l'
  | y :: l', S i => y :: remove_at l' i
  end.

(** [xs.splice(index, 0, x)], [index] at most the length. *)
Fixpoint insert_at {A} (l : list A) (index : nat) (x : A) : list A :=
  match index, l with
  | O, _ => x :: l
  | S i, [] => [x]
  | S i, y :: l' => y :: insert_at l' i x
  end.

Definition editor_with (e : EditorState) (current : Z) (dirty : bool)
  : EditorState :=
  {| currentTemplate := current; isPreviewMode := isPreviewMode e;
     isDirty := dirty;
     editorValidationErrors := editorValidationErrors e |}.

Definition state_with (s : State) (c : Course) (e : EditorState) : State :=
  {| st_course := c; st_editorState := e; st_isLoading := st_isLoading s;
     st_error := st_error s;
     st_validationErrors := st_validationErrors s |}.

Section Reducer.

(** What the clock and the random generator give at this call:
    [new Date().toISOString()] and the
    [`${Date.now()}_${Math.random().toString(36).substring(2, 8)}`] of
    [createDefaultCourse]. *)
Variable now : string.
Variable stamp : string.

(** [createDefaultCourse()]; of the welcome data, the properties that
    [TemplateData] keeps. *)
Definition createDefaultCourse : Course :=
  {| courseId := Some ("course_" +++ stamp);
     title := Some "New Course";
     description := Some "Enter course description here";
     author := Some "Author Name";
     version := Some "1.0.0";
     createdAt := Some now;
     updatedAt := Some now;
     language := None;
     templates :=
       Some [ {| t_id := Some ("template_" +++ stamp +++ "_welcome");
                 t_type := Some "welcome";
                 t_templateType := None;
                 t_title := Some "Welcome";
                 t_order := Some 0%Z;
                 t_data :=
                   Some {| d_content := VUndefined;
                           d_description :=
                             VStr ("Work in Progress: This is an "
                                     +++ "introduction to your eLearning "
                                     +++ "course.");
                           d_body := VUndefined;
                           d_template_name := VUndefined;
                           d_subtitle := VStr "Work in Progress";
                           d_videoUrl := VUndefined;
                           d_questions := None;
                           d_question := VUndefined;
                           d_options := VUndefined;
                           d_correctAnswer := VUndefined |};
                 t_content := None |} ];
     pages := None;
     assets := Some [];
     navigation :=
       Some {| allowSkip := VBool false; showProgress := VBool true;
               lockProgression := VBool false;
               linearProgression := VUndefined |};
     settings :=
       Some {| theme := Some "default"; autoplay := Some false;
               duration := None |} |}.

Definition initialEditorState : EditorState :=
  {| currentTemplate := 0; isPreviewMode := false; isDirty := false;
     editorValidationErrors := [] |}.

Definition courseReducer (state : State) (action : Action) : result State :=
  match action with
  | SET_COURSE payload =>
      if negb (validateCourseData payload) then Ok state
      else
        Ok (state_with state payload
              {| currentTemplate := currentTemplate (st_editorState state);
                 isPreviewMode := isPreviewMode (st_editorState state);
                 isDirty := false;
                 editorValidationErrors := [] |})
  | UPDATE_COURSE_INFO payload =>
      if negb (validateCourseData (apply_patch (st_course state) payload))
      then Ok state
      else
        Ok (state_with state
              (with_updatedAt (apply_patch (st_course state) payload) now)
              (editor_with (st_editorState state)
                 (currentTemplate (st_editorState state)) true))
  | ADD_TEMPLATE payload =>
      if negb (validateTemplateData payload) then Ok state
      else
        ts <- templates_of state ;;
        Ok (state_with state
              (with_templates (st_course state) (ts ++ [payload]) now)
              (editor_with (st_editorState state)
                 (currentTemplate (st_editorState state)) true))
  | UPDATE_TEMPLATE index template =>
      valid <- validateTemplateIndex index (templates (st_course state)) ;;
      if negb valid then Ok state
      else if negb (validateTemplateData template) then Ok state
      else
        ts <- templates_of state ;;
        Ok (state_with state
              (with_templates (st_course state)
                 (assign ts (Z.to_nat index) template) now)
              (editor_with (st_editorState state)
                 (currentTemplate (st_editorState state)) true))
  | DELETE_TEMPLATE payload =>
      valid <- validateTemplateIndex payload (templates (st_course state)) ;;
      if negb valid then Ok state
      else
        ts <- templates_of state ;;
        if (List.length ts <=? 1)%nat then Ok state
        else
          let reorderedTemplates :=
            resequence (remove_at ts (Z.to_nat payload)) in
          Ok (state_with state
                (with_templates (st_course state) reorderedTemplates now)
                (editor_with (st_editorState state)
                   (Z.min (currentTemplate (st_editorState state))
                      (Z.of_nat (List.length reorderedTemplates) - 1))
                   true))
  | REORDER_TEMPLATES fromIndex toIndex =>
      (* [!valid(fromIndex) || !valid(toIndex)]: the second test runs only
         when the first index is valid *)
      validFrom <-
        validateTemplateIndex fromIndex (templates (st_course state)) ;;
      if negb validFrom then Ok state
      else
        validTo <-
          validateTemplateIndex toIndex (templates (st_course state)) ;;
        if negb validTo then Ok state
        else
          ts <- templates_of state ;;
          match nth_error ts (Z.to_nat fromIndex) with
          | Some removed =>
              Ok (state_with state
                    (with_templates (st_course state)
                       (resequence
                          (insert_at (remove_at ts (Z.to_nat fromIndex))
                             (Z.to_nat toIndex) removed)) now)
                    (editor_with (st_editorState state) toIndex true))
          | None => Ok state
          end
  | SET_CURRENT_TEMPLATE payload =>
      valid <- validateTemplateIndex payload (templates (st_course state)) ;;
      if negb valid then Ok state
      else
        Ok (state_with state (st_course state)
              (editor_with (st_editorState state) payload
                 (isDirty (st_editorState state))))
  | SET_PREVIEW_MODE payload =>
      Ok (state_with state (st_course state)
            {| currentTemplate := currentTemplate (st_editorState state);
               isPreviewMode := payload;
               isDirty := isDirty (st_editorState state);
               editorValidationErrors :=
                 editorValidationErrors (st_editorState state) |})
  | SET_DIRTY payload =>
      Ok (state_with state (st_course state)
            (editor_with (st_editorState state)
               (currentTemplate (st_editorState state)) payload))
  | SET_VALIDATION_ERRORS payload =>
      Ok (state_with state (st_course state)
            {| currentTemplate := currentTemplate (st_editorState state);
               isPreviewMode := isPreviewMode (st_editorState state);
               isDirty := isDirty (st_editorState state);
               editorValidationErrors := payload |})
  | SET_LOADING payload =>
      Ok {| st_course := st_course state;
            st_editorState := st_editorState state;
            st_isLoading := payload; st_error := st_error state;
            st_validationErrors := st_validationErrors state |}
  | SET_ERROR payload =>
      Ok {| st_course := st_course state;
            st_editorState := st_editorState state;
            st_isLoading := st_isLoading state; st_error := payload;
            st_validationErrors := st_validationErrors state |}
  | RESET_COURSE =>
      Ok {| st_course := createDefaultCourse;
            st_editorState := initialEditorState;
            st_isLoading := false; st_error := None;
            st_validationErrors := [] |}
  end.

End Reducer.

End CourseContext.

(* ================================================================== *)
(** ** The validate action of the course context
       (context/CourseContext.tsx, validateCourse) *)

Module ContextValidation.

Import Transform Merge ClientValidation CourseContext.

Section Callback.

Variable now : string.
Variable stamp : string.
Variable schemaErrors : Course -> list MergedError.

(** [apiService.validateCourse(JSON.stringify(backendCourseData))], the
    outcome of the network call: the server's errors, or a rejection. *)
Variable server : Course -> result (list MergedError).

(** The actions the callback dispatches, in order, and what it returns. *)
Definition validateCourse (state : State) : list Action * bool :=
  let attempt :=
    clientValidation <- validateCourseFull schemaErrors (st_course state) ;;
    backendCourseData <- transformCourseForBackend (st_course state) ;;
    serverErrors <- server backendCourseData ;;
    Ok (mergeErrors (snd clientValidation) serverErrors) in
  match attempt with
  | Ok ordered =>
      ([SET_LOADING true; SET_VALIDATION_ERRORS ordered; SET_LOADING false],
       (List.length ordered =? 0)%nat)
  | Throw _ =>
      ([SET_LOADING true; SET_ERROR (Some "Failed to validate course");
        SET_LOADING false], false)
  end.

(** The state after the dispatched actions have gone through the
    reducer. *)
Fixpoint dispatch_all (state : State) (actions : list Action)
  : result State :=
  match actions with
  | [] => Ok state
  | a :: rest =>
      s' <- courseReducer now stamp state a ;;
      dispatch_all s' rest
  end.

End Callback.

End ContextValidation.

(* ================================================================== *)
(** ** The validation hook (hooks/useValidation.ts) *)

Module ValidationHook.

Import Validation.

Record ValidationState := {
  isValidating : bool;
  result_ : option ValidationResult;
  lastValidated : option string }.

Section Hook.

(** [now]: the clock when a result is stamped, [later]: when the hook
    records [lastValidated]. *)
Variable now : string.
Variable later : string.
Variable entropy : nat -> string.

(** The result the [catch] block builds. *)
Definition errorResult : ValidationResult :=
  {| valid := false;
     errors := [ {| id := ""; field := "general"; category := Schema;
                    message := "Validation service error"; level := Error;
                    context := VUndefined |} ];
     timestamp := now |}.

(** [validate]: [service] is the content of [validationServiceRef], the
    validators of the service once the effect has created it.  The state
    the hook ends in, and the result it returns. *)
Definition hook_validate (service : option (list Validator))
  (course : Course) : result (ValidationState * ValidationResult) :=
  match service with
  | None => Throw "Validation service not initialized"
  | Some validators =>
      let r :=
        match validateCourse now entropy validators course with
        | Ok r => r
        | Throw _ => errorResult
        end in
      Ok ({| isValidating := false; result_ := Some r;
             lastValidated := Some later |}, r)
  end.

End Hook.

Definition level_is_error (e : ValidationError) : bool :=
  match level e with
  | Error => true
  | _ => false
  end.

Definition level_is_warning (e : ValidationError) : bool :=
  match level e with
  | Warning => true
  | _ => false
  end.

(** [state.result?.errors.filter(e => e.level === "error") || []] and the
    same for warnings. *)
Definition hook_errors (s : ValidationState) : list ValidationError :=
  match result_ s with
  | Some r => filter level_is_error (errors r)
  | None => []
  end.

Definition hook_warnings (s : ValidationState) : list ValidationError :=
  match result_ s with
  | Some r => filter level_is_warning (errors r)
  | None => []
  end.

Definition hasErrors (s : ValidationState) : bool :=
  (0 <? List.length (hook_errors s))%nat.

Definition hasWarnings (s : ValidationState) : bool :=
  (0 <? List.length (hook_warnings s))%nat.

End ValidationHook.

(* ================================================================== *)
(** ** Field-level checks (utils/fieldValidation.ts, validateCourseField) *)

Module FieldValidation.

Inductive Severity := SevError | SevWarning.

Record FieldIssue := {
  fi_field : string;
  fi_message : string;
  fi_severity : Severity }.

Definition TITLE_MAX : nat := 100.
Definition COURSE_TITLE_MAX : nat := 200.
Definition DESC_MAX : nat := 500.

Definition issue (field message : string) : FieldIssue :=
  {| fi_field := field; fi_message := message; fi_severity := SevError |}.

(** [!value || !String(value).trim()]. *)
Definition missing (v : value) : bool :=
  negb (truthy v) || (trim (js_String v) =? "").

Definition validateCourseField (field : string) (v : value)
  : list FieldIssue :=
  if field =? "title" then
    if missing v then [issue field "Title is required"]
    else if (COURSE_TITLE_MAX <? String.length (js_String v))%nat
    then [issue field ("Title > " +++ nat_to_string COURSE_TITLE_MAX
                         +++ " chars")]
    else []
  else if field =? "author" then
    if missing v then [issue field "Author is required"]
    else if (100 <? String.length (js_String v))%nat
    then [issue field "Author > 100 chars"]
    else []
  else if field =? "description" then
    if truthy v && (DESC_MAX <? String.length (js_String v))%nat
    then [issue field ("Description > " +++ nat_to_string DESC_MAX
                         +++ " chars")]
    else []
  else if field =? "version" then
    if truthy v && negb (is_semver (js_String v))
    then [issue field "Version must be semver (x.y.z)"]
    else []
  else if field =? "language" then
    if negb (truthy v) then [issue field "Language is required"]
    else []
  else [].

End FieldValidation.

(* ================================================================== *)
(** ** Vocabulary of the properties *)

Unset Implicit Arguments.

Module ValidationSpec.

Import Validation.

(** The level the escalation rule assigns, from the category and the field
    path alone. *)
Definition escalated (c : Category) (f : string) : Level :=
  match c with
  | Schema => Error
  | Business => if includes f "required" then Error else Warning
  | Template | Navigation => Info
  end.

Definition pages_of (c : Course) : list Page :=
  match course_pages c with
  | Some l => l
  | None => []
  end.

(** The page has what the rule of its template type reads: a content
    object for "mcq", "content-text" and "welcome", and for "content-text"
    a body that is a string when it is truthy. *)
Definition page_payload_ok (p : Page) : bool :=
  match normalizeTemplateType p with
  | Some ty =>
      if (ty =? "mcq") || (ty =? "welcome")
      then match page_content p with Some _ => true | None => false end
      else if ty =? "content-text"
      then match page_content p with
           | Some c => negb (truthy (c_body c)) || is_string (c_body c)
           | None => false
           end
      else true
  | None => true
  end.

(** No entry of an array of branching conditions is [undefined] or
    [null]. *)
Definition conditions_ok (p : Page) : bool :=
  match page_conditions p with
  | VArr l => forallb (fun c => negb (nullish c)) l
  | _ => true
  end.

Definition title_error : ValidationError :=
  createError "course.title" Schema
    (t "validate.error.title.required" "Course title is required")
    (suggestion "Add a descriptive title for your course").

Definition course_with_page (p : Page) : Course :=
  {| course_title := Some "Course"; course_author := Some "Ann";
     course_description := None; course_pages := Some [p];
     course_settings := None |}.

(** A course with an empty title whose one page is an MCQ page with a
    single option. *)
Definition single_option_page : Page :=
  {| page_id := Some "p1"; page_templateType := Some "mcq";
     page_type := None; page_title := Some "Quiz";
     page_content :=
       Some {| c_question := VStr "Q"; c_options := VArr [VStr "A"];
               c_correctAnswer := VStr "A";
               c_body := VUndefined; c_title := VUndefined |};
     page_order := Some 0%Z;
     page_conditions := VUndefined |}.

Definition single_option_course : Course :=
  {| course_title := Some ""; course_author := Some "Ann";
     course_description := None;
     course_pages := Some [single_option_page];
     course_settings := None |}.

Definition shaped_course : Course :=
  {| course_title := Some "Course"; course_author := Some "Ann";
     course_description := None;
     course_pages :=
       Some [ {| page_id := Some "p1"; page_templateType := Some "mcq";
                 page_type := None; page_title := Some "Quiz";
                 page_content :=
                   Some {| c_question := VStr "Q";
                           c_options := VArr [VStr "A"; VStr "B"];
                           c_correctAnswer := VStr "A";
                           c_body := VUndefined; c_title := VUndefined |};
                 page_order := Some 0%Z;
                 page_conditions := VArr [VObj [("targetPageId", VStr "p1")]] |};
              {| page_id := Some "p2"; page_templateType := None;
                 page_type := Some "summary"; page_title := None;
                 page_content := None; page_order := None;
                 page_conditions := VUndefined |} ];
     course_settings := None |}.

End ValidationSpec.

Module MergeSpec.

Import Merge.

Definition is_structural (e : MergedError) : bool :=
  type_is e "value_error" || type_is e "type_error".

Definition is_business (e : MergedError) : bool :=
  type_is e "business_rule_error".

Definition is_other (e : MergedError) : bool :=
  negb (is_structural e) && negb (is_business e).

(** A locally produced error: no [type] property. *)
Definition untagged (e : MergedError) : MergedError :=
  {| e_field := e_field e; e_message := e_message e; e_type := None;
     e_level := e_level e |}.

Definition key (e : MergedError) : option string * option string :=
  (e_field e, e_message e).

End MergeSpec.

Module CloneSpec.

(** Induction on values through the lists they nest in. *)
Section ValueInduction.

Variable P : value -> Prop.
Hypothesis Hundefined : P VUndefined.
Hypothesis Hnull : P VNull.
Hypothesis Hbool : forall b, P (VBool b).
Hypothesis Hnum : forall n, P (VNum n).
Hypothesis Hstr : forall s, P (VStr s).
Hypothesis Harr : forall l, Forall P l -> P (VArr l).
Hypothesis Hobj : forall o, Forall (fun kv => P (snd kv)) o -> P (VObj o).

Fixpoint value_induction (v : value) : P v :=
  match v with
  | VUndefined => Hundefined
  | VNull => Hnull
  | VBool b => Hbool b
  | VNum n => Hnum n
  | VStr s => Hstr s
  | VArr l =>
      Harr l ((fix elements (l : list value) : Forall P l :=
                 match l with
                 | [] => Forall_nil P
                 | x :: l' =>
                     Forall_cons x (value_induction x) (elements l')
                 end) l)
  | VObj o =>
      Hobj o ((fix fields (o : list (string * value))
                 : Forall (fun kv => P (snd kv)) o :=
                 match o with
                 | [] => Forall_nil _
                 | (k, x) :: o' =>
                     Forall_cons (k, x) (value_induction x) (fields o')
                 end) o)
  end.

End ValueInduction.

(** The two list traversals inside [clone], named. *)
Definition clone_element (x : value) : value :=
  match x with
  | VUndefined => VNull
  | _ => clone x
  end.

Fixpoint clone_fields (o : list (string * value)) : list (string * value) :=
  match o with
  | [] => []
  | (k, x) :: o' =>
      match x with
      | VUndefined => clone_fields o'
      | _ => (k, clone x) :: clone_fields o'
      end
  end.

(** A value the clone leaves as it is. *)
Definition fixed (v : value) : Prop := clone v = v.

End CloneSpec.

Module TransformSpec.

Import Transform.

(** Order of two elements by their keys. *)
Definition key_le {A} (key : A -> Z) (a b : A) : Prop := (key a <= key b)%Z.

(** The order field a page came with; a page that has none counts as 0. *)
Definition original_order (t : Template) : Z :=
  match t_order t with
  | Some o => o
  | None => 0%Z
  end.

(** The source page of a transformed template: identifier, title, runtime
    type and editor content are carried over, the content through the
    defensive clone. *)
Definition made_from (s o : Template) : Prop :=
  t_id o = t_id s /\ t_title o = t_title s
  /\ t_templateType o = t_templateType s
  /\ t_content o = option_map clone_data (t_content s).

Definition page_with_order (i : string) (o : Z) : Template :=
  {| t_id := Some i; t_type := None; t_templateType := Some "content-text";
     t_title := Some i; t_order := Some o; t_data := None;
     t_content := None |}.

Definition course_of_pages (ps : list Template) : Course :=
  {| courseId := Some "course"; title := Some "Course"; description := None;
     author := Some "Ann"; version := Some "1.0.0"; createdAt := None;
     updatedAt := None; language := None; templates := None;
     pages := Some ps; assets := None; navigation := None;
     settings := None |}.

(** The flat legacy shape: a question string, an array of option strings,
    a correct-answer string, and no [questions] array. *)
Definition legacy_mcq (d : TemplateData) (q : string) (opts : list string)
  (ca : string) : Prop :=
  d_questions d = None /\ d_question d = VStr q
  /\ d_options d = VArr (map VStr opts) /\ d_correctAnswer d = VStr ca.

(** Option [i] is the first whose trimmed text equals the trimmed,
    non-empty correct answer. *)
Definition first_match (ca : string) (opts : list string) (i : nat) : Prop :=
  ca <> ""
  /\ (exists o, nth_error opts i = Some o /\ trim o = trim ca)
  /\ forall j o', j < i -> nth_error opts j = Some o' -> trim o' <> trim ca.

(** A bridged option made from the string [o]. *)
Definition string_option (ob : string * bool) (i : nat) : value :=
  VObj [ ("id", VStr ("opt_" +++ nat_to_string (i + 1)));
         ("text", VStr (fst ob));
         ("isCorrect", VBool (snd ob)) ].

Fixpoint first_index {A} (p : A -> bool) (l : list A) : option nat :=
  match l with
  | [] => None
  | x :: l' => if p x then Some 0
               else option_map S (first_index p l')
  end.

Definition index_or_minus_one (i : Z) (n : option nat) : Z :=
  match n with
  | Some k => (i + Z.of_nat k)%Z
  | None => (-1)%Z
  end.

Definition legacy_page (q : string) (opts : list string) (ca : string)
  : Template :=
  {| t_id := Some "p1"; t_type := None; t_templateType := Some "mcq";
     t_title := Some "Quiz"; t_order := Some 0%Z; t_data := None;
     t_content :=
       Some {| d_content := VUndefined; d_description := VUndefined;
               d_body := VUndefined; d_template_name := VUndefined;
               d_subtitle := VUndefined; d_videoUrl := VUndefined;
               d_questions := None; d_question := VStr q;
               d_options := VArr (map VStr opts);
               d_correctAnswer := VStr ca |} |}.

(** The [questions] of every template of a result, in order. *)
Definition questions_of (r : result Course) : list (option (list value)) :=
  match r with
  | Ok out =>
      map (fun t => match t_data t with
                    | Some d => d_questions d
                    | None => None
                    end)
        (or_default (templates out) [])
  | Throw _ => []
  end.

(** The page carries no question or options data at all. *)
Definition no_question_data (d : TemplateData) : Prop :=
  d_questions d = None /\ d_question d = VUndefined
  /\ d_options d = VUndefined.

(** Number of options of a question that are flagged [isCorrect: true]. *)
Definition flagged (question : value) : nat :=
  List.length
    (filter (fun opt => js_eq_true (opt_prop "isCorrect" opt))
       (array_or_empty (opt_prop "options" question))).

Definition bare_mcq_page : Template :=
  {| t_id := Some "p1"; t_type := Some "mcq"; t_templateType := None;
     t_title := Some "Quiz"; t_order := Some 0%Z; t_data := None;
     t_content := None |}.

Definition is_text (v : value) : bool :=
  match v with
  | VStr _ => true
  | _ => false
  end.

(** An MCQ page whose [questions] array is there and empty. *)
Definition empty_questions_page : Template :=
  {| t_id := Some "p1"; t_type := Some "mcq"; t_templateType := None;
     t_title := Some "Quiz"; t_order := Some 0%Z; t_data := None;
     t_content :=
       Some {| d_content := VUndefined; d_description := VUndefined;
               d_body := VUndefined; d_template_name := VUndefined;
               d_subtitle := VUndefined; d_videoUrl := VUndefined;
               d_questions := Some []; d_question := VUndefined;
               d_options := VUndefined;
               d_correctAnswer := VUndefined |} |}.

(** The [questions] the backend payload holds for the source page [s]: a
    [questions] array of the page is taken as it is (through the clone), an
    empty one too; without one, a truthy question with truthy options
    gives the one bridged question "<id>_q1", with the page's question and
    an option for each of the page's; in every other case there are
    none. *)
Definition questions_from (s : Template) (qs : option (list value)) : Prop :=
  match d_questions (sourceData s) with
  | Some given => qs = Some (array_or_empty (clone (VArr given)))
  | None =>
      if truthy (d_question (sourceData s))
         && truthy (d_options (sourceData s))
      then exists opts,
             qs = Some [VObj [ ("id",
                                VStr (interpolate (t_id s) +++ "_q1"));
                               ("question",
                                clone (d_question (sourceData s)));
                               ("options", VArr opts) ]]
             /\ List.length opts
                = List.length (array_or_empty (d_options (sourceData s)))
      else qs = None
  end.

(** The progression flags have the type [NavigationSettings] declares:
    [linearProgression] is a boolean, or else [lockProgression] is a
    boolean or is absent ([undefined] or [null]). *)
Definition progression_typed (c : Course) : bool :=
  let nav := or_default (navigation c) emptyNavigation in
  match linearProgression nav, lockProgression nav with
  | VBool _, _ => true
  | _, VBool _ => true
  | _, lock => nullish lock
  end.

(** A course whose [lockProgression] is the string "yes". *)
Definition course_locked_by_string : Course :=
  {| courseId := Some "course"; title := Some "Course"; description := None;
     author := Some "Ann"; version := Some "1.0.0"; createdAt := None;
     updatedAt := None; language := None; templates := None;
     pages := Some [];
     assets := None;
     navigation :=
       Some {| allowSkip := VBool false; showProgress := VBool true;
               lockProgression := VStr "yes";
               linearProgression := VUndefined |};
     settings := None |}.

(** The answer data has the declared types: the correct answer is a string
    when it is truthy, and every option is a string or has a string (or
    no) text. *)
Definition answer_typed (d : TemplateData) : bool :=
  (negb (truthy (d_correctAnswer d)) || is_text (d_correctAnswer d))
  && forallb (fun opt => is_text (optionText opt))
       (array_or_empty (d_options d)).

End TransformSpec.

Module ServiceSpec.

Import Validation ValidationSpec.

(** Some error of the list is reported at field [f]. *)
Definition error_at (f : string) (es : list ValidationError) : Prop :=
  exists e, In e es /\ field e = f.

(** The ids of the pages that have one (a non-empty string), in order. *)
Fixpoint truthy_ids (pages : list Page) : list string :=
  match pages with
  | [] => []
  | p :: pages' =>
      match page_id p with
      | Some i => if i =? "" then truthy_ids pages' else i :: truthy_ids pages'
      | None => truthy_ids pages'
      end
  end.

(** How many of the errors say that [x] is a duplicate page id. *)
Definition duplicate_reports (x : string) (es : list ValidationError) : nat :=
  List.length
    (filter (fun e => message e =? "Duplicate page ID: " +++ x) es).

(** The character [c] does not occur in [s]. *)
Fixpoint lacks (c : ascii) (s : string) : bool :=
  match s with
  | EmptyString => true
  | String c' s' => negb (Ascii.eqb c' c) && lacks c s'
  end.

(** An error as the entity validators produce them: of category [schema]
    or [business], at a field path without "required". *)
Definition plain (e : ValidationError) : Prop :=
  (category e = Schema \/ category e = Business)
  /\ includes (field e) "required" = false.

(** Category and final level go together: [schema] with [error],
    [business] with [warning]. *)
Definition level_by_category (e : ValidationError) : Prop :=
  (category e = Schema /\ level e = Error)
  \/ (category e = Business /\ level e = Warning).

Definition of_schema (e : ValidationError) : bool :=
  match category e with
  | Schema => true
  | _ => false
  end.

Definition of_business (e : ValidationError) : bool :=
  match category e with
  | Business => true
  | _ => false
  end.

Definition same_id_page : Page :=
  {| page_id := Some "p"; page_templateType := None; page_type := None;
     page_title := None; page_content := None; page_order := None;
     page_conditions := VUndefined |}.

(** A course whose only page is an MCQ page with nothing filled in, at
    order 3. *)
Definition unfinished_quiz : Course :=
  course_with_page
    {| page_id := Some "p1"; page_templateType := Some "mcq";
       page_type := None; page_title := None;
       page_content :=
         Some {| c_question := VUndefined; c_options := VUndefined;
                 c_correctAnswer := VUndefined; c_body := VUndefined;
                 c_title := VUndefined |};
       page_order := Some 3%Z; page_conditions := VUndefined |}.

End ServiceSpec.

Module PayloadSpec.

Import Transform.

(** A string property that is present and not empty. *)
Definition nonempty (s : option string) : Prop :=
  exists x, s = Some x /\ x <> "".

(** The navigation settings a course carries ([{}] when it has none). *)
Definition source_navigation (c : Course) : NavigationSettings :=
  or_default (navigation c) emptyNavigation.

(** The [data] of a backend template: [content] is never [undefined] or
    [null]; of the other keys only [subtitle], [videoUrl] and [questions]
    can be set, the first two only to a truthy value. *)
Definition consolidated (d : TemplateData) : Prop :=
  nullish (d_content d) = false
  /\ d_description d = VUndefined /\ d_body d = VUndefined
  /\ d_template_name d = VUndefined /\ d_question d = VUndefined
  /\ d_options d = VUndefined /\ d_correctAnswer d = VUndefined
  /\ (d_subtitle d = VUndefined \/ truthy (d_subtitle d) = true)
  /\ (d_videoUrl d = VUndefined \/ truthy (d_videoUrl d) = true).

(** The type a transform writes: [type], or [templateType] when [type] is
    absent or empty. *)
Definition effective_mcq (t : Template) : bool :=
  match type_or (t_type t) (t_templateType t) with
  | Some x => x =? "mcq"
  | None => false
  end.

(** The [data] of an exported template. *)
Definition export_shaped (mcq : bool) (d : TemplateData) : Prop :=
  truthy (d_content d) = true
  /\ d_description d = VUndefined /\ d_body d = VUndefined
  /\ d_template_name d = VUndefined /\ d_question d = VUndefined
  /\ d_options d = VUndefined /\ d_correctAnswer d = VUndefined
  /\ if mcq
     then (exists q qs, d_questions d = Some (q :: qs))
          /\ d_subtitle d = VUndefined /\ d_videoUrl d = VUndefined
     else d_questions d = None.

(** Text and correctness flag of a formatted option. *)
Definition text_and_flag (opt : value) : value * value :=
  (opt_prop "text" opt, opt_prop "isCorrect" opt).

(** The options of each question of a list. *)
Definition options_of (q : value) : list value :=
  array_or_empty (opt_prop "options" q).

(** A question in the [questions] shape, with its second option flagged,
    and the data of a page that has it together with a flat
    [correctAnswer] but no flat [options]. *)
Definition modern_question : value :=
  VObj [ ("id", VStr "q1"); ("question", VStr "Q");
         ("options",
          VArr [ VObj [("id", VStr "a"); ("text", VStr "A");
                       ("isCorrect", VBool false)];
                 VObj [("id", VStr "b"); ("text", VStr "B");
                       ("isCorrect", VBool true)] ]) ].

Definition modern_with_answer : TemplateData :=
  {| d_content := VUndefined; d_description := VUndefined;
     d_body := VUndefined; d_template_name := VUndefined;
     d_subtitle := VUndefined; d_videoUrl := VUndefined;
     d_questions := Some [modern_question]; d_question := VUndefined;
     d_options := VUndefined; d_correctAnswer := VStr "B" |}.

Definition two_typed_page : Template :=
  {| t_id := Some "p1"; t_type := Some "mcq";
     t_templateType := Some "welcome"; t_title := None; t_order := None;
     t_data := None; t_content := None |}.

End PayloadSpec.

Module ClientRulesSpec.

Import Transform ClientValidation.

(** The numbers [i], [i+1], ..., [i+n-1]. *)
Definition consecutive (i n : nat) : list Z := map Z.of_nat (seq i n).

Definition nonempty_string (v : value) : bool :=
  match v with
  | VStr s => negb (s =? "")
  | _ => false
  end.

(** An option object with a non-empty string [id], a non-empty string
    [text] and a boolean [isCorrect]. *)
Definition well_formed_option (opt : value) : bool :=
  match opt with
  | VObj o =>
      nonempty_string (lookup "id" o) && nonempty_string (lookup "text" o)
      && is_boolean (lookup "isCorrect" o)
  | _ => false
  end.

Definition correct_count (l : list value) : nat :=
  List.length (filter (fun opt => js_eq_true (opt_prop "isCorrect" opt)) l).

(** MCQ data with a non-empty question string and at least two well-formed
    options of which exactly one is correct. *)
Definition well_formed_mcq (v : value) : bool :=
  match v with
  | VObj o =>
      nonempty_string (lookup "question" o)
      && match lookup "options" o with
         | VArr l =>
             (2 <=? List.length l)%nat && forallb well_formed_option l
             && (correct_count l =? 1)%nat
         | _ => false
         end
  | _ => false
  end.

End ClientRulesSpec.

Module ReducerSpec.

Import Transform Merge CourseContext.

(** The editor's current index points at one of the course's templates. *)
Definition in_bounds (s : State) : Prop :=
  exists ts,
    templates (st_course s) = Some ts
    /\ (0 <= currentTemplate (st_editorState s)
        < Z.of_nat (List.length ts))%Z.

(** Actions that leave the template list to the reducer's own edits:
    all but [SET_COURSE] and an [UPDATE_COURSE_INFO] whose patch carries
    [templates]. *)
Definition keeps_templates (a : Action) : bool :=
  match a with
  | SET_COURSE _ => false
  | UPDATE_COURSE_INFO p =>
      match p_templates p with
      | None => true
      | Some _ => false
      end
  | _ => true
  end.

(** Actions whose case gets to read [state.course.templates]: adding a
    template that has an id and a type, and the actions on a position
    whose (first) index is not negative. *)
Definition reads_templates (a : Action) : bool :=
  match a with
  | ADD_TEMPLATE p => validateTemplateData p
  | UPDATE_TEMPLATE k _ | DELETE_TEMPLATE k | REORDER_TEMPLATES k _
  | SET_CURRENT_TEMPLATE k => (0 <=? k)%Z
  | _ => false
  end.

(** A template without regard to its [order]. *)
Definition sans_order (t : Template) : Template := with_order t 0.

Definition plain_template (i : string) (o : Z) : Template :=
  {| t_id := Some i; t_type := Some "content-text"; t_templateType := None;
     t_title := None; t_order := Some o; t_data := None; t_content := None |}.

Definition plain_course (ts : option (list Template)) : Course :=
  {| courseId := Some "c"; title := Some "T"; description := None;
     author := None; version := None; createdAt := None; updatedAt := None;
     language := None; templates := ts; pages := None; assets := None;
     navigation := None; settings := None |}.

(** A state over three templates "a", "b", "c" with the editor on the
    last. *)
Definition three_templates : State :=
  {| st_course :=
       plain_course (Some [ plain_template "a" 0; plain_template "b" 1;
                            plain_template "c" 2 ]);
     st_editorState :=
       {| currentTemplate := 2; isPreviewMode := false; isDirty := false;
          editorValidationErrors := [] |};
     st_isLoading := false; st_error := None; st_validationErrors := [] |}.

End ReducerSpec.

(* ================================================================== *)
(** * Properties *)

(** ** Severity and field dispatch of the ValidationService *)

Module ValidationFacts.

Import Validation ValidationSpec.

Lemma mapi_from_Forall2 {A B} (R : A -> B -> Prop) (f : A -> nat -> B) :
  (forall x i, R x (f x i)) ->
  forall l i, Forall2 R l (mapi_from f l i).
Proof.
  intros HR l; induction l as [|x l IH]; intros i; simpl; constructor; auto.
Qed.

Lemma mapi_from_length {A B} (f : A -> nat -> B) l :
  forall i, List.length (mapi_from f l i) = List.length l.
Proof.
  induction l as [|x l IH]; intros i; simpl; auto.
Qed.

(** C1 (as amended).  After categorization every error keeps its
    category, field and message, and its level is fixed by category and
    field alone: [schema] gives [error]; [business] gives [error] exactly
    when the field path contains "required" and [warning] otherwise; any
    other category gives [info].  The level the producing validator had
    set plays no part: a business error at "course.pages.required" that a
    validator marked [warning] ends as [error], one at
    "pages[0].content.body" marked [error] ends as [warning]. *)
Theorem categorized_level_by_category_and_field :
  forall (entropy : nat -> string) (es : list ValidationError),
    Forall2 (fun e e' =>
               category e' = category e /\ field e' = field e
               /\ message e' = message e
               /\ (category e = Schema -> level e' = Error)
               /\ (category e = Business ->
                   (level e' = Error <-> includes (field e) "required" = true)
                   /\ (level e' = Warning
                       <-> includes (field e) "required" = false))
               /\ (category e <> Schema -> category e <> Business ->
                   level e' = Info))
      es (categorizeErrors entropy es)
    /\ map level
         (categorizeErrors entropy
            [ mkError "course.pages.required" Business "m" Warning;
              mkError "pages[0].content.body" Business "m" Error ])
       = [Error; Warning].
Proof.
  intros entropy es. split; [|reflexivity].
  unfold categorizeErrors, mapi.
  apply mapi_from_Forall2.
  intros e i. unfold categorize, determineLevel; simpl.
  repeat split; try (destruct (category e); congruence);
    destruct (category e); try discriminate;
    destruct (includes (field e) "required"); congruence.
Qed.

(** C1, the statement as written fails: a validator that sets level
    [error] on an error of category [template] does not override the
    default; the service replaces it by [info]. *)
Lemma validator_level_not_kept :
  let e := {| id := ""; field := "pages[0].templateType";
              category := Template; message := "m"; level := Error;
              context := VUndefined |} in
  map level (categorizeErrors (fun _ => "0-0.5") [e]) = [Info]
  /\ map level (categorizeErrors (fun _ => "0-0.5") [e]) <> [level e].
Proof.
  simpl. split; [reflexivity | discriminate].
Qed.

Lemma prefix_pages_not_course_field :
  forall fieldPath,
    startsWith fieldPath "pages[" = true ->
    CourseValidator_supportsField fieldPath = false.
Proof.
  intros fieldPath H. unfold startsWith in H.
  destruct fieldPath as [|c s]; [discriminate|].
  cbn [String.prefix] in H.
  destruct (Ascii.ascii_dec "p"%char c) as [Hc|Hc]; [|discriminate].
  subst c. reflexivity.
Qed.

(** C10.  For a field path that begins with "pages[" the service returns
    no errors, whatever the course and the value: the CourseValidator does
    not support the path, the TemplateValidator is the first that does, and
    its [validateField] reports nothing; the NavigationValidator is not
    consulted. *)
Theorem page_field_feedback_is_empty :
  forall (now : string) (course : Course) (fieldPath : string) (v : value),
    startsWith fieldPath "pages[" = true ->
    find (fun x => supportsField x fieldPath) (default_validators now)
      = Some (TemplateValidator now)
    /\ validateField_service (default_validators now) course fieldPath v
       = Ok [].
Proof.
  intros now course fieldPath v H.
  assert (Hfind : find (fun x => supportsField x fieldPath)
                    (default_validators now) = Some (TemplateValidator now)).
  { unfold default_validators; simpl.
    rewrite (prefix_pages_not_course_field _ H).
    unfold TemplateValidator_supportsField. now rewrite H. }
  split; [exact Hfind|].
  unfold validateField_service. rewrite Hfind. reflexivity.
Qed.

Lemma page_field_feedback_is_empty_witness :
  startsWith "pages[2].content.question" "pages[" = true
  /\ validateField_service (default_validators "t")
       {| course_title := None; course_author := None;
          course_description := None; course_pages := None;
          course_settings := None |}
       "pages[2].content.question" (VStr "") = Ok [].
Proof.
  split; [reflexivity|].
  apply (page_field_feedback_is_empty "t" _ "pages[2].content.question"
           (VStr "")).
  reflexivity.
Defined.

(* ---------------------------------------------------------------- *)
(** *** When the entity validators return *)

Lemma forEach_from_ok {A} (f : A -> nat -> result (list ValidationError)) :
  forall l i,
    (forall x j, In x l -> exists es, f x j = Ok es) ->
    exists es, forEach_from f l i = Ok es.
Proof.
  induction l as [|x l IH]; intros i H; simpl.
  - now exists [].
  - destruct (H x i (or_introl eq_refl)) as [es He]. rewrite He; simpl.
    destruct (IH (S i)) as [rest Hr]; [intros; apply H; now right|].
    rewrite Hr; simpl. eauto.
Qed.

Lemma validatePage_ok (p : Page) (i : nat) :
  page_payload_ok p = true -> exists es, validatePage p i = Ok es.
Proof.
  unfold page_payload_ok, validatePage.
  destruct (normalizeTemplateType p) as [ty|]; [|eauto].
  destruct (String.eqb_spec ty "mcq") as [->|Hm]; simpl.
  { unfold validateMCQ, content_of.
    destruct (page_content p); [simpl; eauto | discriminate]. }
  destruct (String.eqb_spec ty "content-text") as [->|Hc]; simpl.
  { unfold validateContentText, content_of.
    destruct (page_content p) as [c|]; [|discriminate]. simpl.
    destruct (truthy (c_body c)); simpl; [|eauto].
    destruct (c_body c); try discriminate; simpl; eauto. }
  destruct (String.eqb_spec ty "welcome") as [->|Hw]; simpl; [|eauto].
  unfold validateWelcome, content_of.
  destruct (page_content p); [simpl; eauto | discriminate].
Qed.

Lemma condition_error_ok (i : nat) (c : value) (j : nat) :
  nullish c = false -> exists es, condition_error i c j = Ok es.
Proof.
  unfold condition_error. destruct c; simpl; try discriminate; eauto.
Qed.

Lemma branching_errors_ok (p : Page) (i : nat) :
  conditions_ok p = true -> exists es, branching_errors p i = Ok es.
Proof.
  unfold conditions_ok, branching_errors.
  destruct (page_conditions p); eauto.
  intros H. apply forEach_from_ok. intros x j Hx.
  apply condition_error_ok.
  rewrite forallb_forall in H. specialize (H x Hx).
  now destruct (nullish x).
Qed.

Lemma validatePageFlow_ok (ps : list Page) :
  forallb conditions_ok ps = true ->
  exists orders branches,
    forEach order_mismatch ps = Ok orders
    /\ forEach branching_errors ps = Ok branches
    /\ validatePageFlow ps = Ok (duplicate_ids ps 0 [] ++ orders ++ branches).
Proof.
  intros H. unfold validatePageFlow.
  destruct (forEach_from_ok order_mismatch ps 0) as [orders Ho].
  { intros x j _. unfold order_mismatch. eauto. }
  destruct (forEach_from_ok branching_errors ps 0) as [branches Hb].
  { intros x j Hx. apply branching_errors_ok.
    rewrite forallb_forall in H. auto. }
  exists orders, branches. unfold forEach. rewrite Ho, Hb; simpl. auto.
Qed.

Lemma TemplateValidator_ok (now : string) (c : Course) :
  forallb page_payload_ok (pages_of c) = true ->
  exists es,
    match course_pages c with
    | Some ps => forEach validatePage ps
    | None => Ok []
    end = Ok es
    /\ TemplateValidator_validate now c = Ok (result_of now es).
Proof.
  intros H. unfold TemplateValidator_validate, pages_of in *.
  destruct (course_pages c) as [ps|].
  - destruct (forEach_from_ok validatePage ps 0) as [es He].
    { intros x j Hx. apply validatePage_ok.
      rewrite forallb_forall in H. auto. }
    exists es. unfold forEach. rewrite He. auto.
  - exists []. auto.
Qed.

Lemma NavigationValidator_ok (now : string) (c : Course) :
  forallb conditions_ok (pages_of c) = true ->
  exists r, NavigationValidator_validate now c = Ok r.
Proof.
  intros H. unfold NavigationValidator_validate, pages_of in *.
  destruct (course_pages c) as [ps|]; simpl; eauto.
  destruct (0 <? List.length ps)%nat; simpl; eauto.
  destruct (validatePageFlow_ok ps H) as (o & b & _ & _ & Hf).
  rewrite Hf; simpl. eauto.
Qed.




(* ---------------------------------------------------------------- *)
(** *** The full pass on a course with blocking defects *)

Lemma mapi_from_In {A B} (f : A -> nat -> B) (x : A) :
  forall l i, In x l -> exists j, In (f x j) (mapi_from f l i).
Proof.
  induction l as [|y l IH]; intros i H; [destruct H|].
  destruct H as [->|H]; simpl.
  - exists i. now left.
  - destruct (IH (S i) H) as [j Hj]. exists j. now right.
Qed.

(** A provisional error reappears after categorization with its field and
    category and with the escalated level. *)
Lemma In_categorizeErrors (entropy : nat -> string) (e : ValidationError)
  (es : list ValidationError) :
  In e es ->
  exists e', In e' (categorizeErrors entropy es)
             /\ field e' = field e /\ category e' = category e
             /\ level e' = escalated (category e) (field e).
Proof.
  intros H. destruct (mapi_from_In (categorize entropy) e es 0 H) as [j Hj].
  exists (categorize entropy e j). split; [exact Hj|].
  unfold categorize, determineLevel, escalated; simpl.
  destruct (category e); auto.
Qed.

Lemma validateCourse_default (now : string) (entropy : nat -> string)
  (c : Course) (r2 r3 : ValidationResult) :
  TemplateValidator_validate now c = Ok r2 ->
  NavigationValidator_validate now c = Ok r3 ->
  let es := CourseValidator_errors c ++ errors r2 ++ errors r3 in
  validateCourse now entropy (default_validators now) c
  = Ok {| valid := (List.length es =? 0)%nat;
          errors := categorizeErrors entropy es;
          timestamp := now |}.
Proof.
  intros H2 H3. unfold validateCourse, default_validators.
  cbn [mapM validate CourseValidator TemplateValidator NavigationValidator].
  unfold CourseValidator_validate. rewrite H2, H3.
  cbn [bind flat_map errors result_of]. now rewrite app_nil_r.
Qed.

Lemma blank_title_error (c : Course) :
  blank (course_title c) = true ->
  exists rest, CourseValidator_errors c = title_error :: rest.
Proof.
  intros H. unfold CourseValidator_errors. rewrite H.
  cbn [when app]. eexists. reflexivity.
Qed.

Lemma no_pages_error (c : Course) :
  no_pages (course_pages c) = true ->
  In (createError "course.pages" Business
        (t "validate.error.page.required" "At least one page is required")
        (suggestion "Add a page from templates"))
     (CourseValidator_errors c).
Proof.
  intros H. unfold CourseValidator_errors. rewrite H.
  repeat (apply in_or_app; right). now left.
Qed.

(** C9, the statement as written fails.  No course has both no pages and
    an MCQ page.  With an empty title and one MCQ page that has a single
    option the full pass reports two errors, the one about the options with
    final level [warning]; with an empty title, no author and no pages it
    reports three, the one about the missing pages with final level
    [warning]. *)
Lemma blocking_case_levels :
  let one_option :=
    {| course_title := Some ""; course_author := Some "Ann";
       course_description := None;
       course_pages :=
         Some [ {| page_id := Some "p1"; page_templateType := Some "mcq";
                   page_type := None; page_title := Some "Quiz";
                   page_content :=
                     Some {| c_question := VStr "Q";
                             c_options := VArr [VStr "A"];
                             c_correctAnswer := VStr "A";
                             c_body := VUndefined;
                             c_title := VUndefined |};
                   page_order := Some 0%Z;
                   page_conditions := VUndefined |} ];
       course_settings := None |} in
  let no_page :=
    {| course_title := Some ""; course_author := None;
       course_description := None; course_pages := Some [];
       course_settings := None |} in
  (exists r,
      validateCourse "t" (fun _ => "0-0.5") (default_validators "t")
        one_option = Ok r
      /\ map field (errors r) = ["course.title"; "pages[0].content.options"]
      /\ map level (errors r) = [Error; Warning]
      /\ ~ (3 <= List.length (errors r)
            /\ Forall (fun e => level e = Error) (errors r)))
  /\ (exists r,
         validateCourse "t" (fun _ => "0-0.5") (default_validators "t")
           no_page = Ok r
         /\ map field (errors r)
            = ["course.title"; "course.author"; "course.pages"]
         /\ map level (errors r) = [Error; Error; Warning]
         /\ ~ Forall (fun e => level e = Error) (errors r)).
Proof.
  split.
  - eexists. split; [reflexivity|]. split; [reflexivity|].
    split; [reflexivity|]. simpl. intros [H _]. lia.
  - eexists. split; [reflexivity|]. split; [reflexivity|].
    split; [reflexivity|]. simpl. intros H.
    inversion H as [|? ? _ H1]; subst.
    inversion H1 as [|? ? _ H2]; subst.
    inversion H2 as [|? ? H3 _]; subst. discriminate H3.
Qed.

Lemma single_option_error (now : string) (c : Course) (p : Page)
  (content : PageContent) (opt : value) :
  course_pages c = Some [p] ->
  normalizeTemplateType p = Some "mcq" ->
  page_content p = Some content ->
  c_options content = VArr [opt] ->
  exists es,
    TemplateValidator_validate now c = Ok (result_of now es)
    /\ In (mkError (pages_at 0 ".content.options") Business
             ("MCQ page " +++ nat_to_string (0 + 1)
                +++ " must have at least 2 options") Error) es.
Proof.
  intros Hp Hty Hco Hop.
  unfold TemplateValidator_validate. rewrite Hp.
  unfold forEach. cbn [forEach_from].
  unfold validatePage. rewrite Hty. cbn [String.eqb Ascii.eqb Bool.eqb].
  unfold validateMCQ, content_of. rewrite Hco. cbn [bind].
  rewrite Hop. cbn [fewer_than_two_options List.length Nat.ltb Nat.leb].
  eexists. split; [reflexivity|].
  rewrite app_nil_r. apply in_or_app. right.
  apply in_or_app. left. now left.
Qed.

(** The full pass on a course with a blank title and a second, business
    defect [e2] among the provisional errors. *)
Lemma blank_title_and_business_error (now : string) (entropy : nat -> string)
  (c : Course) (rest : list ValidationError) (r2 r3 : ValidationResult)
  (e2 : ValidationError) :
  CourseValidator_errors c = title_error :: rest ->
  TemplateValidator_validate now c = Ok r2 ->
  NavigationValidator_validate now c = Ok r3 ->
  In e2 (rest ++ errors r2 ++ errors r3) ->
  category e2 = Business ->
  escalated (category e2) (field e2) = Warning ->
  exists r,
    validateCourse now entropy (default_validators now) c = Ok r
    /\ valid r = false
    /\ 2 <= List.length (errors r)
    /\ (exists e, In e (errors r) /\ field e = "course.title"
                  /\ category e = Schema /\ level e = Error)
    /\ (exists e, In e (errors r) /\ field e = field e2
                  /\ category e = Business /\ level e = Warning).
Proof.
  intros Hrest H2 H3 Hin Hcat Hlev.
  eexists. split; [apply (validateCourse_default now entropy c _ _ H2 H3)|].
  cbn [valid errors]. rewrite Hrest.
  destruct (In_categorizeErrors entropy title_error
              ((title_error :: rest) ++ errors r2 ++ errors r3))
    as (e1' & Hin1 & Hf1 & Hc1 & Hl1); [now left|].
  destruct (In_categorizeErrors entropy e2
              ((title_error :: rest) ++ errors r2 ++ errors r3))
    as (e2' & Hin2 & Hf2 & Hc2 & Hl2); [right; exact Hin|].
  split; [reflexivity|]. split.
  - unfold categorizeErrors, mapi. rewrite mapi_from_length.
    destruct (in_split _ _ Hin) as (l1 & l2 & Hs).
    rewrite <- app_comm_cons. cbn [List.length].
    rewrite Hs, length_app. cbn [List.length]. lia.
  - split.
    + exists e1'. split; [exact Hin1|]. rewrite Hf1, Hc1, Hl1. auto.
    + exists e2'. split; [exact Hin2|]. rewrite Hc2, Hl2.
      split; [exact Hf2|]. split; [exact Hcat | exact Hlev].
Qed.

(** C9 (as amended).  For a course with an empty (or blank) title the
    full pass returns [valid: false] with at least two errors, the
    "course.title" schema error with final level [error], in each of the
    two cases: when the course has no pages, the business error about the
    missing pages ("course.pages") has final level [warning]; when it
    consists of one MCQ page with a single option, none of whose branching
    conditions is [undefined] or [null], the business error about the
    options ("pages[0].content.options") has final level [warning]. *)
Theorem blocking_case_result :
  forall (now : string) (entropy : nat -> string) (c : Course),
    blank (course_title c) = true ->
    (no_pages (course_pages c) = true ->
     exists r,
       validateCourse now entropy (default_validators now) c = Ok r
       /\ valid r = false
       /\ 2 <= List.length (errors r)
       /\ (exists e, In e (errors r) /\ field e = "course.title"
                     /\ category e = Schema /\ level e = Error)
       /\ (exists e, In e (errors r) /\ field e = "course.pages"
                     /\ category e = Business /\ level e = Warning))
    /\ (forall p content opt,
           course_pages c = Some [p] ->
           normalizeTemplateType p = Some "mcq" ->
           page_content p = Some content ->
           c_options content = VArr [opt] ->
           conditions_ok p = true ->
           exists r,
             validateCourse now entropy (default_validators now) c = Ok r
             /\ valid r = false
             /\ 2 <= List.length (errors r)
             /\ (exists e, In e (errors r) /\ field e = "course.title"
                           /\ category e = Schema /\ level e = Error)
             /\ (exists e, In e (errors r)
                           /\ field e = "pages[0].content.options"
                           /\ category e = Business /\ level e = Warning)).
Proof.
  intros now entropy c Ht.
  destruct (blank_title_error c Ht) as [rest Hrest]. split.
  - intros Hn.
    destruct (TemplateValidator_ok now c) as (es & _ & H2).
    { unfold pages_of. destruct (course_pages c) as [[|]|];
        try discriminate; reflexivity. }
    destruct (NavigationValidator_ok now c) as (r3 & H3).
    { unfold pages_of. destruct (course_pages c) as [[|]|];
        try discriminate; reflexivity. }
    pose proof (no_pages_error c Hn) as Hin. rewrite Hrest in Hin.
    destruct Hin as [Heq | Hin]; [discriminate Heq|].
    apply (blank_title_and_business_error now entropy c rest _ r3 _
             Hrest H2 H3 (in_or_app _ _ _ (or_introl Hin)));
      reflexivity.
  - intros p content opt Hp Hty Hco Hop Hcond.
    destruct (NavigationValidator_ok now c) as (r3 & H3).
    { unfold pages_of. rewrite Hp. simpl. now rewrite Hcond. }
    destruct (single_option_error now c p content opt Hp Hty Hco Hop)
      as (es & H2 & Hin).
    apply (blank_title_and_business_error now entropy c rest _ r3 _
             Hrest H2 H3
             (in_or_app _ _ _
                (or_intror (in_or_app _ _ _ (or_introl Hin)))));
      reflexivity.
Qed.

Lemma blocking_case_result_witness :
  let no_page :=
    {| course_title := Some ""; course_author := None;
       course_description := None; course_pages := Some [];
       course_settings := None |} in
  (blank (course_title no_page) = true
   /\ no_pages (course_pages no_page) = true
   /\ exists r,
        validateCourse "t" (fun _ => "0-0.5") (default_validators "t")
          no_page = Ok r
        /\ valid r = false
        /\ exists e, In e (errors r) /\ field e = "course.pages"
                     /\ level e = Warning)
  /\ (blank (course_title single_option_course) = true
      /\ conditions_ok single_option_page = true
      /\ exists r,
           validateCourse "t" (fun _ => "0-0.5") (default_validators "t")
             single_option_course = Ok r
           /\ valid r = false
           /\ exists e, In e (errors r)
                        /\ field e = "pages[0].content.options"
                        /\ level e = Warning).
Proof.
  split.
  - split; [reflexivity|]. split; [reflexivity|].
    destruct (proj1 (blocking_case_result "t" (fun _ => "0-0.5")
                       {| course_title := Some ""; course_author := None;
                          course_description := None;
                          course_pages := Some [];
                          course_settings := None |} eq_refl) eq_refl)
      as (r & H & Hv & _ & _ & e & Hin & Hf & _ & Hl).
    exists r. split; [exact H|]. split; [exact Hv|].
    exists e. split; [exact Hin|]. split; [exact Hf | exact Hl].
  - split; [reflexivity|]. split; [reflexivity|].
    destruct (proj2 (blocking_case_result "t" (fun _ => "0-0.5")
                       single_option_course eq_refl)
                single_option_page _ (VStr "A")
                eq_refl eq_refl eq_refl eq_refl eq_refl)
      as (r & H & Hv & _ & _ & e & Hin & Hf & _ & Hl).
    exists r. split; [exact H|]. split; [exact Hv|].
    exists e. split; [exact Hin|]. split; [exact Hf | exact Hl].
Defined.

End ValidationFacts.

(** ** Merge of client and server errors *)

Module MergeFacts.

Import Merge MergeSpec.

Lemma business_not_structural (e : MergedError) :
  is_business e = true -> is_structural e = false.
Proof.
  unfold is_business, is_structural, type_is.
  destruct (e_type e) as [x|]; [|discriminate].
  intros H. apply String.eqb_eq in H. now subst x.
Qed.

Lemma fold_push (l : list MergedError) :
  forall b,
    structural (fold_left push l b)
      = structural b ++ filter is_structural l
    /\ business (fold_left push l b) = business b ++ filter is_business l
    /\ other (fold_left push l b) = other b ++ filter is_other l.
Proof.
  induction l as [|e l IH]; intros b; simpl.
  - now rewrite !app_nil_r.
  - destruct (IH (push b e)) as (Hs & Hb & Ho).
    rewrite Hs, Hb, Ho. clear.
    unfold push.
    change (type_is e "value_error" || type_is e "type_error")
      with (is_structural e).
    change (type_is e "business_rule_error") with (is_business e).
    unfold is_other.
    destruct (is_structural e) eqn:Es.
    { destruct (is_business e) eqn:Eb.
      - apply business_not_structural in Eb. congruence.
      - simpl. rewrite <- ?app_assoc. auto. }
    destruct (is_business e); simpl; rewrite <- ?app_assoc; auto.
Qed.

Lemma mergeErrors_buckets (client server : list MergedError) :
  mergeErrors client server
  = filter is_structural (client ++ server)
    ++ filter is_business (client ++ server)
    ++ filter is_other (client ++ server).
Proof.
  unfold mergeErrors.
  destruct (fold_push (client ++ server)
              {| structural := []; business := []; other := [] |})
    as (Hs & Hb & Ho).
  now rewrite Hs, Hb, Ho.
Qed.

(** C2.  The merged list is the structural errors ([value_error],
    [type_error]) of both sources, then the business-rule errors
    ([business_rule_error]), then all others, each group in arrival order;
    local errors, which have no [type], all land in the last group, before
    the untyped server errors.  Local "Zeta" with server "Beta"
    ([value_error]) and "Alpha" ([business_rule_error]) gives Beta, Alpha,
    Zeta. *)
Theorem merge_orders_by_type_tag :
  (forall client server : list MergedError,
      mergeErrors client server
      = filter is_structural (client ++ server)
        ++ filter is_business (client ++ server)
        ++ filter is_other (client ++ server))
  /\ (forall client server : list MergedError,
         mergeErrors (map untagged client) server
         = filter is_structural server ++ filter is_business server
           ++ map untagged client ++ filter is_other server)
  /\ map e_message
       (mergeErrors
          [ {| e_field := None; e_message := Some "Zeta"; e_type := None;
               e_level := Some "warning" |} ]
          [ {| e_field := None; e_message := Some "Beta";
               e_type := Some "value_error"; e_level := None |};
            {| e_field := None; e_message := Some "Alpha";
               e_type := Some "business_rule_error"; e_level := None |} ])
     = [Some "Beta"; Some "Alpha"; Some "Zeta"].
Proof.
  split; [exact mergeErrors_buckets|]. split; [|reflexivity].
  intros client server.
  rewrite mergeErrors_buckets, !filter_app.
  assert (Hs : filter is_structural (map untagged client) = []).
  { clear. induction client; simpl; auto. }
  assert (Hb : filter is_business (map untagged client) = []).
  { clear. induction client; simpl; auto. }
  assert (Ho : filter is_other (map untagged client) = map untagged client).
  { clear. induction client; simpl; auto. now f_equal. }
  rewrite Hs, Hb, Ho. simpl. reflexivity.
Qed.

(** C3, the statement as written fails: two MCQ templates without a
    question make the client report the same field and message twice, and
    the merged list keeps both. *)
Lemma merge_keeps_duplicates :
  let e := {| e_field := Some "mcq.question";
              e_message :=
                Some "MCQ question is required and must be a string";
              e_type := None; e_level := None |} in
  mergeErrors [e; e] [] = [e; e]
  /\ ~ NoDup (map key (mergeErrors [e; e] [])).
Proof.
  split; [reflexivity|].
  simpl. intros H. inversion H as [|x l Hin _]; subst.
  apply Hin. now left.
Qed.

(** C3 (as amended).  The merge removes nothing and adds nothing: the
    merged list is a rearrangement of the local errors followed by the
    remote ones, so its length is the sum of theirs and an error present in
    both sources with the same field and message appears once per
    source. *)
Theorem merge_is_permutation :
  forall client server : list MergedError,
    Permutation (mergeErrors client server) (client ++ server)
    /\ List.length (mergeErrors client server)
       = List.length client + List.length server.
Proof.
  intros client server.
  assert (P : Permutation (mergeErrors client server) (client ++ server)).
  { rewrite mergeErrors_buckets.
    generalize (client ++ server) as l. clear.
    induction l as [|e l IH]; simpl; auto.
    unfold is_other.
    destruct (is_structural e) eqn:Es; simpl.
    - destruct (is_business e) eqn:Eb.
      + apply business_not_structural in Eb. congruence.
      + now constructor.
    - destruct (is_business e); simpl.
      + apply Permutation_sym, Permutation_cons_app, Permutation_sym, IH.
      + rewrite app_assoc.
        apply Permutation_sym, Permutation_cons_app, Permutation_sym.
        now rewrite <- app_assoc. }
  split; [exact P|].
  rewrite (Permutation_length P). apply length_app.
Qed.

End MergeFacts.

(** ** The defensive clone *)

Module CloneFacts.

Import CloneSpec.

Lemma clone_VArr (l : list value) :
  clone (VArr l) = VArr (map clone_element l).
Proof. reflexivity. Qed.

Lemma clone_VObj (o : list (string * value)) :
  clone (VObj o) = VObj (clone_fields o).
Proof.
  reflexivity.
Qed.

Lemma clone_undefined (v : value) : clone v = VUndefined -> v = VUndefined.
Proof. destruct v; simpl; auto; discriminate. Qed.

Lemma value_eq_undefined (v : value) : v = VUndefined \/ v <> VUndefined.
Proof. destruct v; auto; right; discriminate. Qed.

Lemma clone_element_defined (x : value) :
  x <> VUndefined -> clone_element x = clone x.
Proof. destruct x; auto. congruence. Qed.

Lemma clone_element_idem (x : value) :
  clone (clone x) = clone x ->
  clone_element (clone_element x) = clone_element x.
Proof.
  intros H. destruct (value_eq_undefined x) as [->|Hx]; [reflexivity|].
  rewrite (clone_element_defined x Hx).
  rewrite clone_element_defined; [exact H|].
  intros E. now apply clone_undefined in E.
Qed.

(** Cloning a clone changes nothing. *)
Lemma clone_idem (v : value) : clone (clone v) = clone v.
Proof.
  induction v as [| | | | |l IH|o IH] using value_induction; auto.
  - rewrite !clone_VArr. f_equal. rewrite map_map.
    induction IH as [|x l Hx _ IHl]; simpl; auto.
    rewrite IHl. f_equal. now apply clone_element_idem.
  - rewrite !clone_VObj. f_equal.
    induction IH as [|[k x] o Hx _ IHo]; simpl; auto.
    simpl in Hx.
    destruct (value_eq_undefined x) as [->|Hd]; [exact IHo|].
    assert (Hc : clone x <> VUndefined).
    { intros E. now apply clone_undefined in E. }
    transitivity (clone_fields ((k, clone x) :: clone_fields o)).
    { destruct x; auto; congruence. }
    transitivity ((k, clone (clone x)) :: clone_fields (clone_fields o)).
    { simpl. destruct (clone x); auto; congruence. }
    rewrite Hx, IHo. destruct x; auto; congruence.
Qed.

Lemma fixed_clone (v : value) : fixed (clone v).
Proof. apply clone_idem. Qed.

Lemma fixed_VArr (l : list value) :
  fixed (VArr l) <-> Forall (fun x => x <> VUndefined /\ fixed x) l.
Proof.
  unfold fixed. rewrite clone_VArr. split.
  - intros H. injection H as H.
    induction l as [|x l IH]; simpl in *; constructor.
    + injection H as Hx _. destruct x; simpl in Hx; try discriminate;
        split; try discriminate; auto.
    + injection H as _ Hl. auto.
  - intros H. f_equal. induction H as [|x l [Hn Hx] _ IH]; simpl; auto.
    rewrite IH. f_equal. destruct x; auto. congruence.
Qed.

Lemma clone_fields_length (o : list (string * value)) :
  List.length (clone_fields o) <= List.length o.
Proof.
  induction o as [|[k x] o IH]; simpl; auto.
  destruct x; simpl; lia.
Qed.

Lemma clone_fields_cons (k : string) (x : value)
  (o : list (string * value)) :
  x <> VUndefined ->
  clone_fields ((k, x) :: o) = (k, clone x) :: clone_fields o.
Proof. destruct x; auto; congruence. Qed.

Lemma fixed_VObj (o : list (string * value)) :
  fixed (VObj o)
  <-> Forall (fun kv => snd kv <> VUndefined /\ fixed (snd kv)) o.
Proof.
  unfold fixed. rewrite clone_VObj. split.
  - intros H. injection H as H.
    induction o as [|[k x] o IH]; constructor.
    + destruct (value_eq_undefined x) as [->|Hx].
      * exfalso. simpl in H. pose proof (clone_fields_length o) as L.
        rewrite H in L. simpl in L. lia.
      * rewrite clone_fields_cons in H by exact Hx.
        injection H as Hc _. simpl. auto.
    + apply IH. destruct (value_eq_undefined x) as [->|Hx].
      * exfalso. simpl in H. pose proof (clone_fields_length o) as L.
        rewrite H in L. simpl in L. lia.
      * rewrite clone_fields_cons in H by exact Hx.
        injection H as _ Hl. exact Hl.
  - intros H. f_equal.
    induction H as [|[k x] o [Hn Hx] _ IH]; auto.
    simpl in Hn, Hx. rewrite clone_fields_cons by exact Hn.
    now rewrite Hx, IH.
Qed.

Lemma fixed_lookup (k : string) (o : list (string * value)) :
  fixed (VObj o) -> fixed (lookup k o).
Proof.
  rewrite fixed_VObj. induction 1 as [|[k' x] o [_ Hx] _ IH]; simpl.
  - reflexivity.
  - destruct (k' =? k); auto.
Qed.

Lemma fixed_opt_prop (k : string) (v : value) :
  fixed v -> fixed (opt_prop k v).
Proof.
  destruct v; simpl; try reflexivity. apply fixed_lookup.
Qed.

Lemma fixed_or_else (a b : value) : fixed a -> fixed b -> fixed (or_else a b).
Proof. unfold or_else. now destruct (truthy a). Qed.

Lemma fixed_coalesce (a b : value) :
  fixed a -> fixed b -> fixed (coalesce a b).
Proof. unfold coalesce. now destruct (nullish a). Qed.

Lemma truthy_defined (v : value) : truthy v = true -> v <> VUndefined.
Proof. destruct v; simpl; congruence. Qed.

Lemma or_else_defined (a b : value) :
  b <> VUndefined -> or_else a b <> VUndefined.
Proof.
  unfold or_else. destruct (truthy a) eqn:E; auto.
  intros _. now apply truthy_defined.
Qed.

End CloneFacts.

(** ** Normalization for the backend and for export *)

Module TransformFacts.

Import Transform TransformSpec.

(* ---------------------------------------------------------------- *)
(** *** The sort *)

Section Sorting.

Context {A : Type} (key : A -> Z).

Lemma insert_by_perm (x : A) (l : list A) :
  Permutation (insert_by key x l) (x :: l).
Proof.
  induction l as [|y l IH]; simpl; auto.
  destruct (key x <=? key y)%Z; auto.
  rewrite IH. apply perm_swap.
Qed.

Lemma sort_by_perm (l : list A) : Permutation (sort_by key l) l.
Proof.
  induction l as [|x l IH]; simpl; auto.
  rewrite insert_by_perm. now constructor.
Qed.

Lemma insert_by_sorted (x : A) (l : list A) :
  StronglySorted (key_le key) l -> StronglySorted (key_le key) (insert_by key x l).
Proof.
  induction 1 as [|y l Hs IH Hall]; simpl.
  - repeat constructor.
  - destruct (key x <=? key y)%Z eqn:E.
    + apply Z.leb_le in E. constructor; [now constructor|].
      constructor; [exact E|].
      eapply Forall_impl; [|exact Hall].
      unfold key_le; intros; lia.
    + apply Z.leb_gt in E. constructor; [exact IH|].
      apply (Permutation_Forall (Permutation_sym (insert_by_perm x l))).
      constructor; [unfold key_le; lia | exact Hall].
Qed.

Lemma sort_by_sorted (l : list A) : StronglySorted (key_le key) (sort_by key l).
Proof.
  induction l; simpl; [constructor | now apply insert_by_sorted].
Qed.

(** Stability: the elements of any one key keep their order. *)
Lemma insert_by_stable (k : Z) (x : A) (l : list A) :
  filter (fun a => (key a =? k)%Z) (insert_by key x l)
  = filter (fun a => (key a =? k)%Z) (x :: l).
Proof.
  induction l as [|y l IH]; simpl; auto.
  destruct (key x <=? key y)%Z eqn:E; simpl; auto.
  simpl in IH. rewrite IH. apply Z.leb_gt in E.
  destruct (key x =? k)%Z eqn:Ex, (key y =? k)%Z eqn:Ey; auto.
  apply Z.eqb_eq in Ex, Ey. lia.
Qed.

Lemma sort_by_stable (k : Z) (l : list A) :
  filter (fun a => (key a =? k)%Z) (sort_by key l)
  = filter (fun a => (key a =? k)%Z) l.
Proof.
  induction l as [|x l IH]; simpl; auto.
  rewrite insert_by_stable. simpl. now rewrite IH.
Qed.

(** A list already in order is left as it is. *)
Lemma sort_by_sorted_id (l : list A) :
  StronglySorted (key_le key) l -> sort_by key l = l.
Proof.
  induction 1 as [|x l Hs IH Hall]; simpl; auto.
  rewrite IH. destruct l as [|y l]; simpl; auto.
  inversion Hall as [|? ? Hxy _]; subst. unfold key_le in Hxy.
  apply Z.leb_le in Hxy. now rewrite Hxy.
Qed.

(** Order and stability leave no choice: two lists in key order whose
    elements of each key are the same sequence are the same list. *)
Lemma stable_sorted_unique (l1 l2 : list A) :
  StronglySorted (key_le key) l1 ->
  StronglySorted (key_le key) l2 ->
  (forall k, filter (fun a => (key a =? k)%Z) l1
             = filter (fun a => (key a =? k)%Z) l2) ->
  l1 = l2.
Proof.
  intros H1. revert l2.
  induction H1 as [|x1 l1 Hs1 IH Hall1]; intros l2 H2 Hf.
  - destruct l2 as [|x2 l2]; auto.
    specialize (Hf (key x2)). simpl in Hf.
    rewrite Z.eqb_refl in Hf. discriminate.
  - destruct H2 as [|x2 l2 Hs2 Hall2].
    + specialize (Hf (key x1)). simpl in Hf.
      rewrite Z.eqb_refl in Hf. discriminate.
    + assert (Hin : forall (a : A) (l l' : list A),
                 (forall k, filter (fun a => (key a =? k)%Z) l
                            = filter (fun a => (key a =? k)%Z) l') ->
                 In a l -> In a l').
      { intros a l l' Hk Ha.
        assert (Hfa : In a (filter (fun b => (key b =? key a)%Z) l)).
        { apply filter_In. split; [exact Ha | apply Z.eqb_refl]. }
        rewrite (Hk (key a)) in Hfa. apply filter_In in Hfa. tauto. }
      assert (Hle12 : (key x1 <= key x2)%Z).
      { destruct (Hin x2 (x2 :: l2) (x1 :: l1)) as [<-|Hx];
          [intros k; symmetry; apply Hf | now left | lia |].
        rewrite Forall_forall in Hall1. apply (Hall1 x2 Hx). }
      assert (Hle21 : (key x2 <= key x1)%Z).
      { destruct (Hin x1 (x1 :: l1) (x2 :: l2)) as [<-|Hx];
          [exact Hf | now left | lia |].
        rewrite Forall_forall in Hall2. apply (Hall2 x1 Hx). }
      assert (Hk : key x1 = key x2) by lia.
      pose proof (Hf (key x1)) as Hhead. simpl in Hhead.
      rewrite <- Hk, Z.eqb_refl in Hhead.
      injection Hhead as Hx Htail. subst x2.
      f_equal. apply IH; [exact Hs2|].
      intros k. specialize (Hf k). simpl in Hf.
      destruct (key x1 =? k)%Z; [now injection Hf | exact Hf].
Qed.

End Sorting.

Lemma sort_by_map {A} (key : A -> Z) (f : A -> A) (l : list A) :
  (forall x, key (f x) = key x) ->
  sort_by key (map f l) = map f (sort_by key l).
Proof.
  intros Hk. induction l as [|x l IH]; simpl; auto.
  rewrite IH. generalize (sort_by key l) as s. clear IH.
  induction s as [|y s IH]; simpl; auto.
  rewrite !Hk. destruct (key x <=? key y)%Z; simpl; auto.
  now rewrite IH.
Qed.

(* ---------------------------------------------------------------- *)
(** *** Index-carrying maps *)

Lemma mapMi_from_spec {A B} (f : A -> nat -> result B) :
  forall l i ys,
    mapMi_from f l i = Ok ys ->
    Forall2 (fun x y => exists j, f x j = Ok y) l ys
    /\ List.length ys = List.length l
    /\ forall j x, nth_error l j = Some x ->
                   exists y, nth_error ys j = Some y /\ f x (i + j) = Ok y.
Proof.
  induction l as [|x l IH]; intros i ys H; simpl in H.
  - inversion H; subst. split; [constructor|]. split; [reflexivity|].
    intros [|j] x Hx; discriminate.
  - destruct (f x i) as [y|] eqn:Hy; simpl in H; [|discriminate].
    destruct (mapMi_from f l (S i)) as [ys'|] eqn:Hys; simpl in H;
      [|discriminate].
    inversion H; subst. destruct (IH _ _ Hys) as (HF & HL & HN).
    split; [constructor; eauto|]. split; [simpl; now rewrite HL|].
    intros [|j] x' Hx'; simpl in *.
    + inversion Hx'; subst. exists y. now rewrite Nat.add_0_r.
    + destruct (HN j x' Hx') as (y' & ? & Hf). exists y'. split; auto.
      now rewrite Nat.add_succ_r.
Qed.

(* ---------------------------------------------------------------- *)
(** *** Shape of the backend transform *)

Lemma sourceTemplates_clone (c : Course) :
  sourceTemplates (clone_course c) = map clone_template (sourceTemplates c).
Proof.
  unfold sourceTemplates, clone_course; simpl.
  destruct (templates c); simpl; auto. destruct (pages c); auto.
Qed.

Lemma sourceData_clone (t : Template) :
  sourceData (clone_template t) = clone_data (sourceData t).
Proof.
  unfold sourceData, clone_template; simpl.
  destruct (t_data t); simpl; auto. destruct (t_content t); auto.
Qed.

(** The templates of the result are the transformed templates of the
    cloned source, taken in sorted order. *)
Lemma backend_templates (c out : Course) :
  transformCourseForBackend c = Ok out ->
  exists ts,
    templates out = Some ts
    /\ mapMi transformTemplate
         (map clone_template (sort_by order_key (sourceTemplates c)))
       = Ok ts.
Proof.
  unfold transformCourseForBackend.
  rewrite sourceTemplates_clone, sort_by_map by reflexivity.
  destruct (mapMi transformTemplate _) as [ts|] eqn:E; simpl;
    [|discriminate].
  intros H; inversion H; subst; simpl. eauto.
Qed.

Lemma transformTemplate_inv (t t' : Template) (i : nat) :
  transformTemplate t i = Ok t' ->
  exists questions,
    bridgeQuestions t (sourceData t) = Ok questions
    /\ t_id t' = t_id t /\ t_title t' = t_title t
    /\ t_templateType t' = t_templateType t
    /\ t_content t' = t_content t
    /\ t_type t' = type_or (t_type t) (t_templateType t)
    /\ t_order t' = Some (Z.of_nat i)
    /\ exists d, t_data t' = Some d /\ d_questions d = questions.
Proof.
  unfold transformTemplate.
  destruct (bridgeQuestions t (sourceData t)) as [q|]; simpl;
    [|discriminate].
  intros H; inversion H; subst; simpl.
  exists q. repeat split; eauto.
Qed.

Lemma mapMi_from_orders (l : list Template) :
  forall i ts,
    mapMi_from transformTemplate l i = Ok ts ->
    map t_order ts
    = map (fun j => Some (Z.of_nat j)) (seq i (List.length l)).
Proof.
  induction l as [|x l IH]; intros i ts H; simpl in H.
  - now inversion H.
  - destruct (transformTemplate x i) as [y|] eqn:Hy; simpl in H;
      [|discriminate].
    destruct (mapMi_from transformTemplate l (S i)) as [ys|] eqn:Hys;
      simpl in H; [|discriminate].
    inversion H; subst; simpl.
    destruct (transformTemplate_inv _ _ _ Hy) as (_ & _ & _ & _ & _ & _ & _ & Ho & _).
    rewrite Ho. f_equal. now apply IH.
Qed.

Lemma sort_by_original (l : list Template) :
  sort_by order_key l = sort_by original_order l.
Proof. reflexivity. Qed.

Lemma made_from_ids (sorted ts : list Template) :
  Forall2 made_from sorted ts -> map t_id ts = map t_id sorted.
Proof.
  induction 1 as [|x y l l' H _ IH]; [reflexivity|].
  cbn [map]. destruct H as (-> & _). now rewrite IH.
Qed.

(** C5.  The templates of the result are the source pages (templates, or
    pages when there are no templates) in ascending order of the order
    field they came with, an absent order counting as 0, pages of equal
    order in their original sequence, and their new order fields are 0, 1,
    ..., n-1, whatever the input values were.  No other arrangement of the
    source pages is both in order and stable. *)
Theorem backend_sorts_stably_and_resequences :
  forall (c out : Course),
    transformCourseForBackend c = Ok out ->
    exists ts sorted,
      templates out = Some ts
      /\ map t_order ts
         = map (fun j => Some (Z.of_nat j))
             (seq 0 (List.length (sourceTemplates c)))
      /\ Forall2 made_from sorted ts
      /\ Permutation sorted (sourceTemplates c)
      /\ StronglySorted (key_le original_order) sorted
      /\ (forall k,
             filter (fun t => (original_order t =? k)%Z) sorted
             = filter (fun t => (original_order t =? k)%Z)
                 (sourceTemplates c))
      /\ (forall other,
             StronglySorted (key_le original_order) other ->
             (forall k,
                 filter (fun t => (original_order t =? k)%Z) other
                 = filter (fun t => (original_order t =? k)%Z)
                     (sourceTemplates c)) ->
             other = sorted).
Proof.
  intros c out H.
  destruct (backend_templates c out H) as (ts & Hts & Hmap).
  rewrite sort_by_original in Hmap.
  exists ts, (sort_by original_order (sourceTemplates c)).
  split; [exact Hts|]. split.
  { unfold mapMi in Hmap. rewrite (mapMi_from_orders _ _ _ Hmap).
    rewrite length_map, (Permutation_length (sort_by_perm original_order _)).
    reflexivity. }
  split.
  { destruct (mapMi_from_spec _ _ _ _ Hmap) as (HF & _).
    revert HF. generalize (sort_by original_order (sourceTemplates c)) as l.
    clear. intros l; revert ts.
    induction l as [|x l IH]; intros ts HF; inversion HF; subst; simpl;
      constructor; auto.
    match goal with
    | Hx : exists j, _ |- _ => destruct Hx as (j & Hj)
    end.
    destruct (transformTemplate_inv _ _ _ Hj)
      as (_ & _ & Hi & Ht & Hty & Hc & _).
    unfold made_from. rewrite Hi, Ht, Hty, Hc. simpl. auto. }
  split; [apply sort_by_perm|]. split; [apply sort_by_sorted|].
  split; [intros k; apply sort_by_stable|].
  intros other Hs Hf.
  apply (stable_sorted_unique original_order);
    [exact Hs | apply sort_by_sorted|].
  intros k. rewrite Hf. symmetry. apply sort_by_stable.
Qed.

(** Orders 5, 5, 2 become 0, 1, 2: the page that had order 2 comes first,
    the two pages of order 5 follow in their original sequence. *)
Example resequence_5_5_2 :
  exists out ts,
    transformCourseForBackend
      (course_of_pages [ page_with_order "a" 5; page_with_order "b" 5;
                         page_with_order "c" 2 ]) = Ok out
    /\ templates out = Some ts
    /\ map t_id ts = [Some "c"; Some "a"; Some "b"]
    /\ map t_order ts = [Some 0%Z; Some 1%Z; Some 2%Z].
Proof.
  eexists. eexists. split; [reflexivity|]. repeat split; reflexivity.
Qed.

Lemma backend_sorts_stably_and_resequences_witness :
  let c := course_of_pages [ page_with_order "a" 5; page_with_order "b" 5;
                             page_with_order "c" 2 ] in
  exists out ts,
    transformCourseForBackend c = Ok out
    /\ templates out = Some ts
    /\ map t_id ts = [Some "c"; Some "a"; Some "b"]
    /\ map t_order ts = [Some 0%Z; Some 1%Z; Some 2%Z].
Proof.
  eexists.
  destruct (backend_sorts_stably_and_resequences
              (course_of_pages [ page_with_order "a" 5;
                                 page_with_order "b" 5;
                                 page_with_order "c" 2 ]) _ eq_refl)
    as (ts & sorted & H1 & H2 & H3 & _ & _ & _ & H7).
  exists ts. split; [reflexivity|]. split; [exact H1|].
  split; [|exact H2].
  rewrite (made_from_ids _ _ H3).
  rewrite <- (H7 [ page_with_order "c" 2; page_with_order "a" 5;
                   page_with_order "b" 5 ]).
  - reflexivity.
  - repeat constructor; unfold key_le; cbn; lia.
  - intros k. cbn [filter sourceTemplates course_of_pages templates pages
                   original_order page_with_order t_order].
    destruct (Z.eqb_spec 2 k), (Z.eqb_spec 5 k); try reflexivity; lia.
Defined.

(* ---------------------------------------------------------------- *)
(** *** Legacy MCQ bridging *)

Lemma findIndex_from_pure {A} (f : A -> result bool) (p : A -> bool)
  (l : list A) :
  (forall x, In x l -> f x = Ok (p x)) ->
  forall i, findIndex_from f l i = Ok (index_or_minus_one i (first_index p l)).
Proof.
  induction l as [|x l IH]; intros H i; simpl; auto.
  rewrite (H x) by now left. simpl.
  destruct (p x); simpl.
  - f_equal. lia.
  - rewrite IH by (intros; apply H; now right).
    destruct (first_index p l); simpl; f_equal. lia.
Qed.

Lemma first_index_Some {A} (p : A -> bool) (l : list A) (n : nat) :
  first_index p l = Some n <->
  (exists x, nth_error l n = Some x /\ p x = true)
  /\ forall m y, m < n -> nth_error l m = Some y -> p y = false.
Proof.
  revert n. induction l as [|x l IH]; intros n; simpl.
  - split; [discriminate|]. intros [(y & Hy & _) _].
    destruct n; discriminate.
  - destruct (p x) eqn:Hx.
    + split.
      * intros H; inversion H; subst. split; [exists x; auto|].
        intros m y Hm; lia.
      * intros [_ Hmin]. destruct n as [|n]; auto.
        specialize (Hmin 0 x (Nat.lt_0_succ n) eq_refl). congruence.
    + destruct (first_index p l) as [k|] eqn:Hk; simpl.
      * split.
        -- intros H; inversion H; subst.
           destruct (proj1 (IH k) eq_refl) as [Hex Hmin].
           split; [exact Hex|].
           intros [|m] y Hm Hy; simpl in Hy.
           ++ inversion Hy; subst; auto.
           ++ apply (Hmin m y); [lia | exact Hy].
        -- intros [(y & Hy & Hpy) Hmin]. destruct n as [|n]; simpl in Hy.
           ++ inversion Hy; subst. congruence.
           ++ f_equal. assert (Hn : Some k = Some n); [|now inversion Hn].
              apply IH. split; [eauto|].
              intros m z Hm Hz. apply (Hmin (S m) z); [lia | exact Hz].
      * split; [discriminate|].
        intros [(y & Hy & Hpy) Hmin]. destruct n as [|n]; simpl in Hy.
        -- inversion Hy; subst. congruence.
        -- assert (Hn : None = Some n); [|discriminate].
           apply IH. split; [eauto|].
           intros m z Hm Hz. apply (Hmin (S m) z); [lia | exact Hz].
Qed.

Lemma clone_strings (l : list string) :
  clone (VArr (map VStr l)) = VArr (map VStr l).
Proof.
  simpl. f_equal. induction l; simpl; auto. now f_equal.
Qed.

Lemma format_string_options (cai : Z) (opts : list string) :
  forall i,
    mapi_from (formatOption 1 cai) (map VStr opts) i
    = mapi_from string_option
        (combine opts
           (mapi_from (fun _ j => (Z.of_nat j =? cai)%Z) opts i)) i.
Proof.
  induction opts as [|o opts IH]; intros i; simpl; auto.
  rewrite IH. reflexivity.
Qed.

Lemma nth_mapi_from {A B} (f : A -> nat -> B) (d : B) (l : list A) :
  forall i n x,
    nth_error l n = Some x -> nth n (mapi_from f l i) d = f x (i + n).
Proof.
  induction l as [|y l IH]; intros i [|n] x H; simpl in *; try discriminate.
  - inversion H; subst. now rewrite Nat.add_0_r.
  - rewrite (IH (S i) n x H). f_equal. lia.
Qed.

(** Bridging of one legacy MCQ template, after the defensive clone. *)
Lemma bridge_legacy (t : Template) (q : string) (opts : list string)
  (ca : string) :
  q <> "" ->
  legacy_mcq (sourceData t) q opts ca ->
  exists flags,
    bridgeQuestions (clone_template t) (sourceData (clone_template t))
    = Ok (Some [VObj [ ("id", VStr (interpolate (t_id t) +++ "_q1"));
                       ("question", VStr q);
                       ("options",
                        VArr (mapi string_option (combine opts flags))) ]])
    /\ List.length flags = List.length opts
    /\ forall i, nth i flags false = true <-> first_match ca opts i.
Proof.
  intros Hq (Hqs & Hqu & Hop & Hca).
  set (cai := if ca =? "" then (-1)%Z
              else index_or_minus_one 0
                     (first_index (fun o => trim o =? trim ca) opts)).
  exists (mapi (fun _ j => (Z.of_nat j =? cai)%Z) opts).
  split; [|split].
  - rewrite sourceData_clone. unfold bridgeQuestions, clone_data.
    cbn [d_questions d_question d_options d_correctAnswer t_id clone_template].
    rewrite Hqs, Hqu, Hop, Hca, clone_strings.
    cbn [clone_opt clone truthy array_or_empty andb].
    apply String.eqb_neq in Hq. rewrite Hq. cbn [negb].
    assert (Hidx : (if negb (ca =? "")
                    then findIndex (matches_answer (VStr ca)) (map VStr opts)
                    else Ok (-1)%Z) = Ok cai).
    { unfold cai. destruct (ca =? "") eqn:Hc; cbn [negb]; auto.
      unfold findIndex.
      rewrite (findIndex_from_pure (matches_answer (VStr ca))
                 (fun v => match v with
                           | VStr o => trim o =? trim ca
                           | _ => false
                           end)).
      - f_equal. f_equal. clear. induction opts; simpl; auto.
        now rewrite IHopts.
      - intros x Hx. apply in_map_iff in Hx. destruct Hx as (o & <- & _).
        unfold matches_answer, optionText, or_else; simpl.
        rewrite Hc. reflexivity. }
    rewrite Hidx. cbn [bind]. unfold mapi.
    now rewrite format_string_options.
  - unfold mapi. apply ValidationFacts.mapi_from_length.
  - intros i. unfold mapi.
    destruct (nth_error opts i) as [o|] eqn:Hi.
    + rewrite (nth_mapi_from _ false opts 0 i o Hi). simpl.
      unfold first_match, cai.
      destruct (String.eqb_spec ca "") as [->|Hc].
      * split; [intros H; apply Z.eqb_eq in H; lia
               | intros [H _]; congruence].
      * destruct (first_index (fun o => trim o =? trim ca) opts) as [k|]
          eqn:Hk; simpl.
        -- rewrite Z.eqb_eq, Nat2Z.inj_iff.
           apply first_index_Some in Hk.
           destruct Hk as [(x & Hx & Hpx) Hmin].
           apply String.eqb_eq in Hpx.
           split.
           ++ intros ->. split; [exact Hc|]. split; [eauto|].
              intros j o' Hj Ho' He. specialize (Hmin j o' Hj Ho').
              apply String.eqb_neq in Hmin. contradiction.
           ++ intros (_ & (o1 & Ho1 & Ht1) & Hmin').
              destruct (Nat.lt_trichotomy i k) as [Hlt | [Heq | Hgt]]; auto.
              ** specialize (Hmin i o1 Hlt Ho1).
                 apply String.eqb_neq in Hmin. contradiction.
              ** exfalso. apply (Hmin' k x Hgt Hx Hpx).
        -- split; [intros H; apply Z.eqb_eq in H; lia|].
           intros (_ & (o1 & Ho1 & Ht1) & _).
           assert (Hn : first_index (fun o => trim o =? trim ca) opts
                        = Some i \/ exists k, k < i /\
                          first_index (fun o => trim o =? trim ca) opts
                          = Some k).
           { clear - Ho1 Ht1. revert i Ho1.
             induction opts as [|y l IH]; intros [|i] Hi; simpl in *;
               try discriminate.
             - inversion Hi; subst. apply String.eqb_eq in Ht1.
               rewrite Ht1. auto.
             - destruct (trim y =? trim ca); [right; exists 0; split; [lia|auto]|].
               destruct (IH i Hi) as [-> | (k & Hk & ->)]; simpl; auto.
               right. exists (S k). split; [lia | auto]. }
           destruct Hn as [Hn | (k & _ & Hn)]; congruence.
    + rewrite nth_overflow.
      2:{ rewrite ValidationFacts.mapi_from_length.
          now apply nth_error_None. }
      split; [discriminate|].
      intros (_ & (o & Ho & _) & _). congruence.
Qed.

Lemma Forall2_In_l {A B} (R : A -> B -> Prop) (l : list A) (l' : list B)
  (x : A) :
  Forall2 R l l' -> In x l -> exists y, In y l' /\ R x y.
Proof.
  induction 1 as [|a b l l' Hab HF IH]; intros Hin; [destruct Hin|].
  destruct Hin as [->|Hin].
  - exists b. split; [now left | exact Hab].
  - destruct (IH Hin) as (y & Hy & Hxy). exists y. split; [now right|auto].
Qed.

(** C6, the statement as written fails on three counts: only the first of
    several options whose text equals the correct answer is flagged, a
    page whose question is the empty string gets no [questions] array, and
    an empty correct answer flags nothing, not even an option whose text
    is empty after trimming. *)
Lemma legacy_flags_not_by_text_alone :
  questions_of
    (transformCourseForBackend
       (course_of_pages [legacy_page "Q" ["B"; "B"] "B"]))
  = [Some [VObj [ ("id", VStr "p1_q1"); ("question", VStr "Q");
                  ("options",
                   VArr [ VObj [ ("id", VStr "opt_1"); ("text", VStr "B");
                                 ("isCorrect", VBool true) ];
                          VObj [ ("id", VStr "opt_2"); ("text", VStr "B");
                                 ("isCorrect", VBool false) ] ]) ]]]
  /\ questions_of
       (transformCourseForBackend
          (course_of_pages [legacy_page "" ["A"; "B"] "B"]))
     = [None]
  /\ questions_of
       (transformCourseForBackend
          (course_of_pages [legacy_page "Q" [" "; "A"] ""]))
     = [Some [VObj [ ("id", VStr "p1_q1"); ("question", VStr "Q");
                     ("options",
                      VArr [ VObj [ ("id", VStr "opt_1"); ("text", VStr " ");
                                    ("isCorrect", VBool false) ];
                             VObj [ ("id", VStr "opt_2"); ("text", VStr "A");
                                    ("isCorrect", VBool false) ] ]) ]]]
     /\ trim " " = trim "".
Proof. repeat split. Qed.

(** The scenario of the specification: question "Q", options "A", "B",
    "C", correct answer "B". *)
Example legacy_A_B_C :
  questions_of
    (transformCourseForBackend
       (course_of_pages [legacy_page "Q" ["A"; "B"; "C"] "B"]))
  = [Some [VObj [ ("id", VStr "p1_q1"); ("question", VStr "Q");
                  ("options",
                   VArr [ VObj [ ("id", VStr "opt_1"); ("text", VStr "A");
                                 ("isCorrect", VBool false) ];
                          VObj [ ("id", VStr "opt_2"); ("text", VStr "B");
                                 ("isCorrect", VBool true) ];
                          VObj [ ("id", VStr "opt_3"); ("text", VStr "C");
                                 ("isCorrect", VBool false) ] ]) ]]].
Proof. reflexivity. Qed.

(** C6 (as amended).  A page in the legacy shape (a non-empty question
    string, an array of option strings, a correct-answer string, no
    [questions]) comes out with a [questions] array of one question that
    keeps the question text and the option texts in order; the option
    flagged [isCorrect] is the first one whose trimmed text equals the
    trimmed, non-empty correct answer, so at most one option is flagged,
    and none when no option text matches. *)
Theorem legacy_mcq_bridged :
  forall (c out : Course) (t : Template) (q : string) (opts : list string)
         (ca : string),
    transformCourseForBackend c = Ok out ->
    In t (sourceTemplates c) ->
    q <> "" ->
    legacy_mcq (sourceData t) q opts ca ->
    exists t' d flags,
      In t' (or_default (templates out) [])
      /\ made_from t t'
      /\ t_data t' = Some d
      /\ d_questions d
         = Some [VObj [ ("id", VStr (interpolate (t_id t) +++ "_q1"));
                        ("question", VStr q);
                        ("options",
                         VArr (mapi string_option (combine opts flags))) ]]
      /\ List.length flags = List.length opts
      /\ (forall i, nth i flags false = true <-> first_match ca opts i)
      /\ (forall i j, nth i flags false = true ->
                      nth j flags false = true -> i = j)
      /\ ((forall o, In o opts -> trim o <> trim ca) ->
          forall i, nth i flags false = false).
Proof.
  intros c out t q opts ca H Hin Hq Hleg.
  destruct (backend_templates c out H) as (ts & Hts & Hmap).
  destruct (mapMi_from_spec _ _ _ _ Hmap) as (HF & _).
  assert (Hin' : In (clone_template t)
                   (map clone_template
                      (sort_by order_key (sourceTemplates c)))).
  { apply in_map.
    apply (Permutation_in _ (Permutation_sym (sort_by_perm order_key _))).
    exact Hin. }
  destruct (Forall2_In_l _ _ _ _ HF Hin') as (t' & Ht' & j & Hj).
  destruct (transformTemplate_inv _ _ _ Hj)
    as (qs & Hb & Hi & Hti & Hty & Hc & _ & _ & d & Hd & Hdq).
  destruct (bridge_legacy t q opts ca Hq Hleg) as (flags & Hbr & Hlen & Hfl).
  rewrite Hbr in Hb. injection Hb as Hqs. rewrite <- Hqs in Hdq.
  exists t', d, flags. rewrite Hts. cbn [or_default].
  split; [exact Ht'|]. split; [unfold made_from; simpl in *; auto|].
  split; [exact Hd|]. split; [exact Hdq|]. split; [exact Hlen|].
  split; [exact Hfl|]. split.
  - intros i k Hi' Hk'. apply Hfl in Hi', Hk'.
    destruct Hi' as (_ & (oi & Hoi & Hmi) & Hmin_i).
    destruct Hk' as (_ & (ok & Hok & Hmk) & Hmin_k).
    destruct (Nat.lt_trichotomy i k) as [Hlt | [Heq | Hgt]]; auto.
    + exfalso. apply (Hmin_k i oi Hlt Hoi Hmi).
    + exfalso. apply (Hmin_i k ok Hgt Hok Hmk).
  - intros Hno i. destruct (nth i flags false) eqn:E; auto.
    apply Hfl in E. destruct E as (_ & (o & Ho & Hm) & _).
    exfalso. apply (Hno o); [eapply nth_error_In; eauto | exact Hm].
Qed.

Lemma legacy_mcq_bridged_witness :
  let t := legacy_page "Q" ["A"; "B"; "C"] "B" in
  exists out,
    transformCourseForBackend (course_of_pages [t]) = Ok out
    /\ In t (sourceTemplates (course_of_pages [t]))
    /\ "Q" <> ""
    /\ legacy_mcq (sourceData t) "Q" ["A"; "B"; "C"] "B"
    /\ exists t' d flags,
         In t' (or_default (templates out) [])
         /\ t_data t' = Some d
         /\ List.length flags = 3
         /\ (forall i, nth i flags false = true
                       <-> first_match "B" ["A"; "B"; "C"] i).
Proof.
  eexists. split; [reflexivity|]. split; [now left|].
  split; [discriminate|].
  assert (Hleg : legacy_mcq (sourceData (legacy_page "Q" ["A"; "B"; "C"] "B"))
                   "Q" ["A"; "B"; "C"] "B").
  { repeat split. }
  split; [exact Hleg|].
  destruct (legacy_mcq_bridged
              (course_of_pages [legacy_page "Q" ["A"; "B"; "C"] "B"]) _
              (legacy_page "Q" ["A"; "B"; "C"] "B") "Q" ["A"; "B"; "C"] "B"
              eq_refl (or_introl eq_refl)
              (fun H => match H in _ = s
                              return match s with
                                     | EmptyString => False
                                     | String _ _ => True
                                     end with
                        | eq_refl => I
                        end)
              Hleg)
    as (t' & d & flags & H1 & _ & H3 & _ & H5 & H6 & _).
  exists t', d, flags. split; [exact H1|]. split; [exact H3|].
  split; [exact H5 | exact H6].
Defined.

(* ---------------------------------------------------------------- *)
(** *** Idempotence of the backend transform *)

Import CloneSpec CloneFacts.

Lemma clone_opt_idem (v : option (list value)) :
  clone_opt (clone_opt v) = clone_opt v.
Proof.
  destruct v as [l|]; simpl; auto. f_equal.
  change (map _ (map ?f l)) with (map clone_element (map clone_element l)).
  pose proof (clone_idem (VArr l)) as H. rewrite !clone_VArr in H.
  now injection H.
Qed.

Lemma clone_opt_fixed (l : list value) :
  fixed (VArr l) -> clone_opt (Some l) = Some l.
Proof. unfold fixed, clone_opt. now intros ->. Qed.

Lemma clone_data_idem (d : TemplateData) :
  clone_data (clone_data d) = clone_data d.
Proof.
  unfold clone_data; simpl. now rewrite !clone_idem, clone_opt_idem.
Qed.

Lemma formatOption_fixed (first : nat) (cai : Z) (opt : value) (i : nat) :
  fixed opt ->
  formatOption first cai opt i <> VUndefined
  /\ fixed (formatOption first cai opt i).
Proof.
  intros Hopt.
  assert (Hobj : forall a b c,
             a <> VUndefined -> fixed a -> b <> VUndefined -> fixed b ->
             VObj [("id", a); ("text", b); ("isCorrect", VBool c)]
             <> VUndefined
             /\ fixed (VObj [ ("id", a); ("text", b);
                              ("isCorrect", VBool c) ])).
  { intros a b c Ha Fa Hb Fb. split; [discriminate|].
    apply fixed_VObj. repeat constructor; simpl; auto; discriminate. }
  assert (Hgen : forall k d,
             d <> VUndefined -> fixed d ->
             or_else (opt_prop k opt) d <> VUndefined
             /\ fixed (or_else (opt_prop k opt) d)).
  { intros k d Hd Fd. split; [now apply or_else_defined|].
    apply fixed_or_else; [now apply fixed_opt_prop | exact Fd]. }
  unfold formatOption.
  destruct opt as [| | | | |l|o];
    try (apply Hobj; try discriminate; reflexivity).
  - destruct (Hgen "id" (VStr ("opt_" +++ nat_to_string (i + first))))
      as [? ?]; [discriminate | reflexivity |].
    destruct (Hgen "option" (VStr ("Option " +++ nat_to_string (i + 1))))
      as [? ?]; [discriminate | reflexivity |].
    destruct (Hgen "text"
                (or_else (opt_prop "option" (VObj o))
                   (VStr ("Option " +++ nat_to_string (i + 1)))))
      as [? ?]; auto.
Qed.

Lemma mapi_from_Forall {A B} (P : A -> Prop) (Q : B -> Prop)
  (f : A -> nat -> B) :
  (forall x i, P x -> Q (f x i)) ->
  forall l i, Forall P l -> Forall Q (mapi_from f l i).
Proof.
  intros H l i HF. revert i.
  induction HF as [|x l Hx _ IH]; intros i; simpl; constructor; auto.
Qed.

(** What bridging returns from cloned data is itself unchanged by a
    clone. *)
Lemma bridgeQuestions_fixed (t : Template) (d : TemplateData)
  (q : option (list value)) :
  bridgeQuestions t (clone_data d) = Ok q -> clone_opt q = q.
Proof.
  unfold bridgeQuestions.
  cbn [clone_data d_questions d_question d_options d_correctAnswer].
  destruct (clone_opt (d_questions d)) as [l|] eqn:Hq.
  - intros H; injection H as <-. rewrite <- Hq. apply clone_opt_idem.
  - destruct (truthy (clone (d_question d)) && truthy (clone (d_options d)))
      eqn:Ht; [|intros H; now injection H as <-].
    apply andb_prop in Ht. destruct Ht as [Htq _].
    destruct (if truthy (clone (d_correctAnswer d)) then _ else _)
      as [cai|]; cbn [bind]; [|discriminate].
    intros H; injection H as <-.
    apply clone_opt_fixed. apply fixed_VArr. constructor; [|constructor].
    split; [discriminate|]. apply fixed_VObj.
    constructor; [split; [discriminate | reflexivity]|].
    constructor; [split; [now apply truthy_defined | apply fixed_clone]|].
    constructor; [|constructor]. split; [discriminate|]. simpl.
    apply fixed_VArr. unfold mapi.
    apply (mapi_from_Forall (fun x => x <> VUndefined /\ fixed x)).
    + intros x i [_ Hx]. now apply formatOption_fixed.
    + pose proof (fixed_clone (d_options d)) as Hf.
      destruct (clone (d_options d)); simpl; try constructor.
      now apply fixed_VArr.
Qed.

Lemma type_or_idem (a b : option string) :
  type_or (type_or a b) b = type_or a b.
Proof.
  unfold type_or. destruct (str_truthy a) eqn:Ha; [now rewrite Ha|].
  now destruct (str_truthy b).
Qed.

Lemma or_undefined_idem (v : value) :
  or_undefined (or_undefined v) = or_undefined v.
Proof.
  unfold or_undefined, or_else. destruct (truthy v) eqn:E; [now rewrite E|].
  reflexivity.
Qed.

Lemma content_precedence_stable (a b c : value) :
  let content := coalesce a (coalesce b (coalesce c (VStr ""))) in
  coalesce content
    (coalesce VUndefined (coalesce VUndefined (VStr ""))) = content.
Proof.
  unfold coalesce. destruct a; simpl; auto; destruct b; simpl; auto;
    destruct c; simpl; auto.
Qed.

(** A transformed template is a fixed point of its own transformation... *)
Lemma transformTemplate_again (s t' : Template) (j : nat) :
  transformTemplate s j = Ok t' -> transformTemplate t' j = Ok t'.
Proof.
  unfold transformTemplate at 1.
  destruct (bridgeQuestions s (sourceData s)) as [q|]; cbn [bind];
    [|discriminate].
  intros H; injection H as <-.
  unfold transformTemplate, sourceData, bridgeQuestions.
  cbn [t_data t_content t_id t_type t_templateType t_title d_content
       d_description d_body d_subtitle d_videoUrl d_questions d_question
       d_options d_correctAnswer].
  rewrite content_precedence_stable, type_or_idem, !or_undefined_idem.
  destruct q; reflexivity.
Qed.

(** ... and of the defensive clone, when its source had been cloned. *)
Lemma transformTemplate_cloned (s t' : Template) (j : nat) :
  transformTemplate (clone_template s) j = Ok t' -> clone_template t' = t'.
Proof.
  unfold transformTemplate. rewrite sourceData_clone.
  destruct (bridgeQuestions _ _) as [q|] eqn:Hq; cbn [bind]; [|discriminate].
  apply bridgeQuestions_fixed in Hq.
  intros H; injection H as <-.
  unfold clone_template at 1.
  cbn [t_data t_content t_id t_type t_templateType t_title t_order].
  f_equal.
  - cbn [option_map]. f_equal. unfold clone_data at 1.
    cbn [d_content d_description d_body d_template_name d_subtitle
         d_videoUrl d_questions d_question d_options d_correctAnswer].
    rewrite Hq. f_equal.
    + unfold clone_data; cbn [d_content d_description d_body].
      repeat apply fixed_coalesce; try apply fixed_clone; reflexivity.
    + unfold clone_data; cbn [d_subtitle].
      apply fixed_or_else; [apply fixed_clone | reflexivity].
    + unfold clone_data; cbn [d_videoUrl].
      apply fixed_or_else; [apply fixed_clone | reflexivity].
  - unfold clone_template; cbn [t_content].
    destruct (t_content s); cbn [option_map]; auto.
    now rewrite clone_data_idem.
Qed.

Lemma mapMi_from_again (l : list Template) :
  forall i ts,
    mapMi_from transformTemplate (map clone_template l) i = Ok ts ->
    map clone_template ts = ts
    /\ mapMi_from transformTemplate ts i = Ok ts.
Proof.
  induction l as [|s l IH]; intros i ts H; simpl in H.
  - injection H as <-. split; reflexivity.
  - destruct (transformTemplate (clone_template s) i) as [t'|] eqn:Ht;
      cbn [bind] in H; [|discriminate].
    destruct (mapMi_from transformTemplate (map clone_template l) (S i))
      as [ts'|] eqn:Hts; cbn [bind] in H; [|discriminate].
    injection H as <-. destruct (IH _ _ Hts) as [Hc Ha]. simpl.
    rewrite (transformTemplate_cloned _ _ _ Ht), Hc.
    rewrite (transformTemplate_again _ _ _ Ht). cbn [bind].
    rewrite Ha. split; reflexivity.
Qed.

Lemma assets_cloned (a : option (list value)) :
  clone_opt (Some (or_default (clone_opt a) []))
  = Some (or_default (clone_opt a) []).
Proof.
  destruct a as [l|]; [|reflexivity].
  apply clone_opt_fixed. cbn [clone_opt or_default].
  pose proof (fixed_clone (VArr l)) as H.
  rewrite clone_VArr in *. exact H.
Qed.

Lemma orders_sorted (ts : list Template) :
  forall i n,
    map t_order ts = map (fun j => Some (Z.of_nat j)) (seq i n) ->
    StronglySorted (key_le order_key) ts
    /\ Forall (fun t => (Z.of_nat i <= order_key t)%Z) ts.
Proof.
  induction ts as [|t ts IH]; intros i n H.
  - split; constructor.
  - destruct n as [|n]; [discriminate|]. simpl in H.
    injection H as Ht Hts. destruct (IH _ _ Hts) as [Hs Hall].
    assert (Hk : order_key t = Z.of_nat i) by (unfold order_key; now rewrite Ht).
    split; constructor; auto; try lia.
    + eapply Forall_impl; [|exact Hall].
      unfold key_le. intros; lia.
    + eapply Forall_impl; [|exact Hall]. simpl; intros; lia.
Qed.

Lemma str_or_idem (a : option string) (d : string) :
  str_or (Some (str_or a d)) d = str_or a d.
Proof.
  unfold str_or. destruct a as [x|].
  - destruct (x =? "") eqn:E; [now destruct (d =? "")|now rewrite E].
  - now destruct (d =? "").
Qed.

Lemma normalizeVersion_idem (v : option string) :
  normalizeVersion (Some (normalizeVersion v)) = normalizeVersion v.
Proof.
  unfold normalizeVersion.
  destruct v as [x|]; [|reflexivity].
  destruct (negb (x =? "") && is_semver x) eqn:E; [now rewrite E|].
  reflexivity.
Qed.

Lemma coalesce_clone_again (a b : value) :
  clone b = b -> nullish b = false ->
  coalesce (clone (coalesce (clone a) b)) b = coalesce (clone a) b.
Proof.
  intros Hb Hn. unfold coalesce at 2 3.
  destruct (nullish (clone a)) eqn:E.
  - rewrite Hb. unfold coalesce. now rewrite Hn.
  - rewrite clone_idem. unfold coalesce. now rewrite E.
Qed.

(** C7, the statement as written fails.  The transform reads the
    navigation from an untyped clone: a [lockProgression] "yes" is copied
    to [linearProgression] by the first pass, and replaced by [false] by
    the second, which finds a [linearProgression] that is not a boolean and
    no [lockProgression]. *)
Lemma second_pass_resets_untyped_progression :
  exists out1 out2,
    transformCourseForBackend course_locked_by_string = Ok out1
    /\ transformCourseForBackend out1 = Ok out2
    /\ option_map linearProgression (navigation out1) = Some (VStr "yes")
    /\ option_map linearProgression (navigation out2) = Some (VBool false).
Proof.
  eexists. eexists. split; [reflexivity|]. split; [reflexivity|].
  split; reflexivity.
Qed.

(** C7 (as amended).  Normalization is idempotent on the courses whose
    progression flags have their declared type, and on no others: when
    [transformCourseForBackend] returns [out] for a course, it returns
    [out] again for [out] exactly when the course's [linearProgression] is
    a boolean or its [lockProgression] is a boolean or absent; the second
    pass finds the order sequential, the navigation mapped, the defaults
    in place and the MCQ data in the [questions] shape. *)
Theorem backend_transform_idempotent_when_typed :
  forall (c out : Course),
    transformCourseForBackend c = Ok out ->
    (transformCourseForBackend out = Ok out <-> progression_typed c = true).
Proof.
  intros c out H. unfold transformCourseForBackend in H.
  rewrite sourceTemplates_clone, sort_by_map in H by reflexivity.
  destruct (mapMi transformTemplate _) as [ts|] eqn:Hmap; cbn [bind] in H;
    [|discriminate].
  injection H as <-. unfold mapMi in Hmap.
  pose proof (mapMi_from_orders _ _ _ Hmap) as Hord.
  apply orders_sorted in Hord. destruct Hord as [Hsorted _].
  apply mapMi_from_again in Hmap. destruct Hmap as [Hclone Hagain].
  unfold transformCourseForBackend, clone_course, sourceTemplates.
  cbn [courseId title description author version createdAt updatedAt
       language templates pages assets navigation settings option_map
       or_default].
  rewrite Hclone, (sort_by_sorted_id order_key ts Hsorted).
  unfold mapMi. rewrite Hagain. cbn [bind].
  rewrite assets_cloned. cbn [or_default].
  rewrite !str_or_idem, normalizeVersion_idem.
  cbn [clone_navigation linearProgression lockProgression allowSkip
       showProgress].
  pose proof (str_or_idem (language c) "en") as Hl.
  unfold str_or at 1 in Hl. rewrite ?Hl, ?str_or_idem, ?Hl.
  unfold progression_typed.
  destruct (navigation c) as [nav|];
    cbn [option_map or_default clone_navigation emptyNavigation
         linearProgression lockProgression allowSkip showProgress];
    [|split; reflexivity].
  rewrite !coalesce_clone_again by reflexivity.
  destruct (linearProgression nav) eqn:Elin; cbn [clone];
    destruct (lockProgression nav) eqn:Elock; cbn [clone coalesce nullish];
    (split; [intros H; try reflexivity; injection H; discriminate
            |intros H; try discriminate H; reflexivity]).
Qed.

Lemma backend_transform_idempotent_when_typed_witness :
  let c := course_of_pages [ page_with_order "a" 5;
                             legacy_page "Q" ["A"; "B"; "C"] "B";
                             page_with_order "c" 2 ] in
  exists out,
    transformCourseForBackend c = Ok out
    /\ progression_typed c = true
    /\ transformCourseForBackend out = Ok out.
Proof.
  eexists. split; [reflexivity|]. split; [reflexivity|].
  apply (backend_transform_idempotent_when_typed
           (course_of_pages [ page_with_order "a" 5;
                              legacy_page "Q" ["A"; "B"; "C"] "B";
                              page_with_order "c" 2 ])).
  - reflexivity.
  - reflexivity.
Defined.

(* ---------------------------------------------------------------- *)
(** *** Placeholder questions: export against backend *)

Lemma exportQuestions_nonempty (page : Template) (content : TemplateData)
  (qs : list value) :
  exportQuestions page content = Ok qs -> qs <> [].
Proof.
  unfold exportQuestions.
  destruct (if _ : bool then _ else _) as [mcq|]; cbn [bind]; [|discriminate].
  intros H; injection H as <-.
  destruct mcq; simpl; discriminate.
Qed.

Lemma exportQuestions_placeholder (page : Template) (content : TemplateData) :
  no_question_data content ->
  exportQuestions page content = Ok [placeholderQuestion page].
Proof.
  intros (Hq & Hqu & _). unfold exportQuestions.
  rewrite Hq, Hqu. reflexivity.
Qed.

Lemma exportTemplate_mcq (page t' : Template) (i : nat) :
  is_mcq page = true ->
  exportTemplate page i = Ok t' ->
  exists d qs,
    t_data t' = Some d /\ d_questions d = Some qs
    /\ exportQuestions page (sourceData page) = Ok qs.
Proof.
  intros Hm. unfold exportTemplate, exportData. rewrite Hm.
  destruct (exportQuestions page (sourceData page)) as [qs|]; cbn [bind];
    [|discriminate].
  intros H; injection H as <-. simpl.
  eexists _, qs. repeat split.
Qed.

Lemma truthy_clone (v : value) : truthy (clone v) = truthy v.
Proof. now destruct v. Qed.

Lemma array_or_empty_clone_length (v : value) :
  List.length (array_or_empty (clone v)) = List.length (array_or_empty v).
Proof. destruct v; try reflexivity. cbn. apply length_map. Qed.

Lemma append_length (a b : string) :
  String.length (a +++ b) = String.length a + String.length b.
Proof. induction a as [|x a IH]; cbn; [reflexivity | now rewrite IH]. Qed.

Lemma bridged_id_not_placeholder_id (x : string) :
  x +++ "_q1" <> "q_" +++ x.
Proof.
  intros H. apply (f_equal String.length) in H.
  rewrite !append_length in H. cbn in H. lia.
Qed.

Lemma transformTemplate_questions (s t' : Template) (j : nat) :
  transformTemplate (clone_template s) j = Ok t' ->
  exists d,
    t_data t' = Some d
    /\ questions_from s (d_questions d)
    /\ (d_questions (sourceData s) = None ->
        d_questions d <> Some [placeholderQuestion s]).
Proof.
  unfold transformTemplate, bridgeQuestions, questions_from.
  rewrite sourceData_clone.
  cbn [clone_data d_questions d_question d_options d_correctAnswer].
  rewrite !truthy_clone.
  destruct (d_questions (sourceData s)) as [given|]; cbn [clone_opt bind].
  { intros H; injection H as <-. eexists. split; [reflexivity|].
    split; [reflexivity | discriminate]. }
  destruct (truthy (d_question (sourceData s))
            && truthy (d_options (sourceData s))).
  - destruct (if truthy (d_correctAnswer (sourceData s)) then _ else _)
      as [k|]; cbn [bind]; [|discriminate].
    intros H; injection H as <-. eexists. split; [reflexivity|].
    cbn [d_questions clone_template t_id]. split.
    + eexists. split; [reflexivity|].
      unfold mapi. rewrite ValidationFacts.mapi_from_length.
      apply array_or_empty_clone_length.
    + intros _ H. unfold placeholderQuestion in H.
      injection H as H. now apply bridged_id_not_placeholder_id in H.
  - cbn [bind]. intros H; injection H as <-. eexists.
    split; [reflexivity|]. split; [reflexivity | discriminate].
Qed.

(** C8.  For an MCQ page [transformCourseForExport] always emits a
    non-empty [questions] array, and when the page carries no question or
    options data at all that array is exactly one synthesized placeholder
    question, of whose options exactly one is flagged [isCorrect: true].
    [transformCourseForBackend] synthesizes none: the [questions] of each
    of its templates are the page's own array (an empty one stays empty),
    or the one question bridged from the page's question and options, or
    absent; a page without a [questions] array never gets the placeholder,
    and one without question or options data gets no [questions]. *)
Theorem export_synthesizes_placeholder_backend_does_not :
  (forall (c out : Course),
      transformCourseForExport c = Ok out ->
      exists ts,
        templates out = Some ts
        /\ forall i page,
             nth_error (sourceTemplates c) i = Some page ->
             is_mcq page = true ->
             exists t' d qs,
               nth_error ts i = Some t' /\ t_data t' = Some d
               /\ d_questions d = Some qs /\ qs <> []
               /\ (no_question_data (sourceData page) ->
                   qs = [placeholderQuestion page]
                   /\ List.length qs = 1
                   /\ flagged (placeholderQuestion page) = 1))
  /\ (forall (c out : Course),
         transformCourseForBackend c = Ok out ->
         exists ts sorted,
           templates out = Some ts
           /\ Permutation sorted (sourceTemplates c)
           /\ Forall2 (fun s t' =>
                         made_from s t'
                         /\ exists d,
                              t_data t' = Some d
                              /\ questions_from s (d_questions d)
                              /\ (d_questions (sourceData s) = None ->
                                  d_questions d
                                  <> Some [placeholderQuestion s])
                              /\ (no_question_data (sourceData s) ->
                                  d_questions d = None))
                sorted ts).
Proof.
  split.
  - intros c out H. unfold transformCourseForExport in H.
    destruct (mapMi exportTemplate (sourceTemplates c)) as [ts|] eqn:Hm;
      cbn [bind] in H; [|discriminate].
    injection H as <-. exists ts. split; [reflexivity|].
    intros i page Hi Hmcq.
    destruct (mapMi_from_spec _ _ _ _ Hm) as (_ & _ & Hn).
    destruct (Hn i page Hi) as (t' & Ht' & He).
    destruct (exportTemplate_mcq page t' _ Hmcq He) as (d & qs & Hd & Hq & Hx).
    exists t', d, qs. split; [exact Ht'|]. split; [exact Hd|].
    split; [exact Hq|]. split; [exact (exportQuestions_nonempty _ _ _ Hx)|].
    intros Hno. rewrite (exportQuestions_placeholder page _ Hno) in Hx.
    injection Hx as <-. repeat split.
  - intros c out H.
    destruct (backend_templates c out H) as (ts & Hts & Hmap).
    exists ts, (sort_by order_key (sourceTemplates c)).
    split; [exact Hts|]. split; [apply sort_by_perm|].
    destruct (mapMi_from_spec _ _ _ _ Hmap) as (HF & _).
    revert HF. generalize (sort_by order_key (sourceTemplates c)) as l.
    clear. intros l; revert ts.
    induction l as [|x l IH]; intros ts HF; inversion HF; subst; simpl;
      constructor; auto.
    match goal with
    | Hx : exists j, _ |- _ => destruct Hx as (j & Hj)
    end.
    split.
    + destruct (transformTemplate_inv _ _ _ Hj)
        as (_ & _ & Hi & Ht & Hty & Hc & _).
      unfold made_from. rewrite Hi, Ht, Hty, Hc. simpl. auto.
    + destruct (transformTemplate_questions _ _ _ Hj) as (d & Hd & Hq & Hp).
      exists d. split; [exact Hd|]. split; [exact Hq|].
      split; [exact Hp|].
      intros (H1 & H2 & _). unfold questions_from in Hq.
      rewrite H1, H2 in Hq. exact Hq.
Qed.

Lemma export_synthesizes_placeholder_backend_does_not_witness :
  (exists out,
      transformCourseForExport (course_of_pages [bare_mcq_page]) = Ok out
      /\ exists ts,
           templates out = Some ts
           /\ exists t' d,
                nth_error ts 0 = Some t' /\ t_data t' = Some d
                /\ d_questions d = Some [placeholderQuestion bare_mcq_page])
  /\ (exists out,
         transformCourseForBackend (course_of_pages [empty_questions_page])
         = Ok out
         /\ exists t' d,
              templates out = Some [t'] /\ t_data t' = Some d
              /\ d_questions d = Some [])
  /\ (exists out,
         transformCourseForBackend (course_of_pages [bare_mcq_page]) = Ok out
         /\ exists t' d,
              templates out = Some [t'] /\ t_data t' = Some d
              /\ d_questions d = None).
Proof.
  split; [|split].
  - eexists. split; [reflexivity|].
    destruct (proj1 export_synthesizes_placeholder_backend_does_not
                (course_of_pages [bare_mcq_page]) _ eq_refl)
      as (ts & Hts & Hp).
    exists ts. split; [exact Hts|].
    destruct (Hp 0 bare_mcq_page eq_refl eq_refl)
      as (t' & d & qs & H1 & H2 & H3 & _ & H5).
    destruct (H5 (conj eq_refl (conj eq_refl eq_refl))) as (-> & _).
    exists t', d. split; [exact H1|]. split; [exact H2 | exact H3].
  - eexists. split; [reflexivity|].
    destruct (proj2 export_synthesizes_placeholder_backend_does_not
                (course_of_pages [empty_questions_page]) _ eq_refl)
      as (ts & sorted & Hts & Hperm & HF).
    apply Permutation_sym, Permutation_length_1_inv in Hperm. subst sorted.
    inversion HF as [|s t' l l' (_ & d & Hd & Hq & _) Hnil]; subst.
    inversion Hnil; subst.
    exists t', d. split; [exact Hts|]. split; [exact Hd | exact Hq].
  - eexists. split; [reflexivity|].
    destruct (proj2 export_synthesizes_placeholder_backend_does_not
                (course_of_pages [bare_mcq_page]) _ eq_refl)
      as (ts & sorted & Hts & Hperm & HF).
    apply Permutation_sym, Permutation_length_1_inv in Hperm. subst sorted.
    inversion HF as [|s t' l l' (_ & d & Hd & _ & _ & Hn) Hnil]; subst.
    inversion Hnil; subst.
    exists t', d. split; [exact Hts|]. split; [exact Hd|].
    apply Hn. repeat split.
Defined.

(* ---------------------------------------------------------------- *)
(** *** When the backend transform returns *)

Lemma findIndex_from_total {A} (f : A -> result bool) (l : list A) :
  (forall x, In x l -> exists b, f x = Ok b) ->
  forall i, exists r, findIndex_from f l i = Ok r.
Proof.
  induction l as [|x l IH]; intros H i; simpl; eauto.
  destruct (H x (or_introl eq_refl)) as [b ->]; simpl.
  destruct b; eauto. apply IH. intros; apply H; now right.
Qed.

Lemma bridgeQuestions_total (t : Template) (d : TemplateData) :
  answer_typed d = true -> exists q, bridgeQuestions t d = Ok q.
Proof.
  unfold answer_typed, bridgeQuestions. intros H.
  apply andb_prop in H. destruct H as [Hca Hopts].
  destruct (d_questions d); eauto.
  destruct (truthy (d_question d) && truthy (d_options d)); eauto.
  destruct (truthy (d_correctAnswer d)) eqn:Ht; cbn [bind]; eauto.
  destruct (findIndex_from_total (matches_answer (d_correctAnswer d))
              (array_or_empty (d_options d))) with (i := 0%Z) as [r Hr].
  - intros x Hx. rewrite forallb_forall in Hopts. specialize (Hopts x Hx).
    unfold matches_answer, or_else. rewrite Ht.
    destruct (optionText x); try discriminate.
    destruct (d_correctAnswer d); try discriminate. simpl. eauto.
  - unfold findIndex. rewrite Hr. cbn [bind]. eauto.
Qed.

Lemma mapMi_from_total {A B} (f : A -> nat -> result B) (l : list A) :
  (forall x j, In x l -> exists y, f x j = Ok y) ->
  forall i, exists ys, mapMi_from f l i = Ok ys.
Proof.
  induction l as [|x l IH]; intros H i; simpl; eauto.
  destruct (H x i (or_introl eq_refl)) as [y ->]; cbn [bind].
  destruct (IH (fun x j Hx => H x j (or_intror Hx)) (S i)) as [ys ->].
  cbn [bind]. eauto.
Qed.

(** The backend transform returns a course whenever, after the defensive
    clone, the answer data of every page has the declared types. *)
Lemma backend_returns_on_typed_answers (c : Course) :
  Forall (fun t => answer_typed (sourceData t) = true)
    (sourceTemplates (clone_course c)) ->
  exists out, transformCourseForBackend c = Ok out.
Proof.
  intros H. unfold transformCourseForBackend.
  destruct (mapMi_from_total transformTemplate
              (sort_by order_key (sourceTemplates (clone_course c))))
    with (i := 0) as [ts Hts].
  - intros x j Hx.
    apply (Permutation_in _ (sort_by_perm order_key _)) in Hx.
    rewrite Forall_forall in H. specialize (H x Hx).
    unfold transformTemplate.
    destruct (bridgeQuestions_total x (sourceData x) H) as [q ->].
    cbn [bind]. eauto.
  - unfold mapMi. rewrite Hts. cbn [bind]. eauto.
Qed.

End TransformFacts.

(** ** Further properties of the validation service *)

Module ServiceFacts.

Import Validation ValidationSpec ServiceSpec.

(** X1.  Live field feedback exists for "title", "author" and
    "description" only: for every other field path, supported by a
    validator or not, the service returns no errors and does not throw,
    whatever the value. *)
Theorem field_feedback_only_for_three_fields :
  forall (now : string) (course : Course) (fieldPath : string) (v : value),
    fieldPath <> "title" -> fieldPath <> "author" ->
    fieldPath <> "description" ->
    validateField_service (default_validators now) course fieldPath v = Ok [].
Proof.
  intros now course fieldPath v Ht Ha Hd.
  apply String.eqb_neq in Ht, Ha, Hd.
  unfold validateField_service, default_validators.
  cbn [find supportsField CourseValidator TemplateValidator
       NavigationValidator].
  destruct (CourseValidator_supportsField fieldPath).
  - unfold CourseValidator; cbn [validateField].
    unfold CourseValidator_validateField.
    rewrite Ht, Ha, Hd. reflexivity.
  - destruct (TemplateValidator_supportsField fieldPath); [reflexivity|].
    destruct (NavigationValidator_supportsField fieldPath); reflexivity.
Qed.

Lemma field_feedback_only_for_three_fields_witness :
  validateField_service (default_validators "t")
    {| course_title := None; course_author := None;
       course_description := None; course_pages := None;
       course_settings := None |} "version" (VStr "not a version") = Ok [].
Proof.
  apply (field_feedback_only_for_three_fields "t" _ "version"
           (VStr "not a version")); discriminate.
Defined.

(** X2.  For "title" and "author" the service throws exactly when the
    value is truthy and not a string (it calls [trim] on it); every other
    value gets a result. *)
Theorem required_field_feedback_throws_on_non_strings :
  forall (now : string) (course : Course) (fieldPath : string) (v : value),
    fieldPath = "title" \/ fieldPath = "author" ->
    (validateField_service (default_validators now) course fieldPath v
     = Throw TypeError
     <-> truthy v = true /\ is_string v = false)
    /\ (truthy v = false \/ is_string v = true ->
        exists es,
          validateField_service (default_validators now) course fieldPath v
          = Ok es).
Proof.
  intros now course fieldPath v H.
  assert (E : validateField_service (default_validators now) course
                fieldPath v
              = (es <- required_field fieldPath v
                        (if fieldPath =? "title" then 200 else 100)
                        (if fieldPath =? "title" then "Title is required"
                         else "Author is required")
                        (if fieldPath =? "title" then "Title too long"
                         else "Author name too long") ;;
                 Ok es)).
  { destruct H as [-> | ->]; unfold validateField_service; simpl;
      unfold CourseValidator_validateField; simpl;
      destruct (required_field _ v _ _ _); reflexivity. }
  rewrite E. clear E. unfold required_field.
  destruct v as [| |b|n|s|l|o]; simpl;
    try (split; [split; [discriminate | intros [? ?]; discriminate]
                | intros _; eauto]).
  - destruct b; simpl.
    + split; [split; auto | intros [?|?]; discriminate].
    + split; [split; [discriminate | intros [? ?]; discriminate]
             | intros _; eauto].
  - destruct (n =? 0)%Z; simpl.
    + split; [split; [discriminate | intros [? ?]; discriminate]
             | intros _; eauto].
    + split; [split; auto | intros [?|?]; discriminate].
  - destruct (s =? ""); simpl.
    + split; [split; [discriminate | intros [? ?]; discriminate]
             | intros _; eauto].
    + destruct (String.length (trim s) =? 0)%nat; simpl;
        (split; [split; [discriminate | intros [? ?]; discriminate]
                | intros _; eauto]).
  - split; [split; auto | intros [?|?]; discriminate].
  - split; [split; auto | intros [?|?]; discriminate].
Qed.

Lemma required_field_feedback_throws_on_non_strings_witness :
  validateField_service (default_validators "t")
    {| course_title := None; course_author := None;
       course_description := None; course_pages := None;
       course_settings := None |} "title" (VNum 7) = Throw TypeError.
Proof.
  apply (proj1 (required_field_feedback_throws_on_non_strings "t" _
                  "title" (VNum 7) (or_introl eq_refl))).
  split; reflexivity.
Defined.

(* ---------------------------------------------------------------- *)
(** *** Live check and full check of the course fields *)

Lemma error_at_app (f : string) (a b : list ValidationError) :
  error_at f (a ++ b) <-> error_at f a \/ error_at f b.
Proof.
  unfold error_at. split.
  - intros (e & H & Hf). apply in_app_or in H. destruct H; eauto.
  - intros [(e & H & Hf) | (e & H & Hf)]; exists e; split; auto;
      apply in_or_app; auto.
Qed.

Lemma error_at_when (f : string) (b : bool) (e : ValidationError) :
  error_at f (when b e) <-> b = true /\ field e = f.
Proof.
  unfold error_at, when. split.
  - intros (e' & H & Hf). destruct b; [|destruct H].
    destruct H as [<- | []]. auto.
  - intros [-> Hf]. exists e. split; [now left | exact Hf].
Qed.

Lemma error_at_length_check (f : string) (s : option string) (n : nat)
  (f' m : string) :
  error_at f (length_check s n f' m)
  <-> (exists x, s = Some x /\ negb (x =? "") && length_gt x n = true)
      /\ f' = f.
Proof.
  unfold length_check. destruct s as [x|].
  - rewrite error_at_when. simpl. split.
    + intros [H Hf]. split; eauto.
    + intros [(y & Hy & H) Hf]. injection Hy as <-. auto.
  - split.
    + intros (e & [] & _).
    + intros [(y & Hy & _) _]. discriminate.
Qed.

Lemma full_check_title (c : Course) :
  error_at "course.title" (CourseValidator_errors c)
  <-> blank (course_title c) = true
      \/ (exists x, course_title c = Some x
                    /\ negb (x =? "") && length_gt x 200 = true).
Proof.
  unfold CourseValidator_errors.
  rewrite !error_at_app, !error_at_when, !error_at_length_check.
  cbn [field createError]. split.
  - intros [[H _] | [[H _] | [[_ H] | [[_ H] | [[_ H] | [_ H]]]]]];
      try discriminate H; auto.
  - intros [H | H]; [left | right; left]; auto.
Qed.

Lemma full_check_author (c : Course) :
  error_at "course.author" (CourseValidator_errors c)
  <-> blank (course_author c) = true
      \/ (exists x, course_author c = Some x
                    /\ negb (x =? "") && length_gt x 100 = true).
Proof.
  unfold CourseValidator_errors.
  rewrite !error_at_app, !error_at_when, !error_at_length_check.
  cbn [field createError]. split.
  - intros [[_ H] | [[_ H] | [[H _] | [[H _] | [[_ H] | [_ H]]]]]];
      try discriminate H; auto.
  - intros [H | H]; [right; right; left | right; right; right; left]; auto.
Qed.

Lemma live_check_string (f : string) (s : string) (n : nat)
  (missing long : string) :
  exists es,
    required_field f (VStr s) n missing long = Ok es
    /\ (List.length es <= 1)%nat
    /\ (es = [] <-> blank (Some s) = false
                    /\ negb (s =? "") && length_gt s n = false).
Proof.
  unfold required_field, blank. cbn [truthy].
  destruct (s =? "") eqn:He; cbn [negb orb andb].
  - eexists. split; [reflexivity|]. split; [simpl; lia|].
    split; [discriminate | intros [H _]; discriminate H].
  - destruct (String.length (trim s) =? 0)%nat eqn:Ht.
    + eexists. split; [reflexivity|]. split; [simpl; lia|].
      split; [discriminate | intros [H _]; discriminate H].
    + eexists. split; [reflexivity|].
      destruct (length_gt s n); cbn [when].
      * split; [simpl; lia|].
        split; [discriminate | intros [_ H]; discriminate H].
      * split; [simpl; lia|]. split; auto.
Qed.

(** X3.  On a string, the live check of "title" (and of "author") and the
    full check of the course agree on whether the field is acceptable: the
    live check returns no error exactly when the full check reports none at
    "course.title" ("course.author").  The live check never returns more
    than one error. *)
Theorem required_field_feedback_agrees_with_full_check :
  forall (now : string) (course : Course) (s : string),
    (course_title course = Some s ->
     exists r,
       CourseValidator_validateField now course "title" (VStr s) = Ok r
       /\ (List.length (errors r) <= 1)%nat
       /\ (errors r = []
           <-> ~ error_at "course.title" (CourseValidator_errors course)))
    /\ (course_author course = Some s ->
        exists r,
          CourseValidator_validateField now course "author" (VStr s) = Ok r
          /\ (List.length (errors r) <= 1)%nat
          /\ (errors r = []
              <-> ~ error_at "course.author"
                     (CourseValidator_errors course))).
Proof.
  intros now course s. split; intros Hs.
  - destruct (live_check_string "title" s 200 "Title is required"
                "Title too long") as (es & He & Hn & Hiff).
    unfold CourseValidator_validateField.
    cbn [String.eqb Ascii.eqb Bool.eqb]. rewrite He. cbn [bind].
    eexists. split; [reflexivity|]. cbn [errors result_of].
    split; [exact Hn|]. rewrite Hiff, full_check_title, Hs. split.
    + intros [Hb Hl] [H | (x & Hx & H)]; [congruence|].
      injection Hx as <-. congruence.
    + intros H. split.
      * destruct (blank (Some s)); auto. exfalso; auto.
      * destruct (negb (s =? "") && length_gt s 200) eqn:E; auto.
        exfalso. apply H. right. eauto.
  - destruct (live_check_string "author" s 100 "Author is required"
                "Author name too long") as (es & He & Hn & Hiff).
    unfold CourseValidator_validateField.
    cbn [String.eqb Ascii.eqb Bool.eqb]. rewrite He. cbn [bind].
    eexists. split; [reflexivity|]. cbn [errors result_of].
    split; [exact Hn|]. rewrite Hiff, full_check_author, Hs. split.
    + intros [Hb Hl] [H | (x & Hx & H)]; [congruence|].
      injection Hx as <-. congruence.
    + intros H. split.
      * destruct (blank (Some s)); auto. exfalso; auto.
      * destruct (negb (s =? "") && length_gt s 100) eqn:E; auto.
        exfalso. apply H. right. eauto.
Qed.

Lemma required_field_feedback_agrees_with_full_check_witness :
  exists r,
    CourseValidator_validateField "t" shaped_course "title" (VStr "Course")
    = Ok r
    /\ (List.length (errors r) <= 1)%nat
    /\ (errors r = []
        <-> ~ error_at "course.title" (CourseValidator_errors shaped_course)).
Proof.
  apply (proj1 (required_field_feedback_agrees_with_full_check
                  "t" shaped_course "Course")).
  reflexivity.
Defined.

(* ---------------------------------------------------------------- *)
(** *** What the entity validators can report *)

Lemma includes_skip (a s : string) :
  lacks "r" a = true ->
  includes (a +++ s) "required" = includes s "required".
Proof.
  induction a as [|c a IH]; intros H; [reflexivity|].
  cbn [lacks] in H. apply andb_prop in H. destruct H as [Hc Ha].
  cbn [String.append includes String.prefix].
  destruct (ascii_dec "r" c) as [<-|_]; [discriminate Hc|].
  cbn [orb]. auto.
Qed.

Lemma lacks_digits (n : nat) : lacks "r" (nat_to_string n) = true.
Proof.
  unfold nat_to_string. generalize (Nat.to_uint n).
  induction u; simpl; auto.
Qed.

Lemma pages_at_plain (i : nat) (suffix : string) :
  includes ("]" +++ suffix) "required" = false ->
  includes (pages_at i suffix) "required" = false.
Proof.
  intros H. unfold pages_at.
  rewrite (includes_skip "pages[") by reflexivity.
  rewrite includes_skip by apply lacks_digits. exact H.
Qed.

Lemma conditions_at_plain (i j : nat) :
  includes
    (pages_at i (".conditions[" +++ nat_to_string j +++ "].targetPageId"))
    "required" = false.
Proof.
  apply pages_at_plain.
  change ("]" +++ ".conditions[" +++ nat_to_string j +++ "].targetPageId")
    with ("].conditions[" +++ nat_to_string j +++ "].targetPageId").
  rewrite (includes_skip "].conditions[") by reflexivity.
  rewrite includes_skip by apply lacks_digits. reflexivity.
Qed.

Lemma plain_when (b : bool) (e : ValidationError) :
  plain e -> Forall plain (when b e).
Proof.
  intros H. destruct b; simpl; auto.
Qed.

Lemma plain_length_check (s : option string) (n : nat) (f m : string) :
  includes f "required" = false ->
  Forall plain (length_check s n f m).
Proof.
  intros H. unfold length_check. destruct s; [|constructor].
  apply plain_when. split; simpl; auto.
Qed.

Lemma plain_course (c : Course) : Forall plain (CourseValidator_errors c).
Proof.
  unfold CourseValidator_errors.
  repeat (apply Forall_app; split);
    try (apply plain_when; split; simpl; auto);
    apply plain_length_check; reflexivity.
Qed.

Lemma forEach_from_all {A} (P : ValidationError -> Prop)
  (f : A -> nat -> result (list ValidationError)) :
  (forall x j es, f x j = Ok es -> Forall P es) ->
  forall l i es, forEach_from f l i = Ok es -> Forall P es.
Proof.
  intros Hf. induction l as [|x l IH]; intros i es H; simpl in H.
  - injection H as <-. constructor.
  - destruct (f x i) as [es1|] eqn:E1; [|discriminate]. simpl in H.
    destruct (forEach_from f l (S i)) as [es2|] eqn:E2; [|discriminate].
    simpl in H. injection H as <-. apply Forall_app. split; eauto.
Qed.

Lemma plain_page (p : Page) (i : nat) (es : list ValidationError) :
  validatePage p i = Ok es -> Forall plain es.
Proof.
  unfold validatePage.
  destruct (normalizeTemplateType p) as [ty|].
  - destruct (ty =? "mcq").
    { unfold validateMCQ. destruct (content_of p); [|discriminate].
      simpl. intros H. injection H as <-.
      repeat (apply Forall_app; split); apply plain_when; split; simpl; auto;
        apply pages_at_plain; reflexivity. }
    destruct (ty =? "content-text").
    { unfold validateContentText.
      destruct (content_of p) as [p0|]; [|discriminate].
      simpl.
      destruct (if negb (truthy (c_body p0)) then Ok true
                else match c_body p0 with
                     | VStr s => Ok (String.length (trim s) =? 0)%nat
                     | _ => Throw TypeError
                     end) as [b|]; [|discriminate].
      simpl. intros H. injection H as <-.
      apply plain_when; split; simpl; auto.
      apply pages_at_plain; reflexivity. }
    destruct (ty =? "welcome").
    { unfold validateWelcome. destruct (content_of p); [|discriminate].
      simpl. intros H. injection H as <-.
      apply plain_when; split; simpl; auto.
      apply pages_at_plain; reflexivity. }
    intros H. injection H as <-. constructor; [|constructor].
    split; simpl; auto. apply pages_at_plain; reflexivity.
  - intros H. injection H as <-. constructor; [|constructor].
    split; simpl; auto. apply pages_at_plain; reflexivity.
Qed.

Lemma plain_duplicates (pages : list Page) :
  forall i seen, Forall plain (duplicate_ids pages i seen).
Proof.
  induction pages as [|p pages IH]; intros i seen; simpl; [constructor|].
  destruct (page_id p) as [x|]; auto.
  destruct (negb (x =? "")); auto.
  apply Forall_app. split; auto.
  apply plain_when. split; simpl; auto. apply pages_at_plain; reflexivity.
Qed.

Lemma plain_navigation_settings (n : NavigationSettings) :
  Forall plain (validateNavigationSettings n).
Proof.
  unfold validateNavigationSettings.
  repeat (apply Forall_app; split);
    try (apply plain_when; split; simpl; auto).
  destruct (nav_mode n); [|constructor].
  apply plain_when; split; simpl; auto.
Qed.

Lemma plain_flow (pages : list Page) (es : list ValidationError) :
  validatePageFlow pages = Ok es -> Forall plain es.
Proof.
  unfold validatePageFlow, forEach.
  destruct (forEach_from order_mismatch pages 0) as [os|] eqn:Eo;
    [|discriminate].
  destruct (forEach_from branching_errors pages 0) as [bs|] eqn:Eb;
    [|discriminate].
  simpl. intros H. injection H as <-.
  repeat (apply Forall_app; split).
  - apply plain_duplicates.
  - revert Eo. apply forEach_from_all. intros x j es.
    unfold order_mismatch. intros H. injection H as <-.
    destruct (page_order x); [|constructor].
    apply plain_when; split; simpl; auto. apply pages_at_plain; reflexivity.
  - revert Eb. apply forEach_from_all. intros x j es.
    unfold branching_errors. destruct (page_conditions x);
      try (intros H; injection H as <-; constructor).
    unfold forEach. apply forEach_from_all. intros c k es'.
    unfold condition_error. destruct (prop "targetPageId" c); [|discriminate].
    simpl. intros H. injection H as <-.
    apply plain_when; split; simpl; auto. apply conditions_at_plain.
Qed.

Lemma plain_template_validator (now : string) (c : Course)
  (r : ValidationResult) :
  TemplateValidator_validate now c = Ok r -> Forall plain (errors r).
Proof.
  unfold TemplateValidator_validate.
  destruct (course_pages c) as [ps|].
  - unfold forEach.
    destruct (forEach_from validatePage ps 0) as [es|] eqn:E; [|discriminate].
    simpl. intros H. injection H as <-. simpl.
    revert E. apply forEach_from_all. exact plain_page.
  - simpl. intros H. injection H as <-. constructor.
Qed.

Lemma plain_navigation_validator (now : string) (c : Course)
  (r : ValidationResult) :
  NavigationValidator_validate now c = Ok r -> Forall plain (errors r).
Proof.
  unfold NavigationValidator_validate.
  destruct (match course_pages c with
            | Some pages =>
                if (0 <? List.length pages)%nat then validatePageFlow pages
                else Ok []
            | None => Ok []
            end) as [flow|] eqn:E; [|discriminate].
  simpl. intros H. injection H as <-. simpl.
  apply Forall_app. split.
  - destruct (course_settings c) as [st|]; [|constructor].
    destruct (settings_navigation st); [|constructor].
    apply plain_navigation_settings.
  - destruct (course_pages c) as [ps|].
    + destruct (0 <? List.length ps)%nat.
      * now apply plain_flow with ps.
      * injection E as <-. constructor.
    + injection E as <-. constructor.
Qed.

Lemma mapi_from_all {A B} (P : A -> Prop) (Q : B -> Prop)
  (f : A -> nat -> B) :
  (forall x i, P x -> Q (f x i)) ->
  forall l i, Forall P l -> Forall Q (mapi_from f l i).
Proof.
  intros Hf. induction l as [|x l IH]; intros i H; simpl; [constructor|].
  inversion H; subst. constructor; auto.
Qed.

Lemma plain_categorized (entropy : nat -> string) (e : ValidationError)
  (i : nat) :
  plain e -> level_by_category (categorize entropy e i).
Proof.
  intros [[Hc | Hc] Hf]; unfold level_by_category, categorize, determineLevel;
    simpl; rewrite Hc, ?Hf; auto.
Qed.

(** The full pass of the default validators: the errors before
    categorization are plain. *)
Lemma default_pass (now : string) (entropy : nat -> string) (c : Course)
  (r : ValidationResult) :
  validateCourse now entropy (default_validators now) c = Ok r ->
  exists es, Forall plain es /\ errors r = categorizeErrors entropy es.
Proof.
  unfold validateCourse, default_validators.
  cbn [mapM validate CourseValidator TemplateValidator NavigationValidator].
  unfold CourseValidator_validate. cbn [bind].
  destruct (TemplateValidator_validate now c) as [r2|] eqn:E2;
    [|discriminate].
  destruct (NavigationValidator_validate now c) as [r3|] eqn:E3;
    [|discriminate].
  cbn [bind flat_map errors result_of]. intros H. injection H as <-.
  eexists. split; [|reflexivity].
  apply Forall_app. split; [apply plain_course|].
  apply Forall_app. split; [now apply plain_template_validator with now c|].
  apply Forall_app. split; [|constructor].
  now apply plain_navigation_validator with now c.
Qed.

(** X4.  After a full pass with the default validators every reported
    error is of category [schema] with level [error] or of category
    [business] with level [warning]: no field path of the entity
    validators contains "required", so none of their business findings
    (missing pages, an MCQ page without options, a duplicate id, ...) is
    reported as an error, and none is of level [info]. *)
Theorem default_validators_levels_follow_category :
  forall (now : string) (entropy : nat -> string) (course : Course)
         (r : ValidationResult),
    validateCourse now entropy (default_validators now) course = Ok r ->
    Forall level_by_category (errors r).
Proof.
  intros now entropy course r H.
  destruct (default_pass now entropy course r H) as (es & Hp & ->).
  unfold categorizeErrors, mapi.
  apply mapi_from_all with (P := plain); [|exact Hp].
  intros x i. apply plain_categorized.
Qed.

Lemma default_validators_levels_follow_category_witness :
  exists r,
    validateCourse "t" (fun _ => "1") (default_validators "t")
      unfinished_quiz = Ok r
    /\ List.length (errors r) = 4%nat
    /\ Forall level_by_category (errors r).
Proof.
  eexists. split; [reflexivity|]. split; [reflexivity|].
  apply (default_validators_levels_follow_category "t" (fun _ => "1")
           unfinished_quiz).
  reflexivity.
Defined.

(* ---------------------------------------------------------------- *)
(** *** The verdict of the service *)

Lemma mapM_Forall2 {A B} (f : A -> result B) :
  forall l ys, mapM f l = Ok ys -> Forall2 (fun x y => f x = Ok y) l ys.
Proof.
  induction l as [|x l IH]; intros ys H; simpl in H.
  - injection H as <-. constructor.
  - destruct (f x) as [y|] eqn:E; [|discriminate]. simpl in H.
    destruct (mapM f l) as [ys'|]; [|discriminate]. simpl in H.
    injection H as <-. constructor; auto.
Qed.

Lemma mapM_throws {A B} (f : A -> result B) (x : A) (msg : string) :
  forall l, In x l -> f x = Throw msg -> exists m, mapM f l = Throw m.
Proof.
  induction l as [|y l IH]; intros H Hx; [destruct H|].
  simpl. destruct H as [-> | H].
  - rewrite Hx. simpl. eauto.
  - destruct (f y); simpl; [|eauto].
    destruct (IH H Hx) as [m ->]. simpl. eauto.
Qed.

Lemma mapM_returns {A B} (f : A -> result B) :
  forall l, (forall x, In x l -> exists y, f x = Ok y) ->
            exists ys, mapM f l = Ok ys.
Proof.
  induction l as [|x l IH]; intros H; simpl; [eauto|].
  destruct (H x (or_introl eq_refl)) as [y ->]. simpl.
  destruct IH as [ys ->]; [intros; apply H; now right|]. simpl. eauto.
Qed.

Lemma flat_map_nil {A B} (f : A -> list B) (l : list A) :
  flat_map f l = [] <-> Forall (fun x => f x = []) l.
Proof.
  induction l as [|x l IH]; simpl.
  - split; auto.
  - split.
    + intros H. apply app_eq_nil in H. destruct H. constructor; tauto.
    + intros H. inversion H; subst. rewrite H2. simpl. tauto.
Qed.

Lemma length_zero {A} (l : list A) :
  (List.length l =? 0)%nat = true <-> l = [].
Proof.
  destruct l; simpl; split; auto; discriminate.
Qed.

(** X5.  The verdict of a full pass, for any registered validators: the
    result is valid exactly when its error list is empty, and exactly when
    every validator returned an empty error list.  The [valid] flags the
    validators set in their own results play no part. *)
Theorem service_verdict_from_error_lists_alone :
  forall (now : string) (entropy : nat -> string)
         (validators : list Validator) (course : Course)
         (r : ValidationResult),
    validateCourse now entropy validators course = Ok r ->
    (valid r = true <-> errors r = [])
    /\ (valid r = true <->
        forall v, In v validators ->
                  exists rv, validate v course = Ok rv /\ errors rv = []).
Proof.
  intros now entropy validators course r H. unfold validateCourse in H.
  destruct (mapM (fun v => validate v course) validators) as [rs|] eqn:E;
    [|discriminate].
  simpl in H. injection H as <-. cbn [valid errors].
  apply mapM_Forall2 in E. rewrite length_zero. split.
  - unfold categorizeErrors, mapi. split.
    + intros ->. reflexivity.
    + intros H. apply length_zero.
      rewrite <- (ValidationFacts.mapi_from_length (categorize entropy) _ 0),
        H.
      reflexivity.
  - rewrite flat_map_nil. split.
    + intros Hall v Hv.
      destruct (TransformFacts.Forall2_In_l _ _ _ v E Hv) as (rv & Hr & Hrv).
      exists rv. split; auto.
      rewrite Forall_forall in Hall. auto.
    + intros Hall. induction E as [|v rv vs rs Hv E IH]; constructor.
      * destruct (Hall v (or_introl eq_refl)) as (rv' & Hr & He).
        congruence.
      * apply IH. intros; apply Hall; now right.
Qed.

Lemma service_verdict_from_error_lists_alone_witness :
  exists r,
    validateCourse "t" (fun _ => "1")
      [ {| validate := fun _ => Ok {| valid := false; errors := [];
                                     timestamp := "t" |};
           validateField := fun _ _ _ => Throw "unused";
           supportsField := fun _ => false |} ] shaped_course = Ok r
    /\ valid r = true.
Proof.
  eexists. split; [reflexivity|].
  apply (proj2 (service_verdict_from_error_lists_alone "t" (fun _ => "1")
     [ {| validate := fun _ => Ok {| valid := false; errors := [];
                                    timestamp := "t" |};
          validateField := fun _ _ _ => Throw "unused";
          supportsField := fun _ => false |} ] shaped_course _ eq_refl)).
  intros v [<- | []]. eexists. split; reflexivity.
Defined.

(* ---------------------------------------------------------------- *)
(** *** Duplicate page ids *)

Lemma duplicate_reports_app (x : string) (a b : list ValidationError) :
  duplicate_reports x (a ++ b)
  = (duplicate_reports x a + duplicate_reports x b)%nat.
Proof.
  unfold duplicate_reports. now rewrite filter_app, length_app.
Qed.

Lemma duplicate_reports_none (x : string) (es : list ValidationError) :
  Forall (fun e => (message e =? "Duplicate page ID: " +++ x) = false) es ->
  duplicate_reports x es = 0%nat.
Proof.
  unfold duplicate_reports. induction 1 as [|e es He _ IH]; auto.
  cbn [filter]. now rewrite He.
Qed.

Lemma duplicate_ids_count (x : string) (pages : list Page) :
  forall i seen,
    duplicate_reports x (duplicate_ids pages i seen)
    = if mem_string x seen
      then count_occ string_dec (truthy_ids pages) x
      else Nat.pred (count_occ string_dec (truthy_ids pages) x).
Proof.
  induction pages as [|p pages IH]; intros i seen; cbn [duplicate_ids truthy_ids].
  - cbn. now destruct (mem_string x seen).
  - destruct (page_id p) as [y|]; [|apply IH].
    destruct (y =? "") eqn:Ey; cbn [negb]; [apply IH|].
    rewrite duplicate_reports_app, IH. cbn [mem_string count_occ].
    destruct (string_dec y x) as [->|Hne].
    + rewrite String.eqb_refl. cbn [orb].
      destruct (mem_string x seen); cbn [when]; unfold duplicate_reports;
        cbn [filter message mkError List.length];
        rewrite ?String.eqb_refl; reflexivity.
    + apply String.eqb_neq in Hne. rewrite Hne. cbn [orb].
      assert (E : duplicate_reports x
                    (when (mem_string y seen)
                       (mkError (pages_at i ".id") Business
                          ("Duplicate page ID: " +++ y) Error)) = 0%nat).
      { apply duplicate_reports_none. destruct (mem_string y seen);
          constructor; [|constructor]. cbn [message mkError].
        apply String.eqb_neq. intros H. apply String.eqb_neq in Hne.
        apply Hne. cbn in H. now injection H. }
      rewrite E. reflexivity.
Qed.

Lemma forEach_not_duplicates {A} (x : string)
  (f : A -> nat -> result (list ValidationError)) (l : list A)
  (es : list ValidationError) :
  (forall a j es', f a j = Ok es' ->
     Forall (fun e => (message e =? "Duplicate page ID: " +++ x) = false) es') ->
  forEach f l = Ok es -> duplicate_reports x es = 0%nat.
Proof.
  intros Hf H. apply duplicate_reports_none.
  revert H. unfold forEach. now apply forEach_from_all.
Qed.

(** X6.  When the navigation check returns, an id that [n] pages share
    is reported as a duplicate [n - 1] times: once for every page after
    the first that carries it.  Pages without an id (or with an empty one)
    do not count, and an id used once is not reported. *)
Theorem duplicate_ids_reported_once_per_repeat :
  forall (now : string) (course : Course) (r : ValidationResult)
         (x : string),
    NavigationValidator_validate now course = Ok r ->
    duplicate_reports x (errors r)
    = Nat.pred (count_occ string_dec (truthy_ids (pages_of course)) x).
Proof.
  intros now course r x. unfold NavigationValidator_validate, pages_of.
  destruct (match course_pages course with
            | Some pages =>
                if (0 <? List.length pages)%nat then validatePageFlow pages
                else Ok []
            | None => Ok []
            end) as [flow|] eqn:E; [|discriminate].
  simpl. intros H. injection H as <-. cbn [errors result_of].
  rewrite duplicate_reports_app.
  assert (Hs : duplicate_reports x
                 match course_settings course with
                 | Some settings =>
                     match settings_navigation settings with
                     | Some navigation =>
                         validateNavigationSettings navigation
                     | None => []
                     end
                 | None => []
                 end = 0%nat).
  { destruct (course_settings course) as [st|]; [|reflexivity].
    destruct (settings_navigation st) as [n|]; [|reflexivity].
    apply duplicate_reports_none. unfold validateNavigationSettings.
    repeat (apply Forall_app; split).
    - destruct (nav_mode n); [|constructor].
      match goal with |- Forall _ (when ?b _) => destruct b end;
        constructor; [reflexivity | constructor].
    - match goal with |- Forall _ (when ?b _) => destruct b end;
        constructor; [reflexivity | constructor].
    - match goal with |- Forall _ (when ?b _) => destruct b end;
        constructor; [reflexivity | constructor]. }
  rewrite Hs. cbn [Nat.add].
  destruct (course_pages course) as [ps|];
    [|injection E as <-; reflexivity].
  destruct ps as [|p ps]; [injection E as <-; reflexivity|].
  cbn [List.length Nat.ltb Nat.leb] in E.
  unfold validatePageFlow in E.
  destruct (forEach order_mismatch (p :: ps)) as [os|] eqn:Eo;
    [|discriminate].
  destruct (forEach branching_errors (p :: ps)) as [bs|] eqn:Eb;
    [|discriminate].
  cbn [bind] in E.
  assert (Hf : flow = duplicate_ids (p :: ps) 0 [] ++ os ++ bs)
    by congruence.
  rewrite Hf, !duplicate_reports_app, duplicate_ids_count. cbn [mem_string].
  rewrite (forEach_not_duplicates x order_mismatch (p :: ps) os); auto.
  - rewrite (forEach_not_duplicates x branching_errors (p :: ps) bs); auto.
    intros a j es'. unfold branching_errors.
    destruct (page_conditions a);
      try (intros H; injection H as <-; constructor).
    unfold forEach. apply forEach_from_all. intros c k es''.
    unfold condition_error. destruct (prop "targetPageId" c); [|discriminate].
    simpl. intros H. injection H as <-.
    match goal with |- Forall _ (when ?b _) => destruct b end;
      constructor; [reflexivity | constructor].
  - intros a j es'. unfold order_mismatch. intros H. injection H as <-.
    destruct (page_order a); [|constructor].
    match goal with |- Forall _ (when ?b _) => destruct b end;
      constructor; [reflexivity | constructor].
Qed.

Lemma duplicate_ids_reported_once_per_repeat_witness :
  exists r,
    NavigationValidator_validate "t"
      {| course_title := None; course_author := None;
         course_description := None;
         course_pages := Some [ same_id_page; same_id_page; same_id_page ];
         course_settings := None |} = Ok r
    /\ duplicate_reports "p" (errors r) = 2%nat.
Proof.
  eexists. split; [reflexivity|].
  apply (duplicate_ids_reported_once_per_repeat "t"
     {| course_title := None; course_author := None;
        course_description := None;
        course_pages := Some [ same_id_page; same_id_page; same_id_page ];
        course_settings := None |} _ "p" eq_refl).
Defined.

(* ---------------------------------------------------------------- *)
(** *** The validation hook *)

Import ValidationHook.

(** X7.  The hook's [validate], once the service exists, never rejects
    and always leaves [isValidating] false with the returned result in its
    state.  If any registered validator throws, that result is the single
    generic error "Validation service error" (valid false) and the
    findings of the other validators are lost; if all return, it is the
    service's result. *)
Theorem hook_contains_validator_failures :
  forall (now later : string) (entropy : nat -> string)
         (validators : list Validator) (course : Course),
    exists r,
      hook_validate now later entropy (Some validators) course
      = Ok ({| isValidating := false; result_ := Some r;
               lastValidated := Some later |}, r)
      /\ ((exists v msg, In v validators /\ validate v course = Throw msg) ->
          r = errorResult now)
      /\ ((forall v, In v validators -> exists rv, validate v course = Ok rv) ->
          validateCourse now entropy validators course = Ok r).
Proof.
  intros now later entropy validators course. unfold hook_validate.
  eexists. split; [reflexivity|]. split.
  - intros (v & msg & Hv & Ht).
    destruct (mapM_throws (fun v => validate v course) v msg validators Hv Ht)
      as [m Hm].
    unfold validateCourse. rewrite Hm. reflexivity.
  - intros Hall.
    destruct (mapM_returns (fun v => validate v course) validators Hall)
      as [ys Hys].
    unfold validateCourse. rewrite Hys. reflexivity.
Qed.

Lemma filter_level_by_category (es : list ValidationError) :
  Forall level_by_category es ->
  filter level_is_error es = filter of_schema es
  /\ filter level_is_warning es = filter of_business es.
Proof.
  induction 1 as [|e es He _ [IH1 IH2]]; [split; reflexivity|].
  cbn [filter]. unfold level_is_error, level_is_warning, of_schema,
    of_business in *.
  destruct He as [[-> ->] | [-> ->]]; rewrite IH1, IH2; split; reflexivity.
Qed.

Lemma filter_partition_length (es : list ValidationError) :
  Forall level_by_category es ->
  (List.length (filter of_schema es) + List.length (filter of_business es)
   = List.length es)%nat.
Proof.
  induction 1 as [|e es He _ IH]; [reflexivity|].
  cbn [filter]. unfold of_schema, of_business in *.
  destruct He as [[-> _] | [-> _]]; cbn [List.length]; lia.
Qed.

(** X8.  With the default validators, whatever the course (also when a
    validator throws), the hook's [errors] are exactly the reported errors
    of category [schema] and its [warnings] exactly those of category
    [business]; together they account for every reported error.  So a
    course whose only defects are business findings has [hasErrors]
    false. *)
Theorem hook_errors_are_the_schema_errors :
  forall (now later : string) (entropy : nat -> string) (course : Course)
         (st : ValidationState) (r : ValidationResult),
    hook_validate now later entropy (Some (default_validators now)) course
    = Ok (st, r) ->
    hook_errors st = filter of_schema (errors r)
    /\ hook_warnings st = filter of_business (errors r)
    /\ (List.length (hook_errors st) + List.length (hook_warnings st)
        = List.length (errors r))%nat.
Proof.
  intros now later entropy course st r H. unfold hook_validate in H.
  injection H as <- Hr. unfold hook_errors, hook_warnings. cbn [result_].
  assert (Hall : Forall level_by_category (errors r)).
  { destruct (validateCourse now entropy (default_validators now) course)
      as [r'|] eqn:E.
    - subst r'. destruct (default_pass now entropy course r E)
        as (es & Hp & ->).
      unfold categorizeErrors, mapi.
      apply mapi_from_all with (P := plain); [|exact Hp].
      intros x i. apply plain_categorized.
    - subst r. constructor; [|constructor]. left. split; reflexivity. }
  rewrite Hr.
  destruct (filter_level_by_category _ Hall) as [-> ->].
  split; [reflexivity|]. split; [reflexivity|].
  now apply filter_partition_length.
Qed.

Lemma hook_errors_are_the_schema_errors_witness :
  exists st r,
    hook_validate "t" "u" (fun _ => "1") (Some (default_validators "t"))
      unfinished_quiz = Ok (st, r)
    /\ hasErrors st = false
    /\ hook_errors st = filter of_schema (errors r).
Proof.
  eexists. eexists. split; [reflexivity|]. split; [reflexivity|].
  apply (hook_errors_are_the_schema_errors "t" "u" (fun _ => "1")
           unfinished_quiz _ _ eq_refl).
Defined.

End ServiceFacts.

(* ================================================================== *)
(** ** Further properties of the transforms *)

Module PayloadFacts.

Import Transform TransformSpec PayloadSpec Diagnostics.

Lemma str_or_nonempty (s : option string) (d : string) :
  d <> "" -> str_or s d <> "".
Proof.
  intros Hd. unfold str_or. destruct s as [x|]; auto.
  destruct (String.eqb_spec x ""); auto.
Qed.





Lemma coalesce_chain (a b c : value) :
  nullish (coalesce a (coalesce b (coalesce c (VStr "")))) = false.
Proof.
  unfold coalesce.
  destruct (nullish a) eqn:Ea; auto.
  destruct (nullish b) eqn:Eb; auto.
  destruct (nullish c) eqn:Ec; auto.
Qed.

Lemma or_undefined_cases (v : value) :
  or_undefined v = VUndefined \/ truthy (or_undefined v) = true.
Proof.
  unfold or_undefined, or_else. destruct (truthy v) eqn:E; auto.
Qed.

Lemma transformTemplate_consolidated (t t' : Template) (i : nat) :
  transformTemplate t i = Ok t' ->
  exists d, t_data t' = Some d /\ consolidated d.
Proof.
  unfold transformTemplate.
  destruct (bridgeQuestions t (sourceData t)) as [q|]; cbn [bind];
    [|discriminate].
  intros H. injection H as <-. eexists. split; [reflexivity|].
  unfold consolidated; cbn.
  split; [apply coalesce_chain|].
  repeat (split; [reflexivity|]).
  split; apply or_undefined_cases.
Qed.

(** X10.  Every template of a backend payload has a [data] object whose
    [content] is never [undefined] or [null] (the empty string stands in
    when the source has no content, description or body), whose
    [subtitle] and [videoUrl] are truthy or absent, and which carries none
    of the legacy keys ([description], [body], [question], [options],
    [correctAnswer]). *)
Theorem backend_template_data_consolidated :
  forall (c out : Course),
    transformCourseForBackend c = Ok out ->
    exists ts,
      templates out = Some ts
      /\ Forall (fun t => exists d, t_data t = Some d /\ consolidated d) ts.
Proof.
  intros c out H.
  destruct (TransformFacts.backend_templates c out H) as (ts & Hts & Hmap).
  exists ts. split; [exact Hts|].
  destruct (TransformFacts.mapMi_from_spec _ _ _ _ Hmap) as (HF & _).
  clear Hts Hmap H. revert HF.
  generalize (map clone_template (sort_by order_key (sourceTemplates c))).
  intros l HF. induction HF as [|x y l ts' Hxy _ IH]; constructor; auto.
  destruct Hxy as (j & Hj).
  now apply transformTemplate_consolidated with x j.
Qed.

Lemma backend_template_data_consolidated_witness :
  exists out ts,
    transformCourseForBackend
      (course_of_pages [page_with_order "a" 1; page_with_order "b" 0])
    = Ok out
    /\ templates out = Some ts
    /\ Forall (fun t => exists d, t_data t = Some d /\ consolidated d) ts.
Proof.
  destruct (backend_template_data_consolidated
              (course_of_pages [page_with_order "a" 1; page_with_order "b" 0])
              _ eq_refl) as (ts & Hts & H).
  eexists. exists ts. split; [reflexivity|]. split; assumption.
Defined.

(* ---------------------------------------------------------------- *)
(** *** Diagnostics of a backend payload *)

Lemma filter_length_Forall2 {A B} (R : A -> B -> Prop) (p : A -> bool)
  (q : B -> bool) (l : list A) (l' : list B) :
  (forall x y, R x y -> q y = p x) ->
  Forall2 R l l' ->
  List.length (filter q l') = List.length (filter p l).
Proof.
  intros HR. induction 1 as [|x y l l' Hxy _ IH]; [reflexivity|].
  cbn [filter]. rewrite (HR x y Hxy). destruct (p x); cbn [List.length]; lia.
Qed.

Lemma filter_length_perm {A} (p : A -> bool) (l l' : list A) :
  Permutation l l' ->
  List.length (filter p l) = List.length (filter p l').
Proof.
  induction 1 as [|x l l' _ IH|x y l|l l' l'' _ IH1 _ IH2];
    cbn [filter]; auto.
  - destruct (p x); cbn [List.length]; lia.
  - destruct (p x), (p y); reflexivity.
  - lia.
Qed.

Lemma filter_length_map {A B} (f : A -> B) (p : B -> bool) (l : list A) :
  List.length (filter p (map f l))
  = List.length (filter (fun x => p (f x)) l).
Proof.
  induction l as [|x l IH]; [reflexivity|].
  cbn [map filter]. destruct (p (f x)); cbn [List.length]; lia.
Qed.

(** X11.  [diagnosticSummary] returns on every backend payload, and
    describes the source: the template count is the number of source
    pages, [hasLinear] is the mapped progression flag (the truth value of
    the source's [linearProgression] if that is a boolean, else of its
    [lockProgression], false when absent), and the MCQ count is
    the number of source pages whose type ([type], else [templateType]) is
    "mcq". *)
Theorem diagnostics_describe_the_source :
  forall (c out : Course),
    transformCourseForBackend c = Ok out ->
    exists s,
      diagnosticSummary out = Ok s
      /\ s_templates s = List.length (sourceTemplates c)
      /\ s_hasLinear s
         = truthy match linearProgression (source_navigation c) with
                  | VBool b => VBool b
                  | _ =>
                      coalesce (lockProgression (source_navigation c))
                               (VBool false)
                  end
      /\ s_mcqTemplates s
         = List.length (filter effective_mcq (sourceTemplates c)).
Proof.
  intros c out H.
  destruct (TransformFacts.backend_templates c out H) as (ts & Hts & Hmap).
  destruct (TransformFacts.mapMi_from_spec _ _ _ _ Hmap) as (HF & HL & _).
  unfold diagnosticSummary. rewrite Hts. eexists. split; [reflexivity|].
  cbn [s_templates s_hasLinear s_mcqTemplates].
  split.
  { rewrite HL, length_map.
    apply Permutation_length, TransformFacts.sort_by_perm. }
  split.
  { unfold transformCourseForBackend in H.
    destruct (mapMi transformTemplate _); [|discriminate].
    cbn [bind] in H. injection H as <-. unfold source_navigation.
    cbn [navigation clone_course linearProgression].
    destruct (navigation c) as [nav|];
      cbn [option_map or_default clone_navigation lockProgression
           linearProgression emptyNavigation]; [|reflexivity].
    destruct (linearProgression nav); try reflexivity;
      cbn [clone]; now destruct (lockProgression nav). }
  rewrite (filter_length_Forall2
             (fun x y => exists j, transformTemplate x j = Ok y)
             effective_mcq type_is_mcq
             (map clone_template (sort_by order_key (sourceTemplates c)))
             ts); [| |exact HF].
  - rewrite filter_length_map.
    rewrite (filter_length_perm _ _ (sourceTemplates c))
      by apply TransformFacts.sort_by_perm.
    reflexivity.
  - intros x y (j & Hj).
    destruct (TransformFacts.transformTemplate_inv _ _ _ Hj)
      as (_ & _ & _ & _ & _ & _ & Hty & _).
    unfold type_is_mcq, effective_mcq. now rewrite Hty.
Qed.

Lemma diagnostics_describe_the_source_witness :
  exists out s,
    transformCourseForBackend
      (course_of_pages [bare_mcq_page; page_with_order "b" 0]) = Ok out
    /\ diagnosticSummary out = Ok s
    /\ s_mcqTemplates s = 1%nat.
Proof.
  destruct (diagnostics_describe_the_source
              (course_of_pages [bare_mcq_page; page_with_order "b" 0])
              _ eq_refl) as (s & Hs & _ & _ & Hm).
  eexists. exists s. split; [reflexivity|]. split; [exact Hs|exact Hm].
Defined.

(* ---------------------------------------------------------------- *)
(** *** The export payload *)

Lemma mapMi_from_map {A B C} (f : A -> nat -> result B) (g : B -> C)
  (h : A -> C) :
  (forall x i y, f x i = Ok y -> g y = h x) ->
  forall l i ys, mapMi_from f l i = Ok ys -> map g ys = map h l.
Proof.
  intros Hf. induction l as [|x l IH]; intros i ys H; cbn [mapMi_from] in H.
  - injection H as <-. reflexivity.
  - destruct (f x i) as [y|] eqn:Hy; cbn [bind] in H; [|discriminate].
    destruct (mapMi_from f l (S i)) as [ys'|] eqn:Hys; cbn [bind] in H;
      [|discriminate].
    injection H as <-. cbn [map]. f_equal; eauto.
Qed.

Lemma mapMi_from_indices {A B} (f : A -> nat -> result B) (g : B -> option Z) :
  (forall x i y, f x i = Ok y -> g y = Some (Z.of_nat i)) ->
  forall l i ys,
    mapMi_from f l i = Ok ys ->
    map g ys = map (fun j => Some (Z.of_nat j)) (seq i (List.length l)).
Proof.
  intros Hf. induction l as [|x l IH]; intros i ys H; cbn [mapMi_from] in H.
  - injection H as <-. reflexivity.
  - destruct (f x i) as [y|] eqn:Hy; cbn [bind] in H; [|discriminate].
    destruct (mapMi_from f l (S i)) as [ys'|] eqn:Hys; cbn [bind] in H;
      [|discriminate].
    injection H as <-. cbn [map List.length seq]. f_equal; eauto.
Qed.

Lemma exportTemplate_inv (page t' : Template) (i : nat) :
  exportTemplate page i = Ok t' ->
  t_id t' = t_id page /\ t_title t' = t_title page
  /\ t_type t' = type_or (t_type page) (t_templateType page)
  /\ t_order t' = Some (Z.of_nat i)
  /\ t_templateType t' = None /\ t_content t' = None
  /\ exists d, t_data t' = Some d /\ exportData page = Ok d.
Proof.
  unfold exportTemplate.
  destruct (exportData page) as [d|]; cbn [bind]; [|discriminate].
  intros H. injection H as <-. cbn. repeat split. eauto.
Qed.

Lemma export_templates (c out : Course) :
  transformCourseForExport c = Ok out ->
  exists ts, templates out = Some ts
             /\ mapMi exportTemplate (sourceTemplates c) = Ok ts.
Proof.
  unfold transformCourseForExport.
  destruct (mapMi exportTemplate (sourceTemplates c)) as [ts|];
    cbn [bind]; [|discriminate].
  intros H. injection H as <-. cbn. eauto.
Qed.

(** X12.  The export keeps the pages in the sequence of the source array:
    unlike the backend transform it does not sort by [order].  Ids and
    titles are carried over position by position, the type is [type] or
    else [templateType], and the order fields are 0, 1, ..., n-1 whatever
    they were. *)
Theorem export_keeps_source_sequence :
  forall (c out : Course),
    transformCourseForExport c = Ok out ->
    exists ts,
      templates out = Some ts
      /\ map t_id ts = map t_id (sourceTemplates c)
      /\ map t_title ts = map t_title (sourceTemplates c)
      /\ map t_type ts
         = map (fun t => type_or (t_type t) (t_templateType t))
             (sourceTemplates c)
      /\ map t_order ts
         = map (fun j => Some (Z.of_nat j))
             (seq 0 (List.length (sourceTemplates c))).
Proof.
  intros c out H. destruct (export_templates c out H) as (ts & Hts & Hmap).
  exists ts. split; [exact Hts|]. unfold mapMi in Hmap.
  split; [|split; [|split]].
  - revert Hmap. apply mapMi_from_map. intros x i y Hy.
    now destruct (exportTemplate_inv x y i Hy) as (? & _).
  - revert Hmap. apply mapMi_from_map. intros x i y Hy.
    now destruct (exportTemplate_inv x y i Hy) as (_ & ? & _).
  - revert Hmap. apply mapMi_from_map. intros x i y Hy.
    now destruct (exportTemplate_inv x y i Hy) as (_ & _ & ? & _).
  - revert Hmap. apply mapMi_from_indices. intros x i y Hy.
    now destruct (exportTemplate_inv x y i Hy) as (_ & _ & _ & ? & _).
Qed.

Lemma export_keeps_source_sequence_witness :
  exists out ts,
    transformCourseForExport
      (course_of_pages [page_with_order "a" 1; page_with_order "b" 0])
    = Ok out
    /\ templates out = Some ts
    /\ map t_id ts = [Some "a"; Some "b"].
Proof.
  destruct (export_keeps_source_sequence
              (course_of_pages [page_with_order "a" 1; page_with_order "b" 0])
              _ eq_refl) as (ts & Hts & Hid & _).
  eexists. exists ts. split; [reflexivity|]. split; [exact Hts|exact Hid].
Defined.

Lemma or_else_truthy (a b : value) :
  truthy b = true -> truthy (or_else a b) = true.
Proof.
  intros H. unfold or_else. destruct (truthy a) eqn:E; auto.
Qed.

Lemma exportData_shaped (page : Template) (d : TemplateData) :
  exportData page = Ok d -> export_shaped (is_mcq page) d.
Proof.
  unfold exportData. destruct (is_mcq page).
  - destruct (exportQuestions page (sourceData page)) as [qs|] eqn:E;
      cbn [bind]; [|discriminate].
    intros H. injection H as <-. unfold export_shaped; cbn.
    split; [now apply or_else_truthy|].
    repeat (split; [reflexivity|]).
    split; [|split; reflexivity].
    apply TransformFacts.exportQuestions_nonempty in E.
    destruct qs as [|q qs]; [congruence|eauto].
  - intros H. injection H as <-. unfold export_shaped; cbn.
    split; [now repeat apply or_else_truthy|].
    repeat split.
Qed.

(** X13.  Every template of an export payload has a [data] object with a
    truthy [content] ("Quiz" or "Content" standing in for a missing one);
    an MCQ page ([type] or [templateType] equal to "mcq") gets a non-empty
    [questions] array and nothing else, any other page gets no
    [questions].  The page's [templateType] and [content] properties are
    not exported, and the payload has no [navigation], [settings],
    [assets] or [pages]; author, version and language are non-empty. *)
Theorem export_payload_shape :
  forall (c out : Course),
    transformCourseForExport c = Ok out ->
    (exists ts,
       templates out = Some ts
       /\ Forall2 (fun s t =>
                     t_templateType t = None /\ t_content t = None
                     /\ exists d, t_data t = Some d
                                  /\ export_shaped (is_mcq s) d)
            (sourceTemplates c) ts)
    /\ nonempty (author out) /\ nonempty (version out)
    /\ nonempty (language out)
    /\ navigation out = None /\ settings out = None /\ assets out = None
    /\ pages out = None.
Proof.
  intros c out H. split.
  - destruct (export_templates c out H) as (ts & Hts & Hmap).
    exists ts. split; [exact Hts|].
    destruct (TransformFacts.mapMi_from_spec _ _ _ _ Hmap) as (HF & _).
    clear Hts Hmap H. induction HF as [|x y l ts' Hxy _ IH]; constructor; auto.
    destruct Hxy as (j & Hj).
    destruct (exportTemplate_inv x y j Hj)
      as (_ & _ & _ & _ & Htt & Hc & d & Hd & He).
    split; [exact Htt|]. split; [exact Hc|]. exists d. split; [exact Hd|].
    now apply exportData_shaped.
  - unfold transformCourseForExport in H.
    destruct (mapMi exportTemplate (sourceTemplates c)); cbn [bind] in H;
      [|discriminate].
    injection H as <-.
    cbn [author version language navigation settings assets pages].
    split. { exists (str_or (author c) "Unknown Author").
             split; [reflexivity|]. now apply str_or_nonempty. }
    split. { exists (str_or (version c) "1.0.0").
             split; [reflexivity|]. now apply str_or_nonempty. }
    split. { exists (str_or (language c) "en").
             split; [reflexivity|]. now apply str_or_nonempty. }
    repeat split.
Qed.

Lemma export_payload_shape_witness :
  exists out,
    transformCourseForExport
      (course_of_pages [bare_mcq_page; page_with_order "b" 0]) = Ok out
    /\ nonempty (author out).
Proof.
  eexists. split; [reflexivity|].
  apply (export_payload_shape
           (course_of_pages [bare_mcq_page; page_with_order "b" 0])
           _ eq_refl).
Defined.

(* ---------------------------------------------------------------- *)
(** *** The two conversions of a legacy MCQ page *)

Lemma formatOption_text_and_flag (idx : Z) (opt : value) (i : nat) :
  text_and_flag (formatOption 1 idx opt i)
  = text_and_flag (formatOption 0 idx opt i).
Proof.
  unfold formatOption, text_and_flag. destruct opt; reflexivity.
Qed.

Lemma mapi_from_text_and_flag (idx : Z) (l : list value) :
  forall i,
    map text_and_flag (mapi_from (formatOption 1 idx) l i)
    = map text_and_flag (mapi_from (formatOption 0 idx) l i).
Proof.
  induction l as [|x l IH]; intros i; [reflexivity|].
  cbn [mapi_from map]. now rewrite formatOption_text_and_flag, IH.
Qed.

(** X14.  On an MCQ page in the legacy shape (a question and options, no
    [questions] array) the backend conversion and the export conversion
    agree: either both throw, or both produce exactly one question, with
    the same question text and, option by option, the same text and the
    same [isCorrect] flag.  (Only the generated option ids differ: they
    count from 1 for the backend and from 0 for the export.) *)
Theorem legacy_conversions_agree :
  forall (page : Template) (i j : nat),
    is_mcq page = true ->
    d_questions (sourceData page) = None ->
    truthy (d_question (sourceData page)) = true ->
    truthy (d_options (sourceData page)) = true ->
    match transformTemplate page i, exportTemplate page j with
    | Ok tb, Ok te =>
        exists qb qe db de,
          t_data tb = Some db /\ d_questions db = Some [qb]
          /\ t_data te = Some de /\ d_questions de = Some [qe]
          /\ opt_prop "question" qb = opt_prop "question" qe
          /\ map text_and_flag (options_of qb)
             = map text_and_flag (options_of qe)
    | Throw _, Throw _ => True
    | _, _ => False
    end.
Proof.
  intros page i j Hm Hqs Hq Ho.
  unfold transformTemplate, bridgeQuestions, exportTemplate, exportData,
    exportQuestions.
  rewrite Hm, Hqs, Hq, Ho. cbn [or_default List.length Nat.eqb andb].
  destruct (if truthy (d_correctAnswer (sourceData page))
            then findIndex (matches_answer (d_correctAnswer (sourceData page)))
                   (array_or_empty (d_options (sourceData page)))
            else Ok (-1)%Z) as [idx|]; cbn [bind]; [|exact I].
  cbn [List.length Nat.eqb].
  eexists _, _, _, _. cbn [t_data d_questions].
  repeat (split; [reflexivity|]).
  unfold or_else. rewrite Hq. split; [reflexivity|].
  unfold options_of. cbn [opt_prop lookup String.eqb Ascii.eqb Bool.eqb
                          array_or_empty].
  unfold mapi. apply mapi_from_text_and_flag.
Qed.

Lemma legacy_conversions_agree_witness :
  match transformTemplate (legacy_page "Q" ["A"; "B"] "B") 0,
        exportTemplate (legacy_page "Q" ["A"; "B"] "B") 0 with
  | Ok tb, Ok te =>
      exists qb qe db de,
        t_data tb = Some db /\ d_questions db = Some [qb]
        /\ t_data te = Some de /\ d_questions de = Some [qe]
        /\ opt_prop "question" qb = opt_prop "question" qe
        /\ map text_and_flag (options_of qb)
           = map text_and_flag (options_of qe)
  | Throw _, Throw _ => True
  | _, _ => False
  end.
Proof.
  apply (legacy_conversions_agree (legacy_page "Q" ["A"; "B"] "B") 0 0);
    reflexivity.
Defined.

(* ---------------------------------------------------------------- *)
(** *** Re-applying the page's correct answer on export *)

Lemma lookup_set_prop (k : string) (v : value) (o : list (string * value)) :
  lookup k (set_prop k v o) = v.
Proof.
  induction o as [|[k' v'] o IH]; cbn [set_prop lookup].
  - now rewrite String.eqb_refl.
  - destruct (k' =? k) eqn:E; cbn [lookup].
    + now rewrite String.eqb_refl.
    + now rewrite E.
Qed.

Lemma reapplied_flags (idx : Z) (l : list value) :
  forall i,
    List.length
      (filter (fun opt => js_eq_true (opt_prop "isCorrect" opt))
         (mapi_from (fun opt i =>
                       VObj (set_prop "isCorrect"
                               (VBool (Z.of_nat i =? idx)%Z) (spread opt)))
            l i))
    = if ((Z.of_nat i <=? idx) && (idx <? Z.of_nat (i + List.length l)))%Z
      then 1%nat else 0%nat.
Proof.
  induction l as [|x l IH]; intros i; cbn [mapi_from filter List.length].
  - rewrite Nat.add_0_r.
    destruct (Z.leb_spec (Z.of_nat i) idx), (Z.ltb_spec idx (Z.of_nat i));
      cbn; auto; lia.
  - cbn [opt_prop]. rewrite lookup_set_prop. cbn [js_eq_true].
    specialize (IH (S i)).
    destruct (Z.eqb_spec (Z.of_nat i) idx) as [E|E].
    + cbn [List.length]. rewrite IH.
      destruct (Z.leb_spec (Z.of_nat (S i)) idx); [lia|].
      destruct (Z.leb_spec (Z.of_nat i) idx); [|lia].
      destruct (Z.ltb_spec idx (Z.of_nat (i + S (List.length l)))); [|lia].
      reflexivity.
    + rewrite IH.
      replace (S i + List.length l)%nat with (i + S (List.length l))%nat
        by lia.
      destruct (Z.leb_spec (Z.of_nat (S i)) idx),
        (Z.leb_spec (Z.of_nat i) idx); try lia; reflexivity.
Qed.

Lemma reapplyAnswer_flags (idx : Z) (q q' : value) :
  reapplyAnswer idx q = Ok q' ->
  List.length (options_of q') = List.length (options_of q)
  /\ flagged q'
     = if ((0 <=? idx) && (idx <? Z.of_nat (List.length (options_of q))))%Z
       then 1%nat else 0%nat.
Proof.
  unfold reapplyAnswer, prop, options_of, flagged.
  destruct q as [| |b|n|s|l|o]; cbn [bind]; try discriminate;
    cbn [opt_prop];
    try (intros H; discriminate H).
  destruct (lookup "options" o) as [| | | | |l|]; try discriminate.
  intros H. injection H as <-. cbn [opt_prop spread].
  rewrite lookup_set_prop. cbn [array_or_empty]. unfold mapi. split.
  - apply ValidationFacts.mapi_from_length.
  - apply (reapplied_flags idx l 0).
Qed.

Lemma findIndex_from_empty {A} (f : A -> result bool) (i : Z) :
  findIndex_from f [] i = Ok (-1)%Z.
Proof. reflexivity. Qed.

(** X15.  Export of an MCQ page that already has questions and also a
    truthy [correctAnswer]: the flags of every question are overwritten
    from the page's flat [options].  Each exported question keeps its
    number of options and has exactly one option flagged correct when the
    index of the first flat option matching the answer falls inside its
    options, and none otherwise; in particular, when the page has no flat
    [options] array, every [isCorrect] flag of every question is cleared. *)
Theorem export_overwrites_flags_from_flat_options :
  forall (page : Template) (content : TemplateData) (qs qs' : list value),
    d_questions content = Some qs -> qs <> [] ->
    truthy (d_correctAnswer content) = true ->
    exportQuestions page content = Ok qs' ->
    exists idx,
      findIndex (matches_answer (d_correctAnswer content))
        (array_or_empty (d_options content)) = Ok idx
      /\ Forall2 (fun q q' =>
                    List.length (options_of q') = List.length (options_of q)
                    /\ flagged q'
                       = if ((0 <=? idx)
                             && (idx <? Z.of_nat (List.length (options_of q))))%Z
                         then 1%nat else 0%nat) qs qs'
      /\ (array_or_empty (d_options content) = [] ->
          Forall (fun q' => flagged q' = 0%nat) qs').
Proof.
  intros page content qs qs' Hqs Hne Hca. unfold exportQuestions.
  rewrite Hqs, Hca. cbn [or_default].
  destruct qs as [|q0 qs0]; [congruence|].
  cbn [List.length Nat.eqb andb Nat.ltb Nat.leb].
  destruct (findIndex (matches_answer (d_correctAnswer content))
              (array_or_empty (d_options content))) as [idx|] eqn:Ei;
    cbn [bind]; [|discriminate].
  destruct (mapM (reapplyAnswer idx) (q0 :: qs0)) as [rs|] eqn:Em;
    cbn [bind]; [|discriminate].
  assert (HF : Forall2 (fun q q' => reapplyAnswer idx q = Ok q')
                 (q0 :: qs0) rs)
    by now apply ServiceFacts.mapM_Forall2.
  assert (Hrs : (List.length rs =? 0)%nat = false).
  { inversion HF; subst. reflexivity. }
  rewrite Hrs. intros H. injection H as <-.
  exists idx. split; [reflexivity|]. split.
  - clear Em Hrs Hqs Hne. induction HF as [|q q' l l' Hq _ IH];
      constructor; auto.
    now apply reapplyAnswer_flags.
  - intros He. rewrite He in Ei. unfold findIndex in Ei.
    rewrite findIndex_from_empty in Ei. injection Ei as <-.
    clear Em Hrs Hqs Hne. induction HF as [|q q' l l' Hq _ IH];
      constructor; auto.
    destruct (reapplyAnswer_flags _ _ _ Hq) as [_ ->]. reflexivity.
Qed.

Lemma export_overwrites_flags_from_flat_options_witness :
  exists qs',
    exportQuestions bare_mcq_page modern_with_answer = Ok qs'
    /\ Forall (fun q' => flagged q' = 0%nat) qs'.
Proof.
  assert (Hne : [modern_question] <> []) by discriminate.
  destruct (export_overwrites_flags_from_flat_options bare_mcq_page
              modern_with_answer [modern_question] _ eq_refl Hne
              eq_refl eq_refl) as (idx & _ & _ & H).
  eexists. split; [reflexivity|]. apply H. reflexivity.
Defined.

(* ---------------------------------------------------------------- *)
(** *** Template type helpers *)

Import TemplateUtils.

Lemma normalized_known (t : Template) :
  is_known (getNormalizedTemplateType t) known_types = true.
Proof.
  unfold getNormalizedTemplateType.
  destruct (rawType t) as [r|]; [|reflexivity].
  destruct (r =? ""); [reflexivity|].
  destruct (is_known r known_types) eqn:E; [exact E | reflexivity].
Qed.

Lemma normalized_set (t : Template) (ty : string) :
  getNormalizedTemplateType (setNormalizedTemplateType t ty)
  = if is_known ty known_types then ty else "content-text".
Proof.
  unfold getNormalizedTemplateType, setNormalizedTemplateType, rawType,
    type_or.
  cbn [t_type t_templateType str_truthy].
  destruct (String.eqb_spec ty "") as [->|Hne]; cbn [negb]; [reflexivity|].
  apply String.eqb_neq in Hne. rewrite Hne. reflexivity.
Qed.

Lemma str_truthy_type_or (a b : option string) :
  str_truthy (type_or a b) = str_truthy a || str_truthy b.
Proof.
  unfold type_or. destruct (str_truthy a) eqn:E; [exact E | reflexivity].
Qed.

Lemma normalized_untyped (t : Template) :
  str_truthy (rawType t) = false ->
  getNormalizedTemplateType t = "content-text".
Proof.
  unfold getNormalizedTemplateType.
  destruct (rawType t) as [r|]; [|reflexivity].
  cbn [str_truthy]. destruct (r =? ""); [reflexivity | discriminate].
Qed.

(** X16.  The normalized type of a template is always one of the five
    known types.  Setting a known type and reading it back returns it;
    setting any other string reads back as "content-text"; writing back
    the normalized type of a template does not change what is read.
    [isTemplateTypeValid] is true exactly when [type] or [templateType] is
    a non-empty string, known or not. *)
Theorem normalized_type_round_trip :
  forall (t : Template) (ty : string),
    is_known (getNormalizedTemplateType t) known_types = true
    /\ (is_known ty known_types = true ->
        getNormalizedTemplateType (setNormalizedTemplateType t ty) = ty)
    /\ (is_known ty known_types = false ->
        getNormalizedTemplateType (setNormalizedTemplateType t ty)
        = "content-text")
    /\ getNormalizedTemplateType
         (setNormalizedTemplateType t (getNormalizedTemplateType t))
       = getNormalizedTemplateType t
    /\ isTemplateTypeValid t
       = str_truthy (t_type t) || str_truthy (t_templateType t).
Proof.
  intros t ty. split; [apply normalized_known|].
  split; [intros H; now rewrite normalized_set, H|].
  split; [intros H; now rewrite normalized_set, H|].
  split; [now rewrite normalized_set, normalized_known|].
  unfold isTemplateTypeValid. rewrite str_truthy_type_or.
  destruct (str_truthy (t_type t) || str_truthy (t_templateType t)) eqn:E;
    [apply Bool.orb_true_r|].
  rewrite Bool.orb_false_r, normalized_untyped; [reflexivity|].
  unfold rawType. rewrite str_truthy_type_or, Bool.orb_comm. exact E.
Qed.

Lemma normalized_by_raw (t t' : Template) :
  rawType t' = rawType t
  \/ (str_truthy (rawType t') = false /\ str_truthy (rawType t) = false) ->
  getNormalizedTemplateType t' = getNormalizedTemplateType t.
Proof.
  intros [H | [H1 H2]].
  - unfold getNormalizedTemplateType. now rewrite H.
  - now rewrite !normalized_untyped.
Qed.

(** X17.  The backend transform does not change the normalized type of a
    template.  The export does not either, as long as [type] and
    [templateType] are not both set to different values; when they are,
    the export writes [type], which the normalization ranks below
    [templateType]: a page with type "mcq" and templateType "welcome"
    normalizes to "welcome" before the export and to "mcq" after it. *)
Theorem transforms_and_normalized_type :
  (forall (t t' : Template) (i : nat),
      transformTemplate t i = Ok t' ->
      getNormalizedTemplateType t' = getNormalizedTemplateType t)
  /\ (forall (t t' : Template) (i : nat),
         exportTemplate t i = Ok t' ->
         str_truthy (t_type t) = false
         \/ str_truthy (t_templateType t) = false
         \/ t_type t = t_templateType t ->
         getNormalizedTemplateType t' = getNormalizedTemplateType t)
  /\ (exists t',
         exportTemplate two_typed_page 0 = Ok t'
         /\ getNormalizedTemplateType t' = "mcq"
         /\ getNormalizedTemplateType two_typed_page = "welcome").
Proof.
  split; [|split].
  - intros t t' i H.
    destruct (TransformFacts.transformTemplate_inv _ _ _ H)
      as (_ & _ & _ & _ & Htt & _ & Hty & _).
    apply normalized_by_raw. unfold rawType. rewrite Htt, Hty.
    unfold type_or.
    destruct (str_truthy (t_templateType t)) eqn:Eb; [now left|].
    destruct (str_truthy (t_type t)) eqn:Ea; [now left|].
    rewrite Eb. now right.
  - intros t t' i H Hc.
    destruct (exportTemplate_inv _ _ _ H) as (_ & _ & Hty & _ & Htt & _).
    apply normalized_by_raw. unfold rawType. rewrite Htt, Hty.
    unfold type_or. cbn [str_truthy].
    destruct (str_truthy (t_type t)) eqn:Ea,
             (str_truthy (t_templateType t)) eqn:Eb;
      rewrite ?Ea, ?Eb; auto.
    destruct Hc as [Hc | [Hc | Hc]]; try discriminate Hc. now left.
  - eexists. split; [reflexivity|]. split; reflexivity.
Qed.

End PayloadFacts.

(* ================================================================== *)
(** ** Properties of the client-side business rules *)

Module ClientRulesFacts.

Import Transform Merge ClientValidation ClientRulesSpec.

Lemma length_nil {A} (l : list A) :
  (List.length l =? 0)%nat = true <-> l = [].
Proof.
  destruct l; cbn; split; auto; discriminate.
Qed.

Lemma mem_Z_In (x : Z) (l : list Z) : mem_Z x l = true <-> In x l.
Proof.
  induction l as [|y l IH]; cbn [mem_Z In]; [split; [discriminate|tauto]|].
  rewrite Bool.orb_true_iff, Z.eqb_eq, IH. tauto.
Qed.

Lemma unique_from_length (seen l : list Z) :
  (List.length (unique_from seen l) <= List.length l)%nat.
Proof.
  revert seen. induction l as [|x l IH]; intros seen; cbn [unique_from];
    [auto|].
  destruct (mem_Z x seen); cbn [List.length].
  - specialize (IH seen). lia.
  - specialize (IH (x :: seen)). lia.
Qed.

Lemma unique_from_full (l : list Z) :
  forall seen,
    List.length (unique_from seen l) = List.length l ->
    unique_from seen l = l /\ NoDup l /\ forall x, In x l -> ~ In x seen.
Proof.
  induction l as [|x l IH]; intros seen H; cbn [unique_from] in *.
  - split; [reflexivity|]. split; [constructor|]. intros x [].
  - destruct (mem_Z x seen) eqn:E; cbn [List.length] in H.
    + pose proof (unique_from_length seen l). lia.
    + injection H as H. destruct (IH _ H) as (Hu & Hn & Hs).
      split; [now rewrite Hu|]. split.
      * constructor; [|exact Hn]. intros Hx. apply (Hs x Hx). now left.
      * intros y [<- | Hy].
        -- intros Hin. apply mem_Z_In in Hin. congruence.
        -- intros Hin. apply (Hs y Hy). now right.
Qed.

Lemma unique_from_NoDup (l : list Z) :
  forall seen,
    NoDup l -> (forall x, In x l -> ~ In x seen) ->
    unique_from seen l = l.
Proof.
  induction l as [|x l IH]; intros seen Hn Hs; cbn [unique_from];
    [reflexivity|].
  inversion Hn as [|? ? Hx Hn']; subst.
  destruct (mem_Z x seen) eqn:E.
  - apply mem_Z_In in E. exfalso. apply (Hs x); [now left | exact E].
  - f_equal. apply IH; [exact Hn'|].
    intros y Hy [<- | Hin]; [contradiction|].
    apply (Hs y); [now right | exact Hin].
Qed.

Lemma first_gap_None (l : list Z) :
  forall i, first_gap l i = None <-> l = consecutive i (List.length l).
Proof.
  unfold consecutive.
  induction l as [|o l IH]; intros i; cbn [first_gap List.length seq map].
  - split; reflexivity.
  - destruct (Z.eqb_spec o (Z.of_nat i)) as [->|Hne].
    + rewrite IH. split; [intros <-; reflexivity | intros H; now injection H].
    + split; [discriminate | intros H; injection H as H _; contradiction].
Qed.

Lemma consecutive_sorted (n : nat) :
  forall i, StronglySorted Z.le (consecutive i n).
Proof.
  unfold consecutive.
  induction n as [|n IH]; intros i; cbn [seq map]; constructor; auto.
  apply Forall_forall. intros x Hx. apply in_map_iff in Hx.
  destruct Hx as (k & <- & Hk). apply in_seq in Hk. lia.
Qed.

Lemma consecutive_NoDup (n : nat) : forall i, NoDup (consecutive i n).
Proof.
  unfold consecutive.
  induction n as [|n IH]; intros i; cbn [seq map]; constructor; auto.
  intros Hx. apply in_map_iff in Hx.
  destruct Hx as (k & Hk & Hin). apply in_seq in Hin. lia.
Qed.

Lemma sorted_permutation_unique (l1 : list Z) :
  forall l2,
    StronglySorted Z.le l1 -> StronglySorted Z.le l2 ->
    Permutation l1 l2 -> l1 = l2.
Proof.
  induction l1 as [|a l1 IH]; intros l2 H1 H2 Hp.
  - apply Permutation_nil in Hp. now subst.
  - destruct l2 as [|b l2];
      [apply Permutation_sym, Permutation_nil in Hp; discriminate|].
    inversion H1 as [|? ? H1' Ha]; subst.
    inversion H2 as [|? ? H2' Hb]; subst.
    assert (a = b).
    { assert (Hab : In a (b :: l2))
        by (apply (Permutation_in _ Hp); now left).
      assert (Hba : In b (a :: l1))
        by (apply (Permutation_in _ (Permutation_sym Hp)); now left).
      rewrite Forall_forall in Ha, Hb.
      destruct Hab as [->|Hab]; [reflexivity|].
      destruct Hba as [->|Hba]; [reflexivity|].
      specialize (Ha b Hba). specialize (Hb a Hab). lia. }
    subst b. f_equal. apply IH; auto.
    now apply Permutation_cons_inv with a.
Qed.

Lemma sort_sorted (l : list Z) :
  StronglySorted Z.le (sort_by (fun o => o) l).
Proof.
  exact (TransformFacts.sort_by_sorted (fun o : Z => o) l).
Qed.

(** Orders that are a permutation of 0, ..., n-1 pass the check. *)
Lemma ordering_accepts (ts : list Template) :
  Permutation (numeric_orders ts)
    (consecutive 0 (List.length (numeric_orders ts))) ->
  validateTemplateOrdering (Some ts) = [].
Proof.
  intros Hp. unfold validateTemplateOrdering, unique.
  assert (Hn : NoDup (numeric_orders ts)).
  { apply (Permutation_NoDup (Permutation_sym Hp)), consecutive_NoDup. }
  rewrite (unique_from_NoDup _ [] Hn) by (intros x _ []).
  rewrite Nat.eqb_refl. cbn [app].
  assert (Hs : sort_by (fun o => o) (numeric_orders ts)
               = consecutive 0 (List.length (numeric_orders ts))).
  { apply sorted_permutation_unique;
      [apply sort_sorted | apply consecutive_sorted|].
    rewrite (TransformFacts.sort_by_perm (fun o : Z => o)). exact Hp. }
  assert (Hg : first_gap (sort_by (fun o => o) (numeric_orders ts)) 0 = None).
  { apply first_gap_None. rewrite Hs at 1. f_equal.
    now rewrite (Permutation_length
                   (TransformFacts.sort_by_perm (fun o : Z => o) _)). }
  now rewrite Hg.
Qed.

(** X18.  The ordering check passes exactly when the numeric [order]
    values of the templates are 0, 1, ..., n-1 in some arrangement, where
    n counts the templates that have a numeric order; templates without
    one are ignored.  An argument that is not an array gets the single
    error "Templates must be an array". *)
Theorem ordering_check_accepts_exactly_permutations :
  forall (ts : list Template),
    (validateTemplateOrdering (Some ts) = []
     <-> Permutation (numeric_orders ts)
           (consecutive 0 (List.length (numeric_orders ts))))
    /\ validateTemplateOrdering None
       = [clientError "templates" "Templates must be an array"].
Proof.
  intros ts. split; [|reflexivity]. split; [|apply ordering_accepts].
  unfold validateTemplateOrdering, unique. intros H.
  apply app_eq_nil in H. destruct H as [H1 H2].
  destruct (Nat.eqb_spec (List.length (numeric_orders ts))
              (List.length (unique_from [] (numeric_orders ts))))
    as [Hl|]; [|discriminate].
  destruct (unique_from_full _ [] (eq_sym Hl)) as (Hu & _).
  rewrite Hu in H2.
  destruct (first_gap (sort_by (fun o => o) (numeric_orders ts)) 0) eqn:Hg;
    [discriminate|].
  apply first_gap_None in Hg.
  rewrite (Permutation_length
             (TransformFacts.sort_by_perm (fun o : Z => o) _)) in Hg.
  rewrite <- Hg. apply Permutation_sym.
  apply (TransformFacts.sort_by_perm (fun o : Z => o)).
Qed.

Lemma numeric_orders_of (ts : list Template) :
  forall l, map t_order ts = map Some l -> numeric_orders ts = l.
Proof.
  induction ts as [|t ts IH]; intros [|o l] H; cbn [map] in H;
    try discriminate; [reflexivity|].
  injection H as Ho H. cbn [numeric_orders]. rewrite Ho. f_equal. auto.
Qed.

Lemma resequenced_pass (ts : list Template) (n : nat) :
  map t_order ts = map (fun j => Some (Z.of_nat j)) (seq 0 n) ->
  validateTemplateOrdering (Some ts) = [].
Proof.
  intros H. apply ordering_accepts.
  rewrite (numeric_orders_of ts (consecutive 0 n)).
  - replace (List.length (consecutive 0 n)) with n; [reflexivity|].
    unfold consecutive. now rewrite length_map, length_seq.
  - unfold consecutive. now rewrite map_map.
Qed.

(** X19.  Whatever orders the source pages carry (duplicates, gaps, none),
    the templates of a backend payload and those of an export payload pass
    the ordering check. *)
Theorem transformed_templates_pass_ordering_check :
  forall (c out : Course),
    (transformCourseForBackend c = Ok out ->
     exists ts, templates out = Some ts
                /\ validateTemplateOrdering (templates out) = [])
    /\ (transformCourseForExport c = Ok out ->
        exists ts, templates out = Some ts
                   /\ validateTemplateOrdering (templates out) = []).
Proof.
  intros c out. split; intros H.
  - destruct (TransformFacts.backend_templates c out H) as (ts & Hts & Hmap).
    exists ts. split; [exact Hts|]. rewrite Hts.
    apply resequenced_pass with (List.length
      (map clone_template (sort_by order_key (sourceTemplates c)))).
    now apply TransformFacts.mapMi_from_orders.
  - destruct (PayloadFacts.export_templates c out H) as (ts & Hts & Hmap).
    exists ts. split; [exact Hts|]. rewrite Hts.
    apply resequenced_pass with (List.length (sourceTemplates c)).
    revert Hmap. apply PayloadFacts.mapMi_from_indices. intros x i y Hy.
    now destruct (PayloadFacts.exportTemplate_inv x y i Hy)
      as (_ & _ & _ & ? & _).
Qed.

Lemma transformed_templates_pass_ordering_check_witness :
  validateTemplateOrdering
    (Some [ TransformSpec.page_with_order "a" 5;
            TransformSpec.page_with_order "b" 5 ]) <> []
  /\ exists out ts,
       transformCourseForBackend
         (TransformSpec.course_of_pages
            [ TransformSpec.page_with_order "a" 5;
              TransformSpec.page_with_order "b" 5 ]) = Ok out
       /\ templates out = Some ts
       /\ validateTemplateOrdering (templates out) = [].
Proof.
  split; [discriminate|].
  destruct (proj1 (transformed_templates_pass_ordering_check
                     (TransformSpec.course_of_pages
                        [ TransformSpec.page_with_order "a" 5;
                          TransformSpec.page_with_order "b" 5 ]) _) eq_refl)
    as (ts & Hts & Hv).
  eexists. exists ts. split; [reflexivity|]. split; [exact Hts | exact Hv].
Defined.

(* ---------------------------------------------------------------- *)
(** *** The MCQ rules *)

Lemma correct_options_objects (l : list value) :
  Forall (fun opt => nullish opt = false) l ->
  correct_options l
  = Ok (filter (fun opt => js_eq_true (opt_prop "isCorrect" opt)) l).
Proof.
  induction 1 as [|opt l Ho _ IH]; [reflexivity|].
  cbn [correct_options filter]. unfold prop.
  destruct opt; try discriminate Ho; cbn [bind]; rewrite IH; reflexivity.
Qed.

Lemma option_errors_none (opt : value) (i : nat) :
  option_errors opt i = Ok [] <-> well_formed_option opt = true.
Proof.
  unfold option_errors, well_formed_option, prop.
  destruct opt as [| |b|n|s|l|o]; cbn [bind opt_prop truthy is_string negb orb];
    try (split; discriminate).
  assert (Hid : negb (truthy (lookup "id" o))
                || negb (is_string (lookup "id" o))
                = negb (nonempty_string (lookup "id" o))).
  { destruct (lookup "id" o) as [| |b|n|a|?|?]; cbn; auto.
    - apply Bool.orb_true_r.
    - apply Bool.orb_true_r.
    - apply Bool.orb_false_r. }
  assert (Htx : negb (truthy (lookup "text" o))
                || negb (is_string (lookup "text" o))
                = negb (nonempty_string (lookup "text" o))).
  { destruct (lookup "text" o) as [| |b|n|a|?|?]; cbn; auto.
    - apply Bool.orb_true_r.
    - apply Bool.orb_true_r.
    - apply Bool.orb_false_r. }
  rewrite Hid, Htx.
  destruct (nonempty_string (lookup "id" o)),
           (nonempty_string (lookup "text" o)),
           (is_boolean (lookup "isCorrect" o));
    cbn [negb andb app]; split; try discriminate; reflexivity.
Qed.

Lemma each_option_none (l : list value) :
  forall i, each_option l i = Ok [] <-> forallb well_formed_option l = true.
Proof.
  induction l as [|opt l IH]; intros i; cbn [each_option forallb].
  - split; reflexivity.
  - rewrite Bool.andb_true_iff, <- (option_errors_none opt i), <- (IH (S i)).
    destruct (option_errors opt i) as [es|]; cbn [bind].
    + destruct (each_option l (S i)) as [more|]; cbn [bind].
      * split.
        -- intros H. injection H as H. apply app_eq_nil in H.
           destruct H as [-> ->]. auto.
        -- intros [H1 H2]. injection H1 as ->. injection H2 as ->.
           reflexivity.
      * split; [discriminate | intros [_ H]; discriminate H].
    + split; [discriminate | intros [H _]; discriminate H].
Qed.

Lemma well_formed_not_nullish (l : list value) :
  forallb well_formed_option l = true ->
  Forall (fun opt => nullish opt = false) l.
Proof.
  intros H. apply Forall_forall. intros x Hx.
  rewrite forallb_forall in H. specialize (H x Hx).
  destruct x; try discriminate H; reflexivity.
Qed.

(** X20.  [validateMCQData] returns without any error exactly for an
    object with a non-empty question string and an array of at least two
    options, each an object with a non-empty string [id], a non-empty
    string [text] and a boolean [isCorrect], exactly one of them with
    [isCorrect] true.  In particular data in the editor's flat shape,
    whose options are strings, is never accepted. *)
Theorem mcq_data_accepted_exactly_when_well_formed :
  forall (mcqData : value),
    validateMCQData mcqData = Ok [] <-> well_formed_mcq mcqData = true.
Proof.
  intros v. unfold validateMCQData, well_formed_mcq, prop.
  destruct v as [| |b|n|s|l|o]; cbn [bind opt_prop truthy is_string negb orb];
    try (split; discriminate).
  assert (Hq : negb (truthy (lookup "question" o))
               || negb (is_string (lookup "question" o))
               = negb (nonempty_string (lookup "question" o))).
  { destruct (lookup "question" o) as [| |b|n|a|?|?]; cbn; auto.
    - apply Bool.orb_true_r.
    - apply Bool.orb_true_r.
    - apply Bool.orb_false_r. }
  rewrite Hq. destruct (nonempty_string (lookup "question" o));
    cbn [negb andb].
  2:{ destruct (lookup "options" o) as [| | | | |l'|];
        try destruct (List.length l' <? 2)%nat;
        try destruct (correct_options l'); cbn [bind];
        try destruct (each_option l' 0); cbn [bind];
        split; discriminate. }
  destruct (lookup "options" o) as [| | | | |l|]; try (split; discriminate).
  destruct (Nat.ltb_spec (List.length l) 2) as [Hl|Hl].
  { assert (E : (2 <=? List.length l)%nat = false)
      by (apply Nat.leb_gt; exact Hl).
    rewrite E. split; discriminate. }
  assert (E : (2 <=? List.length l)%nat = true)
    by (apply Nat.leb_le; exact Hl).
  rewrite E. cbn [andb app]. rewrite Bool.andb_true_iff. split.
  - intros H.
    destruct (correct_options l) as [ca|] eqn:Ec; cbn [bind] in H;
      [|discriminate].
    destruct (each_option l 0) as [es|] eqn:Ee; cbn [bind] in H;
      [|discriminate].
    injection H as H. apply app_eq_nil in H. destruct H as [H1 ->].
    apply each_option_none in Ee. split; [exact Ee|].
    rewrite (correct_options_objects l (well_formed_not_nullish l Ee)) in Ec.
    injection Ec as <-. unfold correct_count.
    destruct (List.length (filter _ l) =? 1)%nat; [reflexivity|discriminate].
  - intros [Hw Hc].
    rewrite (correct_options_objects l (well_formed_not_nullish l Hw)).
    cbn [bind]. unfold correct_count in Hc. rewrite Hc.
    apply (each_option_none l 0) in Hw. rewrite Hw. reflexivity.
Qed.

Lemma prop_throws (k : string) (v : value) (m : string) :
  prop k v = Throw m -> m = TypeError.
Proof.
  unfold prop. destruct v; intros H; try discriminate H; now injection H.
Qed.

Lemma correct_options_throws (l : list value) (m : string) :
  correct_options l = Throw m -> m = TypeError.
Proof.
  induction l as [|opt l IH]; cbn [correct_options]; [discriminate|].
  destruct (prop "isCorrect" opt) as [f|m'] eqn:E; cbn [bind].
  - destruct (correct_options l) as [k|m'']; cbn [bind]; [discriminate|].
    intros H. injection H as <-. now apply IH.
  - intros H. injection H as <-. now apply prop_throws in E.
Qed.

Lemma option_errors_throws (opt : value) (i : nat) (m : string) :
  option_errors opt i = Throw m -> m = TypeError.
Proof.
  unfold option_errors.
  destruct (prop "id" opt) as [a|m1] eqn:E1; cbn [bind];
    [|intros H; injection H as <-; now apply prop_throws in E1].
  destruct (prop "text" opt) as [b|m2] eqn:E2; cbn [bind];
    [|intros H; injection H as <-; now apply prop_throws in E2].
  destruct (prop "isCorrect" opt) as [c|m3] eqn:E3; cbn [bind];
    [discriminate|intros H; injection H as <-; now apply prop_throws in E3].
Qed.

Lemma each_option_throws (l : list value) (m : string) :
  forall i, each_option l i = Throw m -> m = TypeError.
Proof.
  induction l as [|opt l IH]; intros i; cbn [each_option]; [discriminate|].
  destruct (option_errors opt i) as [es|m'] eqn:E; cbn [bind].
  - destruct (each_option l (S i)) as [k|m''] eqn:E'; cbn [bind];
      [discriminate|].
    intros H. injection H as <-. now apply IH in E'.
  - intros H. injection H as <-. now apply option_errors_throws in E.
Qed.

Lemma validateMCQData_throws (v : value) (m : string) :
  validateMCQData v = Throw m -> m = TypeError.
Proof.
  unfold validateMCQData.
  destruct (prop "question" v) as [q|m1] eqn:E1; cbn [bind];
    [|intros H; injection H as <-; now apply prop_throws in E1].
  destruct (prop "options" v) as [o|m2] eqn:E2; cbn [bind];
    [|intros H; injection H as <-; now apply prop_throws in E2].
  destruct o as [| | | | |l|]; try discriminate.
  destruct (List.length l <? 2)%nat; [discriminate|].
  destruct (correct_options l) as [ca|m3] eqn:E3; cbn [bind];
    [|intros H; injection H as <-; now apply correct_options_throws in E3].
  destruct (each_option l 0) as [es|m4] eqn:E4; cbn [bind];
    [discriminate|intros H; injection H as <-;
                  now apply each_option_throws in E4].
Qed.

Lemma mcq_errors_throw (ts : list Template) (t : Template) :
  In t ts -> t_data t = None -> mcq_errors ts = Throw TypeError.
Proof.
  intros Hin Hd. induction ts as [|x ts IH]; [destruct Hin|].
  cbn [mcq_errors]. destruct Hin as [-> | Hin].
  - rewrite Hd. reflexivity.
  - rewrite (IH Hin).
    destruct (validateMCQData (data_value (t_data x))) as [es|m] eqn:E;
      cbn [bind]; [reflexivity|].
    now rewrite (validateMCQData_throws _ _ E).
Qed.

(** X21.  The full client check applies its business rules (ordering,
    MCQ data, the limit of 100) to [course.templates] only.  For a course
    that keeps its pages under [pages] the result is the schema verdict on
    the backend payload and nothing else; for a course with [templates],
    an MCQ template without a [data] object (as a page in the editor shape
    is) makes the check throw. *)
Theorem full_client_check_reads_templates_only :
  forall (schemaErrors : Course -> list MergedError) (c out : Course),
    transformCourseForBackend c = Ok out ->
    (templates c = None ->
     validateCourseFull schemaErrors c
     = Ok ((List.length (schemaErrors out) =? 0)%nat, schemaErrors out))
    /\ (forall ts t,
           templates c = Some ts -> In t ts -> is_mcq t = true ->
           t_data t = None ->
           validateCourseFull schemaErrors c = Throw TypeError).
Proof.
  intros schemaErrors c out H. unfold validateCourseFull. rewrite H.
  cbn [bind]. split.
  - intros ->. cbn [bind]. now rewrite !app_nil_r.
  - intros ts t -> Hin Hm Hd.
    rewrite (mcq_errors_throw (filter is_mcq ts) t); [reflexivity| |exact Hd].
    apply filter_In. auto.
Qed.

Lemma full_client_check_reads_templates_only_witness :
  exists out,
    transformCourseForBackend
      (TransformSpec.course_of_pages
         [ TransformSpec.bare_mcq_page; TransformSpec.bare_mcq_page ])
    = Ok out
    /\ validateCourseFull (fun _ => [])
         (TransformSpec.course_of_pages
            [ TransformSpec.bare_mcq_page; TransformSpec.bare_mcq_page ])
       = Ok (true, []).
Proof.
  eexists. split; [reflexivity|].
  apply (proj1 (full_client_check_reads_templates_only (fun _ => [])
                  (TransformSpec.course_of_pages
                     [ TransformSpec.bare_mcq_page;
                       TransformSpec.bare_mcq_page ]) _ eq_refl)).
  reflexivity.
Defined.

End ClientRulesFacts.

(* ================================================================== *)
(** ** Properties of the course reducer *)

Module ReducerFacts.

Import Transform Merge ClientValidation CourseContext ReducerSpec.

Lemma assign_length {A} (l : list A) :
  forall i x, List.length (assign l i x) = List.length l.
Proof.
  induction l as [|y l IH]; intros [|i] x; cbn [assign List.length]; auto.
Qed.

Lemma remove_at_length {A} (l : list A) :
  forall i, (i < List.length l)%nat ->
            List.length (remove_at l i) = (List.length l - 1)%nat.
Proof.
  induction l as [|y l IH]; intros [|i] H; cbn [remove_at List.length] in *;
    try lia.
  rewrite IH by lia. lia.
Qed.

Lemma insert_at_length {A} (l : list A) :
  forall i x, List.length (insert_at l i x) = S (List.length l).
Proof.
  induction l as [|y l IH]; intros [|i] x; cbn [insert_at List.length]; auto.
Qed.

Lemma resequence_length (l : list Template) :
  List.length (resequence l) = List.length l.
Proof.
  apply ValidationFacts.mapi_from_length.
Qed.

Lemma map_remove_at {A B} (f : A -> B) (l : list A) :
  forall i, map f (remove_at l i) = remove_at (map f l) i.
Proof.
  induction l as [|y l IH]; intros [|i]; cbn [remove_at map]; auto.
  now rewrite IH.
Qed.

Lemma map_insert_at {A B} (f : A -> B) (l : list A) :
  forall i x, map f (insert_at l i x) = insert_at (map f l) i (f x).
Proof.
  induction l as [|y l IH]; intros [|i] x; cbn [insert_at map]; auto.
  now rewrite IH.
Qed.

Lemma remove_insert {A} (l : list A) :
  forall i x, (i <= List.length l)%nat -> remove_at (insert_at l i x) i = l.
Proof.
  induction l as [|y l IH]; intros [|i] x H;
    cbn [insert_at remove_at List.length] in *; auto; try lia.
  rewrite IH by lia. reflexivity.
Qed.

Lemma insert_remove {A} (l : list A) :
  forall i x, nth_error l i = Some x -> insert_at (remove_at l i) i x = l.
Proof.
  induction l as [|y l IH]; intros [|i] x H;
    cbn [insert_at remove_at nth_error] in *; try discriminate.
  - injection H as ->. now destruct l.
  - f_equal. now apply IH.
Qed.

Lemma nth_insert {A} (l : list A) :
  forall i x, (i <= List.length l)%nat ->
              nth_error (insert_at l i x) i = Some x.
Proof.
  induction l as [|y l IH]; intros [|i] x H;
    cbn [insert_at nth_error List.length] in *; auto; try lia.
  apply IH. lia.
Qed.

Lemma remove_at_perm {A} (l : list A) :
  forall i x, nth_error l i = Some x -> Permutation (x :: remove_at l i) l.
Proof.
  induction l as [|y l IH]; intros [|i] x H; cbn [remove_at nth_error] in *;
    try discriminate.
  - injection H as ->. reflexivity.
  - rewrite perm_swap. constructor. now apply IH.
Qed.

Lemma insert_at_perm {A} (l : list A) :
  forall i x, Permutation (insert_at l i x) (x :: l).
Proof.
  induction l as [|y l IH]; intros [|i] x; cbn [insert_at]; auto.
  rewrite IH. apply perm_swap.
Qed.

Lemma mapi_from_sans_order (l : list Template) :
  forall i, map sans_order (mapi_from with_order l i) = map sans_order l.
Proof.
  induction l as [|t l IH]; intros i; cbn [mapi_from map]; [reflexivity|].
  now rewrite IH.
Qed.

Lemma resequence_sans_order (l : list Template) :
  map sans_order (resequence l) = map sans_order l.
Proof.
  apply mapi_from_sans_order.
Qed.

Lemma mapi_from_nth (l : list Template) :
  forall i k,
    nth_error (mapi_from with_order l i) k
    = option_map (fun t => with_order t (i + k)) (nth_error l k).
Proof.
  induction l as [|t l IH]; intros i [|k]; cbn [mapi_from nth_error option_map];
    auto.
  - now rewrite Nat.add_0_r.
  - rewrite IH. now rewrite Nat.add_succ_r.
Qed.

Lemma mapi_from_order (l : list Template) :
  forall i,
    map t_order (mapi_from with_order l i)
    = map (fun j => Some (Z.of_nat j)) (seq i (List.length l)).
Proof.
  induction l as [|t l IH]; intros i; cbn [mapi_from map List.length seq];
    [reflexivity|].
  now rewrite IH.
Qed.

Lemma resequence_passes (l : list Template) :
  validateTemplateOrdering (Some (resequence l)) = [].
Proof.
  apply ClientRulesFacts.resequenced_pass with (List.length l).
  apply mapi_from_order.
Qed.

Lemma index_check (k : Z) (ts : list Template) :
  validateTemplateIndex k (Some ts)
  = Ok ((0 <=? k)%Z && (k <? Z.of_nat (List.length ts))%Z).
Proof.
  unfold validateTemplateIndex. now destruct (0 <=? k)%Z.
Qed.

Lemma index_valid (k : Z) (ts : list Template) :
  ((0 <=? k)%Z && (k <? Z.of_nat (List.length ts))%Z = true) <->
  (0 <= k < Z.of_nat (List.length ts))%Z.
Proof.
  rewrite Bool.andb_true_iff, Z.leb_le, Z.ltb_lt. tauto.
Qed.

Lemma index_valid_nat (k : Z) (ts : list Template) :
  (0 <=? k)%Z && (k <? Z.of_nat (List.length ts))%Z = true ->
  (Z.to_nat k < List.length ts)%nat /\ Z.of_nat (Z.to_nat k) = k.
Proof.
  intros H. apply index_valid in H. lia.
Qed.

(** X22.  The editor's current index stays within the template list (and
    the list stays non-empty) under every action that leaves the list to
    the reducer: adding, updating, deleting, reordering, selecting, the
    flag setters, a reset, and a course-info update that does not replace
    [templates].  None of them throws on such a state. *)
Theorem current_template_stays_in_bounds :
  forall (now stamp : string) (s : State) (a : Action),
    in_bounds s -> keeps_templates a = true ->
    exists s', courseReducer now stamp s a = Ok s' /\ in_bounds s'.
Proof.
  intros now stamp s a (ts & Hts & Hb) Hk.
  assert (Hs : in_bounds s) by (exists ts; auto).
  destruct a; cbn [keeps_templates] in Hk; try discriminate Hk;
    cbn [courseReducer]; unfold templates_of;
    rewrite ?Hts, ?index_check; cbn [bind].
  - (* UPDATE_COURSE_INFO *)
    destruct (p_templates payload) eqn:Ep; [discriminate|].
    destruct (negb _); [eauto|].
    eexists. split; [reflexivity|]. exists ts.
    cbn [state_with st_course st_editorState with_updatedAt templates
         apply_patch editor_with currentTemplate].
    rewrite Ep. cbn [override]. auto.
  - (* ADD_TEMPLATE *)
    destruct (negb _); [eauto|].
    eexists. split; [reflexivity|]. exists (ts ++ [payload]).
    cbn. split; [reflexivity|]. rewrite length_app. cbn [List.length]. lia.
  - (* UPDATE_TEMPLATE *)
    destruct ((0 <=? index)%Z && _); cbn [negb]; [|eauto].
    destruct (negb _); [eauto|]. cbn [bind].
    eexists. split; [reflexivity|]. eexists.
    cbn. split; [reflexivity|]. rewrite assign_length. exact Hb.
  - (* DELETE_TEMPLATE *)
    destruct ((0 <=? payload)%Z && _) eqn:Ev; cbn [negb bind]; [|eauto].
    destruct (Nat.leb_spec (List.length ts) 1) as [Hl|Hl]; [eauto|].
    eexists. split; [reflexivity|]. eexists.
    cbn. split; [reflexivity|].
    destruct (index_valid_nat _ _ Ev) as [Hn _].
    rewrite resequence_length, remove_at_length by exact Hn. lia.
  - (* REORDER_TEMPLATES *)
    destruct ((0 <=? fromIndex)%Z && _) eqn:Ef; cbn [negb bind]; [|eauto].
    destruct ((0 <=? toIndex)%Z && _) eqn:Et; cbn [negb bind]; [|eauto].
    destruct (nth_error ts (Z.to_nat fromIndex)) as [x|]; [|eauto].
    eexists. split; [reflexivity|]. eexists.
    cbn. split; [reflexivity|].
    destruct (index_valid_nat _ _ Ef) as [Hn _].
    rewrite resequence_length, insert_at_length, remove_at_length
      by exact Hn.
    apply index_valid in Et. lia.
  - (* SET_CURRENT_TEMPLATE *)
    destruct ((0 <=? payload)%Z && _) eqn:Ev; cbn [negb]; [|eauto].
    eexists. split; [reflexivity|]. exists ts.
    cbn. split; [exact Hts|]. now apply index_valid.
  - (* SET_PREVIEW_MODE *)
    eexists. split; [reflexivity|]. exists ts. cbn. auto.
  - (* SET_DIRTY *)
    eexists. split; [reflexivity|]. exists ts. cbn. auto.
  - (* SET_VALIDATION_ERRORS *)
    eexists. split; [reflexivity|]. exists ts. cbn. auto.
  - (* SET_LOADING *)
    eexists. split; [reflexivity|]. exists ts. cbn. auto.
  - (* SET_ERROR *)
    eexists. split; [reflexivity|]. exists ts. cbn. auto.
  - (* RESET_COURSE *)
    eexists. split; [reflexivity|]. eexists.
    split; [reflexivity|]. cbn. lia.
Qed.

Lemma three_templates_in_bounds : in_bounds three_templates.
Proof.
  eexists. split; [reflexivity|]. cbn. lia.
Qed.

Lemma current_template_stays_in_bounds_witness :
  in_bounds three_templates
  /\ exists s',
       courseReducer "now" "1" three_templates (DELETE_TEMPLATE 0) = Ok s'
       /\ in_bounds s'.
Proof.
  split; [exact three_templates_in_bounds|].
  apply (current_template_stays_in_bounds "now" "1" three_templates
           (DELETE_TEMPLATE 0) three_templates_in_bounds eq_refl).
Defined.

(* ---------------------------------------------------------------- *)
(** *** Deleting and reordering *)

(** X23.  [DELETE_TEMPLATE] on a course with templates never throws.
    With an index inside the list and at least two templates it removes
    exactly that template, keeps the others in sequence and unchanged but
    for their [order], which becomes 0, ..., n-2 (so the list passes the
    ordering check), and marks the editor dirty.  With an index outside
    the list, or a single template left, the state is returned
    unchanged: the last template cannot be deleted. *)
Theorem delete_template_removes_one_and_resequences :
  forall (now stamp : string) (s : State) (ts : list Template) (k : Z),
    templates (st_course s) = Some ts ->
    exists s',
      courseReducer now stamp s (DELETE_TEMPLATE k) = Ok s'
      /\ ((0 <= k < Z.of_nat (List.length ts))%Z ->
          (2 <= List.length ts)%nat ->
          exists ts',
            templates (st_course s') = Some ts'
            /\ map sans_order ts'
               = remove_at (map sans_order ts) (Z.to_nat k)
            /\ map t_order ts'
               = map (fun j => Some (Z.of_nat j))
                   (seq 0 (List.length ts - 1))
            /\ validateTemplateOrdering (Some ts') = []
            /\ isDirty (st_editorState s') = true
            /\ updatedAt (st_course s') = Some now)
      /\ (~ (0 <= k < Z.of_nat (List.length ts))%Z
          \/ (List.length ts <= 1)%nat -> s' = s).
Proof.
  intros now stamp s ts k Hts. cbn [courseReducer]. unfold templates_of.
  rewrite Hts, index_check. cbn [bind].
  destruct ((0 <=? k)%Z && (k <? Z.of_nat (List.length ts))%Z) eqn:Ev;
    cbn [negb bind].
  - destruct (Nat.leb_spec (List.length ts) 1) as [Hl|Hl].
    + exists s. split; [reflexivity|]. split; [lia | reflexivity].
    + eexists. split; [reflexivity|]. split.
      * intros _ _. eexists. split; [reflexivity|].
        destruct (index_valid_nat _ _ Ev) as [Hn _].
        split; [now rewrite resequence_sans_order, map_remove_at|].
        split.
        { unfold resequence, mapi. rewrite mapi_from_order.
          now rewrite remove_at_length. }
        split; [apply resequence_passes|]. split; reflexivity.
      * apply index_valid in Ev. intros [H | H]; [contradiction | lia].
  - exists s. split; [reflexivity|]. split; [|reflexivity].
    intros H. apply index_valid in H. congruence.
Qed.

Lemma delete_template_removes_one_and_resequences_witness :
  exists s' ts',
    courseReducer "now" "1" three_templates (DELETE_TEMPLATE 0) = Ok s'
    /\ templates (st_course s') = Some ts'
    /\ map t_id ts' = [Some "b"; Some "c"]
    /\ currentTemplate (st_editorState s') = 1%Z.
Proof.
  destruct (delete_template_removes_one_and_resequences "now" "1"
              three_templates _ 0 eq_refl) as (s' & Hs & _).
  exists s'. eexists. split; [exact Hs|].
  injection Hs as <-. repeat split.
Defined.

(** X24.  [REORDER_TEMPLATES] with both indices inside the list moves the
    template at [fromIndex] to [toIndex]: it is found there, the other
    templates keep their relative sequence, nothing is lost or
    duplicated, the orders become 0, ..., n-1 and the editor follows the
    moved template.  Moving it back with the indices swapped restores the
    original sequence. *)
Theorem reorder_moves_one_template_and_back :
  forall (now stamp : string) (s : State) (ts : list Template)
         (fromIndex toIndex : Z),
    templates (st_course s) = Some ts ->
    (0 <= fromIndex < Z.of_nat (List.length ts))%Z ->
    (0 <= toIndex < Z.of_nat (List.length ts))%Z ->
    exists s' ts' moved,
      courseReducer now stamp s (REORDER_TEMPLATES fromIndex toIndex) = Ok s'
      /\ templates (st_course s') = Some ts'
      /\ nth_error ts (Z.to_nat fromIndex) = Some moved
      /\ nth_error ts' (Z.to_nat toIndex)
         = Some (with_order moved (Z.to_nat toIndex))
      /\ remove_at (map sans_order ts') (Z.to_nat toIndex)
         = remove_at (map sans_order ts) (Z.to_nat fromIndex)
      /\ Permutation (map sans_order ts') (map sans_order ts)
      /\ map t_order ts'
         = map (fun j => Some (Z.of_nat j)) (seq 0 (List.length ts))
      /\ currentTemplate (st_editorState s') = toIndex
      /\ exists s'' ts'',
           courseReducer now stamp s' (REORDER_TEMPLATES toIndex fromIndex)
           = Ok s''
           /\ templates (st_course s'') = Some ts''
           /\ map sans_order ts'' = map sans_order ts
           /\ currentTemplate (st_editorState s'') = fromIndex.
Proof.
  intros now stamp s ts f t Hts Hf Ht.
  pose proof (proj2 (index_valid f ts) Hf) as Ef.
  pose proof (proj2 (index_valid t ts) Ht) as Et.
  assert (Hfn : (Z.to_nat f < List.length ts)%nat) by lia.
  assert (Htn : (Z.to_nat t < List.length ts)%nat) by lia.
  destruct (nth_error ts (Z.to_nat f)) as [x|] eqn:Ex;
    [|apply nth_error_None in Ex; lia].
  set (l1 := insert_at (remove_at ts (Z.to_nat f)) (Z.to_nat t) x).
  assert (Hlen1 : List.length l1 = List.length ts).
  { unfold l1. rewrite insert_at_length, remove_at_length by exact Hfn. lia. }
  assert (Hrem : (Z.to_nat t <= List.length (remove_at ts (Z.to_nat f)))%nat).
  { rewrite remove_at_length by exact Hfn. lia. }
  assert (Hnth1 : nth_error (resequence l1) (Z.to_nat t)
                  = Some (with_order x (Z.to_nat t))).
  { unfold resequence, mapi. rewrite mapi_from_nth. unfold l1.
    rewrite nth_insert by exact Hrem. reflexivity. }
  exists (state_with s (with_templates (st_course s) (resequence l1) now)
            (editor_with (st_editorState s) t true)),
    (resequence l1), x.
  split.
  { cbn [courseReducer]. unfold templates_of.
    rewrite Hts, !index_check, Ef. cbn [bind negb]. rewrite Et.
    cbn [bind negb]. rewrite Ex. reflexivity. }
  split; [reflexivity|]. split; [reflexivity|]. split; [exact Hnth1|].
  split.
  { rewrite resequence_sans_order. unfold l1.
    rewrite map_insert_at, remove_insert, map_remove_at; [reflexivity|].
    now rewrite length_map. }
  split.
  { rewrite resequence_sans_order. unfold l1.
    apply Permutation_map. rewrite insert_at_perm.
    now apply remove_at_perm. }
  split.
  { unfold resequence, mapi. now rewrite mapi_from_order, Hlen1. }
  split; [reflexivity|].
  set (l2 := insert_at (remove_at (resequence l1) (Z.to_nat t)) (Z.to_nat f)
               (with_order x (Z.to_nat t))).
  exists (state_with
            (state_with s (with_templates (st_course s) (resequence l1) now)
               (editor_with (st_editorState s) t true))
            (with_templates
               (with_templates (st_course s) (resequence l1) now)
               (resequence l2) now)
            (editor_with (editor_with (st_editorState s) t true) f true)),
    (resequence l2).
  split.
  { cbn [courseReducer]. unfold templates_of.
    cbn [st_course state_with with_templates templates bind].
    rewrite !index_check, resequence_length, Hlen1, Et.
    cbn [bind negb]. rewrite Ef. cbn [bind negb].
    rewrite Hnth1. reflexivity. }
  split; [reflexivity|]. split; [|reflexivity].
  rewrite resequence_sans_order. unfold l2.
  rewrite map_insert_at, map_remove_at, resequence_sans_order. unfold l1.
  rewrite map_insert_at, remove_insert
    by (rewrite length_map; exact Hrem).
  rewrite map_remove_at. apply insert_remove.
  rewrite nth_error_map, Ex. reflexivity.
Qed.

Lemma reorder_moves_one_template_and_back_witness :
  exists s' ts',
    courseReducer "now" "1" three_templates (REORDER_TEMPLATES 2 0) = Ok s'
    /\ templates (st_course s') = Some ts'
    /\ map t_id ts' = [Some "c"; Some "a"; Some "b"]
    /\ currentTemplate (st_editorState s') = 0%Z.
Proof.
  assert (H2 : (0 <= 2 < Z.of_nat 3)%Z) by (cbn; lia).
  assert (H0 : (0 <= 0 < Z.of_nat 3)%Z) by (cbn; lia).
  destruct (reorder_moves_one_template_and_back "now" "1" three_templates
              _ 2 0 eq_refl H2 H0) as (s' & ts' & x & Hs & _).
  exists s'. eexists. split; [exact Hs|].
  injection Hs as <-. repeat split.
Defined.

(* ---------------------------------------------------------------- *)
(** *** When the reducer throws *)

(** X25.  [SET_COURSE] accepts every course that has a course id and a
    title, also one without a template list.  On a state whose course has
    a template list the reducer never throws.  On one whose course has
    none, exactly the actions that get to read the list throw a TypeError:
    adding a template that has an id and a type, and updating, deleting,
    reordering or selecting with a (first) index that is not negative.  A
    negative (first) index is turned down before the list is looked at:
    the state is returned unchanged, with or without a template list. *)
Theorem reducer_throws_exactly_without_templates :
  forall (now stamp : string) (s : State) (a : Action),
    (forall c, validateCourseData c = true ->
               exists s', courseReducer now stamp s (SET_COURSE c) = Ok s'
                          /\ st_course s' = c)
    /\ (forall ts, templates (st_course s) = Some ts ->
                   exists s', courseReducer now stamp s a = Ok s')
    /\ (templates (st_course s) = None ->
        if reads_templates a
        then courseReducer now stamp s a = Throw TypeError
        else exists s', courseReducer now stamp s a = Ok s')
    /\ (forall (k j : Z) (t : Template),
           (k < 0)%Z ->
           courseReducer now stamp s (UPDATE_TEMPLATE k t) = Ok s
           /\ courseReducer now stamp s (DELETE_TEMPLATE k) = Ok s
           /\ courseReducer now stamp s (REORDER_TEMPLATES k j) = Ok s
           /\ courseReducer now stamp s (SET_CURRENT_TEMPLATE k) = Ok s).
Proof.
  intros now stamp s a. split; [|split; [|split]].
  - intros c Hc. cbn [courseReducer]. rewrite Hc. cbn [negb].
    eexists. split; reflexivity.
  - intros ts Hts.
    destruct a; cbn [courseReducer]; unfold templates_of;
      rewrite ?Hts, ?index_check; cbn [bind];
      repeat (match goal with
              | |- context [if ?b then _ else _] => destruct b
              | |- context [match ?b with Some _ => _ | None => _ end] =>
                  destruct b
              end; cbn [bind negb]); eauto.
  - intros Hts.
    destruct a; cbn [courseReducer reads_templates];
      unfold templates_of, validateTemplateIndex; rewrite ?Hts;
      try (destruct (0 <=? _)%Z); cbn [bind negb]; try reflexivity; eauto.
    + destruct (negb _); eauto.
    + destruct (negb _); eauto.
    + destruct (validateTemplateData payload); cbn [negb bind]; eauto.
  - intros k j t Hk. apply Z.leb_gt in Hk.
    cbn [courseReducer]. unfold validateTemplateIndex. rewrite Hk.
    cbn [bind negb]. repeat split.
Qed.

Lemma reducer_throws_exactly_without_templates_witness :
  courseReducer "now" "1"
    {| st_course := plain_course None;
       st_editorState := st_editorState three_templates;
       st_isLoading := false; st_error := None;
       st_validationErrors := [] |} (DELETE_TEMPLATE 0) = Throw TypeError
  /\ courseReducer "now" "1"
       {| st_course := plain_course None;
          st_editorState := st_editorState three_templates;
          st_isLoading := false; st_error := None;
          st_validationErrors := [] |} (DELETE_TEMPLATE (-1))
     = Ok {| st_course := plain_course None;
             st_editorState := st_editorState three_templates;
             st_isLoading := false; st_error := None;
             st_validationErrors := [] |}.
Proof.
  split.
  - apply (proj1 (proj2 (proj2 (reducer_throws_exactly_without_templates
             "now" "1"
             {| st_course := plain_course None;
                st_editorState := st_editorState three_templates;
                st_isLoading := false; st_error := None;
                st_validationErrors := [] |} (DELETE_TEMPLATE 0)))) eq_refl).
  - assert (Hk : (-1 < 0)%Z) by lia.
    apply (proj2 (proj2 (proj2 (reducer_throws_exactly_without_templates
             "now" "1"
             {| st_course := plain_course None;
                st_editorState := st_editorState three_templates;
                st_isLoading := false; st_error := None;
                st_validationErrors := [] |} RESET_COURSE)))
             (-1)%Z 0%Z (plain_template "a" 0) Hk).
Defined.

(* ---------------------------------------------------------------- *)
(** *** The validate action *)

Import ContextValidation.

Lemma reducer_keeps_top_errors (now stamp : string) (s s' : State)
  (a : Action) :
  courseReducer now stamp s a = Ok s' ->
  st_validationErrors s' = st_validationErrors s
  \/ st_validationErrors s' = [].
Proof.
  destruct a; cbn [courseReducer]; unfold templates_of, validateTemplateIndex;
    repeat (match goal with
            | |- context [if ?b then _ else _] => destruct b
            | |- context [match ?b with Some _ => _ | None => _ end] =>
                destruct b
            end; cbn [bind negb]);
    intros H; try discriminate H; injection H as <-; auto.
Qed.

(** X26.  No action writes the state's top-level [validationErrors], the
    list the context exposes: after any sequence of actions it is what it
    was, or empty (after a reset).  [SET_VALIDATION_ERRORS] stores its
    payload in [editorState.validationErrors] instead. *)
Theorem exposed_validation_errors_never_written :
  forall (now stamp : string) (actions : list Action) (s s' : State),
    dispatch_all now stamp s actions = Ok s' ->
    (st_validationErrors s' = st_validationErrors s
     \/ st_validationErrors s' = [])
    /\ forall es s'',
         courseReducer now stamp s' (SET_VALIDATION_ERRORS es) = Ok s'' ->
         editorValidationErrors (st_editorState s'') = es
         /\ st_validationErrors s'' = st_validationErrors s'.
Proof.
  intros now stamp actions. induction actions as [|a rest IH];
    intros s s' H; cbn [dispatch_all] in H.
  - injection H as <-. split; [now left|].
    intros es s'' H. injection H as <-. split; reflexivity.
  - destruct (courseReducer now stamp s a) as [s1|] eqn:E1; cbn [bind] in H;
      [|discriminate].
    destruct (IH s1 s' H) as [Hk Hset]. split; [|exact Hset].
    destruct (reducer_keeps_top_errors now stamp s s1 a E1) as [H1 | H1];
      destruct Hk as [Hk | Hk]; rewrite ?Hk, ?H1; auto.
Qed.

Lemma exposed_validation_errors_never_written_witness :
  exists s',
    dispatch_all "now" "1" three_templates
      [ SET_VALIDATION_ERRORS [clientError "templates" "bad"];
        DELETE_TEMPLATE 0 ] = Ok s'
    /\ st_validationErrors s' = []
    /\ editorValidationErrors (st_editorState s')
       = [clientError "templates" "bad"].
Proof.
  eexists. split; [reflexivity|]. split; [|reflexivity].
  destruct (exposed_validation_errors_never_written "now" "1"
              [ SET_VALIDATION_ERRORS [clientError "templates" "bad"];
                DELETE_TEMPLATE 0 ] three_templates _ eq_refl)
    as [[H | H] _]; exact H.
Defined.

Lemma mergeErrors_nil (client server : list MergedError) :
  mergeErrors client server = [] <-> client = [] /\ server = [].
Proof.
  rewrite MergeFacts.mergeErrors_buckets. split.
  - intros H. apply app_eq_nil. destruct (client ++ server) as [|e l];
      [reflexivity|].
    apply app_eq_nil in H. destruct H as [H1 H].
    apply app_eq_nil in H. destruct H as [H2 H3].
    cbn [filter] in H1, H2, H3. unfold MergeSpec.is_other in H3.
    destruct (MergeSpec.is_structural e); [discriminate H1|].
    destruct (MergeSpec.is_business e); [discriminate H2|].
    discriminate H3.
  - intros [-> ->]. reflexivity.
Qed.

(** X27.  The context's [validateCourse] never rejects and always ends
    with [isLoading] false, the course untouched and the top-level
    [validationErrors] untouched.  It returns true exactly when the client
    check, the backend transform and the server call all returned and
    neither the client nor the server reported an error; the merged errors
    are then stored (as an empty list) in [editorState.validationErrors].
    When any of the three throws it returns false, sets [error] to
    "Failed to validate course" and leaves the stored errors as they
    were. *)
Theorem validate_action_outcome :
  forall (now stamp : string) (schemaErrors : Course -> list MergedError)
         (server : Course -> result (list MergedError)) (s : State),
    exists s',
      dispatch_all now stamp s (fst (validateCourse schemaErrors server s))
      = Ok s'
      /\ st_isLoading s' = false
      /\ st_course s' = st_course s
      /\ st_validationErrors s' = st_validationErrors s
      /\ (snd (validateCourse schemaErrors server s) = true <->
          exists v out,
            validateCourseFull schemaErrors (st_course s) = Ok (v, [])
            /\ transformCourseForBackend (st_course s) = Ok out
            /\ server out = Ok [])
      /\ (snd (validateCourse schemaErrors server s) = true ->
          editorValidationErrors (st_editorState s') = []
          /\ st_error s' = st_error s)
      /\ ((forall v es out se,
              validateCourseFull schemaErrors (st_course s) = Ok (v, es) ->
              transformCourseForBackend (st_course s) = Ok out ->
              server out <> Ok se) ->
          snd (validateCourse schemaErrors server s) = false
          /\ st_error s' = Some "Failed to validate course"
          /\ editorValidationErrors (st_editorState s')
             = editorValidationErrors (st_editorState s)).
Proof.
  intros now stamp schemaErrors server s. unfold validateCourse.
  destruct (validateCourseFull schemaErrors (st_course s)) as [[v es]|m1]
    eqn:E1; cbn [bind snd].
  2:{ eexists. split; [reflexivity|]. cbn [fst snd].
      split; [reflexivity|]. split; [reflexivity|]. split; [reflexivity|].
      split; [split; [discriminate|]|].
      { intros (v0 & o & H1 & _). discriminate H1. }
      split; [discriminate|]. intros _. repeat split. }
  destruct (transformCourseForBackend (st_course s)) as [out|m2] eqn:E2;
    cbn [bind].
  2:{ eexists. split; [reflexivity|]. cbn [fst snd].
      split; [reflexivity|]. split; [reflexivity|]. split; [reflexivity|].
      split; [split; [discriminate|]|].
      { intros (v0 & o & _ & H2 & _). discriminate H2. }
      split; [discriminate|]. intros _. repeat split. }
  destruct (server out) as [se|m3] eqn:E3; cbn [bind].
  2:{ eexists. split; [reflexivity|]. cbn [fst snd].
      split; [reflexivity|]. split; [reflexivity|]. split; [reflexivity|].
      split; [split; [discriminate|]|].
      { intros (v0 & o & _ & H2 & H3). injection H2 as <-. congruence. }
      split; [discriminate|]. intros _. repeat split. }
  eexists. split; [reflexivity|]. cbn [fst snd].
  split; [reflexivity|]. split; [reflexivity|]. split; [reflexivity|].
  split; [|split].
  - rewrite ClientRulesFacts.length_nil, mergeErrors_nil. split.
    + intros [-> ->]. eauto.
    + intros (v' & o & H & Ho & Hs). injection H as _ He.
      injection Ho as <-. rewrite E3 in Hs. injection Hs as Hse. auto.
  - intros H. apply ClientRulesFacts.length_nil in H.
    cbn. rewrite H. split; reflexivity.
  - intros H. exfalso. exact (H v es out se eq_refl eq_refl E3).
Qed.

End ReducerFacts.

(* ================================================================== *)
(** ** Properties of the field-level checks *)

Module FieldFacts.

Import Validation FieldValidation.

Lemma length_zero_empty (x : string) :
  (String.length x =? 0)%nat = (x =? "").
Proof.
  destruct x; reflexivity.
Qed.

(** X28.  On string values the form helper [validateCourseField] and the
    course validator's live check accept the same titles, authors and
    descriptions: one reports no issue exactly when the other reports no
    error.  The helper alone checks "version" (empty, or of the form
    x.y.z) and "language" (not empty). *)
Theorem field_helper_agrees_with_validator_on_strings :
  forall (now : string) (course : Course) (f s : string),
    (f = "title" \/ f = "author" \/ f = "description" ->
     exists r,
       CourseValidator_validateField now course f (VStr s) = Ok r
       /\ (errors r = [] <-> validateCourseField f (VStr s) = []))
    /\ (validateCourseField "version" (VStr s) = []
        <-> s = "" \/ is_semver s = true)
    /\ (validateCourseField "language" (VStr s) = [] <-> s <> "").
Proof.
  intros now course f s. split; [|split].
  - intros [-> | [-> | ->]];
      unfold CourseValidator_validateField, required_field,
        validateCourseField, missing, COURSE_TITLE_MAX, DESC_MAX, length_gt;
      cbn [String.eqb Ascii.eqb Bool.eqb truthy js_String value_length_gt];
      unfold length_gt; rewrite ?length_zero_empty;
      destruct (s =? ""); cbn [negb orb andb bind];
      try destruct (trim s =? ""); cbn [bind];
      try destruct (200 <? String.length s)%nat;
      try destruct (100 <? String.length s)%nat;
      try destruct (500 <? String.length s)%nat;
      cbn [when]; eexists; (split; [reflexivity|]);
      cbn [errors result_of]; split; intros H; try discriminate H;
      reflexivity.
  - unfold validateCourseField.
    cbn [String.eqb Ascii.eqb Bool.eqb truthy js_String].
    destruct (String.eqb_spec s "") as [->|Hne]; cbn [negb andb].
    + split; auto.
    + destruct (is_semver s); cbn [negb]; split; auto.
      * discriminate.
      * intros [H | H]; [contradiction | discriminate].
  - unfold validateCourseField.
    cbn [String.eqb Ascii.eqb Bool.eqb truthy js_String].
    destruct (String.eqb_spec s "") as [->|Hne]; cbn [negb].
    + split; [discriminate | intros H; now elim H].
    + split; auto.
Qed.

Lemma field_helper_agrees_with_validator_on_strings_witness :
  exists r,
    CourseValidator_validateField "t" ValidationSpec.shaped_course "title"
      (VStr "   ") = Ok r
    /\ (errors r = [] <-> validateCourseField "title" (VStr "   ") = []).
Proof.
  apply (proj1 (field_helper_agrees_with_validator_on_strings
                  "t" ValidationSpec.shaped_course "title" "   ")).
  now left.
Defined.

End FieldFacts.
